(** * Meeting summarizer: the structured-extraction pipeline

    A shallow embedding of the transcript analysis pipeline of the
    repository:

    - [AIEngine.process_transcript] and [AIEngine._fallback_parsing]
      of [ps 3/ai_engine.py],
    - [create_fallback_analysis], [classify_task_priority] and the
      analysis step of [summarize_meeting] of [ps 3/app.py],
    - [create_fallback_analysis] of the top-level (legacy) [app.py],
    - the request checks and the task loop of [summarize_meeting],
      [upload_file] and the recipients of [send_critical_task_email] of
      [ps 3/app.py],
    - [InputValidator] of [ps 3/validators.py], [RateLimiter] of
      [ps 3/rate_limiter.py] and [process_file] of
      [ps 3/file_processor.py].

    A Python [str] is a [string]; a character is a code point below 256
    ([ascii] has eight bits), so the embedding covers Latin-1 text.
    Python dictionaries are association lists in insertion order.  The
    generative model and [json.loads] are collaborators outside the
    repository and are taken as parameters. *)

From Stdlib Require Import String Ascii List ZArith Arith Bool Lia.
From Stdlib Require Import DecimalString SpecFloat.
Import ListNotations.

Local Open Scope list_scope.
Local Open Scope string_scope.
Local Open Scope nat_scope.

(* ================================================================= *)
(** ** Python strings *)

Module Py.

Definition code (c : ascii) : nat := nat_of_ascii c.

Definition between (lo hi n : nat) : bool := (lo <=? n) && (n <=? hi).

(** [str.isspace] on one character: TAB..CR, FS..US, space, NEL, NBSP. *)
Definition isspace (c : ascii) : bool :=
  let n := code c in
  between 9 13 n || between 28 32 n || (n =? 133) || (n =? 160).

(** [A-Z], [a-z] and [\d] of the [re] module. *)
Definition is_AZ (c : ascii) : bool := between 65 90 (code c).
Definition is_az (c : ascii) : bool := between 97 122 (code c).
Definition is_digit (c : ascii) : bool := between 48 57 (code c).

(** [str.lower] on one character: the ASCII capitals and the Latin-1
    capitals U+00C0..U+00DE (the multiplication sign U+00D7 apart). *)
Definition lower_char (c : ascii) : ascii :=
  let n := code c in
  if between 65 90 n || (between 192 222 n && negb (n =? 215))
  then ascii_of_nat (n + 32) else c.

(** Simple upper-case mapping, as the IGNORECASE flag of [re] uses it;
    the capitals of U+00B5 and U+00FF lie outside Latin-1. *)
Definition upper_char (c : ascii) : ascii :=
  let n := code c in
  if between 97 122 n || (between 224 254 n && negb (n =? 247))
  then ascii_of_nat (n - 32) else c.

Fixpoint lower (s : string) : string :=
  match s with
  | EmptyString => EmptyString
  | String c s' => String (lower_char c) (lower s')
  end.

Fixpoint lstrip (s : string) : string :=
  match s with
  | EmptyString => EmptyString
  | String c s' => if isspace c then lstrip s' else s
  end.

(** [s.rstrip(chars)], the characters to drop given as a test. *)
Fixpoint rstrip_by (p : ascii -> bool) (s : string) : string :=
  match s with
  | EmptyString => EmptyString
  | String c s' =>
      match rstrip_by p s' with
      | EmptyString => if p c then EmptyString else String c EmptyString
      | r => String c r
      end
  end.

Definition rstrip (s : string) : string := rstrip_by isspace s.

(** [s.strip()] *)
Definition strip (s : string) : string := rstrip (lstrip s).

(** Truth value of a string: [if s:] *)
Definition nonempty (s : string) : bool :=
  match s with EmptyString => false | String _ _ => true end.

(** [s.split(sep)] for a one-character separator. *)
Fixpoint split_char (sep : ascii) (s : string) : list string :=
  match s with
  | EmptyString => [EmptyString]
  | String c s' =>
      if Ascii.eqb c sep then EmptyString :: split_char sep s'
      else match split_char sep s' with
           | [] => [String c EmptyString]
           | w :: ws => String c w :: ws
           end
  end.

(** [s.split()]: the maximal runs of characters that are not spaces. *)
Fixpoint split_ws_aux (cur : string) (s : string) : list string :=
  match s with
  | EmptyString => if nonempty cur then [cur] else []
  | String c s' =>
      if isspace c
      then (if nonempty cur then cur :: split_ws_aux EmptyString s'
            else split_ws_aux EmptyString s')
      else split_ws_aux (cur ++ String c EmptyString) s'
  end.

Definition split_ws (s : string) : list string := split_ws_aux EmptyString s.

(** [needle in hay] on strings. *)
Fixpoint contains (needle hay : string) : bool :=
  prefix needle hay ||
  match hay with
  | EmptyString => false
  | String _ hay' => contains needle hay'
  end.

(** [x in l] on a list of strings. *)
Definition mem (x : string) (l : list string) : bool :=
  existsb (String.eqb x) l.

(** [any(k in s for k in keywords)] *)
Definition any_in (keywords : list string) (s : string) : bool :=
  existsb (fun k => contains k s) keywords.

(** [s.find(c)] for a one-character [c]: lowest index, or -1. *)
Fixpoint find_char (c : ascii) (s : string) : Z :=
  match s with
  | EmptyString => (-1)%Z
  | String d s' =>
      if Ascii.eqb d c then 0%Z
      else match find_char c s' with
           | Z.neg _ => (-1)%Z
           | i => (i + 1)%Z
           end
  end.

(** [s.rfind(c)] for a one-character [c]: highest index, or -1. *)
Fixpoint rfind_char (c : ascii) (s : string) : Z :=
  match s with
  | EmptyString => (-1)%Z
  | String d s' =>
      match rfind_char c s' with
      | Z.neg _ => if Ascii.eqb d c then 0%Z else (-1)%Z
      | i => (i + 1)%Z
      end
  end.

(** [s[a:b]] for indices that are not negative. *)
Definition slice (a b : Z) (s : string) : string :=
  substring (Z.to_nat a) (Z.to_nat (b - a)) s.

(** [s[:n]] *)
Definition take (n : nat) (s : string) : string := substring 0 n s.

(** [s.split(':', 1)[1]]: what follows the first [sep]; [None] stands for
    the IndexError of a string without [sep]. *)
Fixpoint after_first (sep : ascii) (s : string) : option string :=
  match s with
  | EmptyString => None
  | String c s' => if Ascii.eqb c sep then Some s' else after_first sep s'
  end.

(** [str(n)] for a length. *)
Definition str_of_nat (n : nat) : string :=
  NilZero.string_of_uint (Nat.to_uint n).

(** [sep.join(l)] *)
Definition join (sep : string) (l : list string) : string :=
  String.concat sep l.

(** The double quote. *)
Definition dq : string := String (ascii_of_nat 34) EmptyString.

(** The line feed. *)
Definition LF : ascii := ascii_of_nat 10.

End Py.

(* ================================================================= *)
(** ** The fragment of [re] the program uses

    A backtracking matcher in continuation-passing style: alternatives
    are tried greedy first, which is the order of Python's engine.  None
    of the program's patterns matches the empty string. *)

Module Re.

Inductive regex : Type :=
| Eps                                  (* the empty pattern *)
| Bol                                  (* ^ *)
| Cls (p : ascii -> bool)              (* a class or a literal character *)
| Seq (a b : regex)
| Star (a : regex)                     (* a*, greedy *)
| Opt (a : regex)                      (* a?, greedy *)
| Grp (i : nat) (a : regex).           (* capturing group number i *)

Definition Plus (a : regex) : regex := Seq a (Star a).
Definition Chr (c : ascii) : regex := Cls (Ascii.eqb c).
Definition Cat (l : list regex) : regex := fold_right Seq Eps l.

(** [.] without DOTALL *)
Definition Dot : regex := Cls (fun c => negb (Ascii.eqb c Py.LF)).

Definition groups : Type := list (nat * string).

Definition group (i : nat) (g : groups) : string :=
  match find (fun e => fst e =? i) g with
  | Some e => snd e
  | None => EmptyString
  end.

(** One character against a class, under the IGNORECASE flag or not. *)
Definition cls_test (icase : bool) (p : ascii -> bool) (c : ascii) : bool :=
  if icase then p c || p (Py.lower_char c) || p (Py.upper_char c) else p c.

Section Matcher.
Context {R : Type} (icase : bool).

(** [rx r pos s g k]: match [r] at offset [pos] of the subject, [s]
    being the rest of the subject from there on. *)
Fixpoint rx (r : regex) (pos : nat) (s : string) (g : groups)
    (k : nat -> string -> groups -> option R) {struct r} : option R :=
  match r with
  | Eps => k pos s g
  | Bol => if pos =? 0 then k pos s g else None
  | Cls p =>
      match s with
      | String c s' => if cls_test icase p c then k (S pos) s' g else None
      | EmptyString => None
      end
  | Seq a b => rx a pos s g (fun pos' s' g' => rx b pos' s' g' k)
  | Opt a =>
      match rx a pos s g k with
      | Some x => Some x
      | None => k pos s g
      end
  | Grp i a =>
      rx a pos s g
         (fun pos' s' g' => k pos' s' ((i, substring 0 (pos' - pos) s) :: g'))
  | Star a =>
      (fix loop (fuel : nat) (pos : nat) (s : string) (g : groups) : option R :=
         match fuel with
         | O => k pos s g
         | S fuel' =>
             match rx a pos s g
                      (fun pos' s' g' =>
                         if pos' =? pos then None else loop fuel' pos' s' g')
             with
             | Some x => Some x
             | None => k pos s g
             end
         end) (String.length s) pos s g
  end.
End Matcher.

(** A match: the offset where it ends, the rest of the subject after it,
    and the groups. *)
Definition found : Type := (nat * string * groups)%type.

Definition match_at (icase : bool) (r : regex) (pos : nat) (s : string)
  : option found :=
  rx icase r pos s [] (fun pos' s' g => Some (pos', s', g)).

(** [re.match(r, s)] *)
Definition rmatch (icase : bool) (r : regex) (s : string) : option groups :=
  match match_at icase r 0 s with
  | Some (_, _, g) => Some g
  | None => None
  end.

(** [re.search(r, s)]: the leftmost match. *)
Fixpoint search_from (icase : bool) (r : regex) (pos : nat) (s : string)
  : option groups :=
  match match_at icase r pos s with
  | Some (_, _, g) => Some g
  | None =>
      match s with
      | EmptyString => None
      | String _ s' => search_from icase r (S pos) s'
      end
  end.

Definition search (icase : bool) (r : regex) (s : string) : option groups :=
  search_from icase r 0 s.

(** The scan shared by [findall], [split] and [sub]: the subject is cut
    into the texts between the matches and the matches themselves.
    [scan] returns the pieces [(gap, matched)] in order and the text after
    the last match.  [fuel] bounds the number of characters looked at. *)
Fixpoint scan (fuel : nat) (r : regex) (pos : nat) (s : string) (gap : string)
  : list (string * string) * string :=
  match fuel with
  | O => ([], gap ++ s)
  | S fuel' =>
      match match_at false r pos s with
      | Some (pos', s', _) =>
          if pos' =? pos
          then match s with
               | EmptyString => ([], gap)
               | String c t => scan fuel' r (S pos) t (gap ++ String c EmptyString)
               end
          else let '(ms, rest) := scan fuel' r pos' s' EmptyString in
               ((gap, substring 0 (pos' - pos) s) :: ms, rest)
      | None =>
          match s with
          | EmptyString => ([], gap)
          | String c t => scan fuel' r (S pos) t (gap ++ String c EmptyString)
          end
      end
  end.

Definition scan_all (r : regex) (s : string) : list (string * string) * string :=
  scan (S (String.length s)) r 0 s EmptyString.

(** [re.findall(r, s)] for a pattern without groups. *)
Definition findall (r : regex) (s : string) : list string :=
  map snd (fst (scan_all r s)).

(** [re.split(r, s)] for a pattern without groups. *)
Definition split (r : regex) (s : string) : list string :=
  let '(ms, rest) := scan_all r s in (map fst ms ++ [rest])%list.

(** [re.sub(r, '', s)] *)
Definition sub_empty (r : regex) (s : string) : string :=
  let '(ms, rest) := scan_all r s in String.concat EmptyString (map fst ms) ++ rest.

End Re.

(* ================================================================= *)
(** ** Python values, dictionaries and exceptions *)

Module Data.

#[local] Set Warnings "-register-all".

(** The values a result holds: what [json.loads] can return and what the
    fallback extractors build. *)
Inductive value : Type :=
| VNone
| VBool (b : bool)
| VInt (z : Z)
| VFloat (f : spec_float)
| VStr (s : string)
| VList (l : list value)
| VDict (d : list (string * value)).

(** A [dict] with string keys, in insertion order. *)
Definition dict : Type := list (string * value).

Fixpoint dict_get (k : string) (d : dict) : option value :=
  match d with
  | [] => None
  | (k', v) :: d' => if String.eqb k' k then Some v else dict_get k d'
  end.

(** [d[k] = v]: an existing key keeps its place. *)
Fixpoint dict_set (k : string) (v : value) (d : dict) : dict :=
  match d with
  | [] => [(k, v)]
  | (k', v') :: d' =>
      if String.eqb k' k then (k, v) :: d' else (k', v') :: dict_set k v d'
  end.

(** [k in d] *)
Definition dict_mem (k : string) (d : dict) : bool :=
  match dict_get k d with Some _ => true | None => false end.

(** [d.get(k, default)] *)
Definition dict_get_default (k : string) (default : value) (d : dict) : value :=
  match dict_get k d with Some v => v | None => default end.

(** A dictionary display [{k1: v1, ..., kn: vn}]: the items are stored
    from left to right, so a repeated key keeps its first place and its
    last value. *)
Definition dict_display (items : list (string * value)) : dict :=
  fold_left (fun d kv => dict_set (fst kv) (snd kv) d) items [].

Inductive exn : Type :=
| JSONDecodeError
| TypeError
| KeyError
| IndexError
| AttributeError
| OtherError (name : string).   (* any other exception class *)

Inductive outcome (A : Type) : Type :=
| Return (a : A)
| Raise (e : exn).

Arguments Return {A} a.
Arguments Raise {A} e.

(** Truth value of an object: [if v:] *)
Definition truthy (v : value) : bool :=
  match v with
  | VNone => false
  | VBool b => b
  | VInt z => negb (Z.eqb z 0)
  | VFloat f => match f with S754_zero _ => false | _ => true end
  | VStr s => Py.nonempty s
  | VList l => match l with [] => false | _ => true end
  | VDict d => match d with [] => false | _ => true end
  end.

(** [len(v)]: a TypeError on an object without a length. *)
Definition py_len (v : value) : outcome nat :=
  match v with
  | VStr s => Return (String.length s)
  | VList l => Return (List.length l)
  | VDict d => Return (List.length d)
  | _ => Raise TypeError
  end.

End Data.

(* ================================================================= *)
(** ** [ps 3/ai_engine.py]: class [AIEngine] *)

Module AIEngine.
Import Py Data.

(** The generative model: [model.generate_content(prompt)] and the
    [.text] of its response, which give the response text or raise. *)
Definition Model : Type := string -> outcome string.

(** An engine holds its model, or [None] in fallback mode. *)
Record engine : Type := { model : option Model }.

(** [AIEngine.__init__]: the model is configured and tried on one
    request; a failure there leaves the engine without a model. *)
Definition init (generate_content : Model) : engine :=
  match generate_content "Test" with
  | Return _ => {| model := Some generate_content |}
  | Raise _ => {| model := None |}
  end.

(** *** The prompt

    The text of the f-string.  The template below has a backquote where
    the f-string has a double quote, and [quoted] puts the double quotes
    back. *)

Fixpoint quoted (s : string) : string :=
  match s with
  | EmptyString => EmptyString
  | String c s' =>
      (if Ascii.eqb c "`"%char then dq else String c EmptyString) ++ quoted s'
  end.

Definition prompt_head : string :=
  "You are an AI assistant specialized in analyzing meeting transcripts for B2B enterprise use. ".

Definition prompt_schema : string := quoted
  "Analyze the following meeting transcript and return a single, valid JSON object with the exact structure specified below.

CRITICAL REQUIREMENTS:
- Return ONLY valid JSON, no additional text, explanations, or formatting
- Use the exact field names and structure provided
- Ensure all strings are properly escaped for JSON
- Focus on ACCURATE extraction of key points and tasks
- Ensure proper context understanding to avoid mis-assigning tasks

JSON STRUCTURE:
{
  `summary`: `A concise executive summary of the meeting, maximum 200 words. Focus on key outcomes and decisions.`,
  `mood`: {
    `overall`: `Positive/Negative/Neutral`,
    `justification`: `Brief explanation of the mood assessment based on language, tone, and outcomes`
  },
  `action_items`: [
    {
      `task`: `A clear description of the action item or task.`,
      `assignee`: `The exact name of the person responsible (use names as mentioned in transcript).`,
      `assigned_by`: `The person who assigned the task (if mentioned).`,
      `deadline`: `The specified deadline if mentioned, or 'Not specified'.`,
      `priority`: `High/Medium/Low based on urgency and importance mentioned.`,
      `confidence`: `A numerical confidence score from 0.0 to 1.0 for extraction accuracy.`
    }
  ],
  `tasks`: [
    {
      `task`: `Detailed task description`,
      `assigned_to`: `Person responsible`,
      `assigned_by`: `Person who assigned it`,
      `deadline`: `Deadline if mentioned`,
      `priority`: `Critical/High/Medium/Low`,
      `confidence`: `High/Medium/Low`
    }
  ],
  `participants`: [
    {
      `name`: `Participant name as mentioned in transcript`,
      `role`: `Their role or title if mentioned`,
      `key_contributions`: [`Their main contributions or important statements`]
    }
  ],
  `key_decisions`: [
    `List of key decisions made during the meeting`
  ],
  `next_steps`: [
    `Recommended follow-up actions`
  ],
  `remarks`: [
    {
      `person`: `Name of person`,
      `remark`: `Important quote or observation`
    }
  ]
}

ANALYSIS GUIDELINES:

SUMMARY:
- Provide a clear, concise summary focusing on main outcomes
- Use professional, business-focused language
- Maximum 200 words

MOOD ANALYSIS:
- Assess overall meeting sentiment: Positive (productive, collaborative, successful), Negative (conflict, problems, setbacks), Neutral (routine, informational)
- Base assessment on language tone, outcomes, and participant engagement
- Provide brief justification for the mood assessment

ACTION ITEMS & TASKS:
- Extract ALL tasks, assignments, and commitments mentioned
- Use EXACT names as they appear in the transcript
- Priority: `Critical` (urgent/emergency), `High` (important/urgent), `Medium` (important), `Low` (standard)
- Confidence: `High` (explicit assignment), `Medium` (clear implication), `Low` (suggested/uncertain)
- If assignee is unclear, use `Unassigned`
- If deadline not mentioned, use `Not specified`

PARTICIPANTS:
- Identify all people mentioned in the transcript
- Include their roles if mentioned
- Note their key contributions

KEY DECISIONS:
- List concrete decisions, agreements, or resolutions made
- Use clear, concise statements

NEXT STEPS:
- Identify recommended follow-up actions
- Focus on practical, actionable items

REMARKS:
- Extract important quotes or observations from participants
- Focus on statements that provide insight or context

ACCURACY FOCUS:
- Double-check task assignments match the transcript
- Ensure context understanding to avoid mis-assignment
- Verify all names and details are accurate

Meeting transcript:
".

Definition prompt_tail : string :=
  "

Return only the JSON object:".

(** [if client_name:] on an optional string. *)
Definition given (s : option string) : bool :=
  match s with Some t => nonempty t | None => false end.

(** [f"{name}"] *)
Definition fmt (s : option string) : string :=
  match s with Some t => t | None => "None" end.

Definition context_intro (client_name project_name : option string) : string :=
  if given client_name && given project_name then
    "You are analyzing a meeting for the client " ++ fmt client_name
    ++ " regarding the project " ++ fmt project_name
    ++ ". With this context in mind, analyze the following transcript:

"
  else if given client_name then
    "You are analyzing a meeting for the client " ++ fmt client_name
    ++ ". With this context in mind, analyze the following transcript:

"
  else if given project_name then
    "You are analyzing a meeting regarding the project " ++ fmt project_name
    ++ ". With this context in mind, analyze the following transcript:

"
  else "".

Definition prompt (transcript : string) (client_name project_name : option string)
  : string :=
  prompt_head ++ context_intro client_name project_name ++ prompt_schema
  ++ transcript ++ prompt_tail.

(** *** [_fallback_parsing]

    The body of the [try] runs on the dictionary [result], which it
    changes in place: a computation takes the dictionary and gives an
    outcome and the dictionary as it then is, also when it raises. *)

Definition M (A : Type) : Type := dict -> outcome A * dict.

Definition ret {A : Type} (a : A) : M A := fun result => (Return a, result).

Definition raise {A : Type} (e : exn) : M A := fun result => (Raise e, result).

Definition bind {A B : Type} (m : M A) (f : A -> M B) : M B :=
  fun result =>
    match m result with
    | (Return a, result') => f a result'
    | (Raise e, result') => (Raise e, result')
    end.

Notation "x <- m ;; k" := (bind m (fun x => k))
  (at level 61, m at next level, right associativity).
Notation "m ;;; k" := (bind m (fun _ => k))
  (at level 61, right associativity).

(** [result[k]] *)
Definition getitem (k : string) : M value :=
  fun result =>
    match dict_get k result with
    | Some v => (Return v, result)
    | None => (Raise KeyError, result)
    end.

(** [result[k] = v] *)
Definition setitem (k : string) (v : value) : M unit :=
  fun result => (Return tt, dict_set k v result).

(** [result[k].append(v)] *)
Definition append (k : string) (v : value) : M unit :=
  x <- getitem k ;;
  match x with
  | VList l => setitem k (VList (l ++ [v])%list)
  | _ => raise AttributeError
  end.

(** The dictionary [_fallback_parsing] starts from. *)
Definition result0 : dict :=
  dict_display
    [("summary", VStr ""); ("action_items", VList []); ("participants", VList []);
     ("key_decisions", VList []); ("next_steps", VList [])].

(** [r'^[\d\.\-\*\+]\s*'] *)
Definition bullet : Re.regex :=
  Re.Cat [Re.Bol;
          Re.Cls (fun c => is_digit c
                           || existsb (Ascii.eqb c) ["."%char; "-"%char; "*"%char; "+"%char]);
          Re.Star (Re.Cls isspace)].

(** One turn of [for line in lines]; [current_section] is carried from
    line to line. *)
Definition parse_line (current_section : option string) (line : string)
  : M (option string) :=
  let line := strip line in
  if negb (nonempty line) then ret current_section
  else
    let line_lower := lower line in
    if contains "summary" line_lower && contains ":" line then
      (if contains ":" line then
         match after_first ":"%char line with
         | None => raise IndexError
         | Some rest =>
             let summary_part := strip rest in
             if nonempty summary_part
             then setitem "summary" (VStr summary_part)
             else ret tt
         end
       else ret tt) ;;;
      ret (Some "summary")
    else if contains "action" line_lower && contains "item" line_lower then
      ret (Some "action_items")
    else if contains "decision" line_lower then
      ret (Some "key_decisions")
    else if contains "next" line_lower && contains "step" line_lower then
      ret (Some "next_steps")
    else
      match current_section with
      | Some section =>
          if nonempty section then
            is_summary <-
              (if String.eqb section "summary"
               then (s <- getitem "summary" ;; ret (negb (truthy s)))
               else ret false) ;;
            if is_summary then
              setitem "summary" (VStr line) ;;; ret current_section
            else if mem section ["action_items"; "key_decisions"; "next_steps"] then
              let clean_line := Re.sub_empty bullet line in
              (if nonempty clean_line && (3 <? String.length clean_line)
               then append section (VStr clean_line)
               else ret tt) ;;;
              ret current_section
            else ret current_section
          else ret current_section
      | None => ret current_section
      end.

Fixpoint parse_lines (current_section : option string) (lines : list string)
  : M (option string) :=
  match lines with
  | [] => ret current_section
  | line :: lines' =>
      section <- parse_line current_section line ;;
      parse_lines section lines'
  end.

(** [sentences[0][:200] + '...' if len(sentences[0]) > 200 else sentences[0]] *)
Definition first_sentence (s : string) : string :=
  if 200 <? String.length s then take 200 s ++ "..." else s.

(** The body of the [try] block. *)
Definition fallback_body (text : string) : M unit :=
  let lines := split_char LF text in
  parse_lines None lines ;;;
  s <- getitem "summary" ;;
  if negb (truthy s) then
    let sentences :=
      map strip
          (filter (fun line => nonempty (strip line)
                               && (20 <? String.length (strip line))) lines) in
    match sentences with
    | first :: _ => setitem "summary" (VStr (first_sentence first))
    | [] => setitem "summary" (VStr "Meeting transcript processed successfully.")
    end
  else ret tt.

(** [except Exception]: the summary is replaced on the dictionary as the
    body left it. *)
Definition _fallback_parsing (text : string) : dict :=
  match fallback_body text result0 with
  | (Return _, result) => result
  | (Raise _, result) =>
      dict_set "summary"
               (VStr ("Parsed with limitations: " ++ take 100 text ++ "..."))
               result
  end.

(** *** [process_transcript] *)

(** [if k not in result: result[k] = v] *)
Definition backfill (k : string) (v : value) (result : dict) : dict :=
  if negb (dict_mem k result) then dict_set k v result else result.

(** [# Ensure all required fields exist] *)
Definition ensure_fields (result : dict) : dict :=
  let result := backfill "summary" (VStr "No summary available.") result in
  let result := backfill "action_items" (VList []) result in
  let result := backfill "key_decisions" (VList []) result in
  let result := backfill "next_steps" (VList []) result in
  result.

Section Process.
(** [json.loads] on the candidate payload.  The payload is empty or
    starts with an opening brace, so what parses is an object. *)
Variable json_loads : string -> outcome dict.

(** The three [len(result.get(k, []))] of the log line after a parse. *)
Definition log_counts (result : dict) : outcome unit :=
  match py_len (dict_get_default "action_items" (VList []) result) with
  | Raise e => Raise e
  | Return _ =>
      match py_len (dict_get_default "key_decisions" (VList []) result) with
      | Raise e => Raise e
      | Return _ =>
          match py_len (dict_get_default "next_steps" (VList []) result) with
          | Raise e => Raise e
          | Return _ => Return tt
          end
      end
  end.

(** The inner [try]: the response text is repaired and parsed. *)
Definition parse_response (response_text : string) : outcome dict :=
  let json_start := find_char "{"%char response_text in
  let json_end := (rfind_char "}"%char response_text + 1)%Z in
  if negb (Z.eqb json_start (-1)) && negb (Z.eqb json_end 0) then
    let json_text := slice json_start json_end response_text in
    match json_loads json_text with
    | Return result =>
        let result := ensure_fields result in
        match log_counts result with
        | Return _ => Return result
        | Raise e => Raise e
        end
    | Raise JSONDecodeError => Return (_fallback_parsing response_text)
    | Raise e => Raise e
    end
  else Return (_fallback_parsing response_text).

(** The outer handler logs the exception and raises it again, so an
    exception of the body is the outcome of the call. *)
Definition process_transcript (self : engine) (transcript : string)
    (client_name project_name : option string) : outcome dict :=
  match model self with
  | None => Return (_fallback_parsing transcript)
  | Some generate_content =>
      match generate_content (prompt transcript client_name project_name) with
      | Raise e => Raise e
      | Return text => parse_response (strip text)
      end
  end.

(** [summarize]: the legacy wrapper, [result['summary']]. *)
Definition summarize (self : engine) (meeting_content : string) : outcome value :=
  match process_transcript self meeting_content None None with
  | Raise e => Raise e
  | Return result =>
      match dict_get "summary" result with
      | Some v => Return v
      | None => Raise KeyError
      end
  end.
End Process.

End AIEngine.

(* ================================================================= *)
(** ** The remark pass, which both [app.py] files share

    The loop headed [# Extract action items from transcript] reads the
    same in [app.py] and in [ps 3/app.py]. *)

Module Remarks.
Import Py Data.

(** A [set] of strings is the list of its elements in the order they
    were added.  The order in which Python iterates over it depends on
    the hash seed of the process, and is the parameter [set_iter]. *)
Definition pyset : Type := list string.

Definition set_add (x : string) (s : pyset) : pyset :=
  if mem x s then s else (s ++ [x])%list.

Definition set_update (xs : list string) (s : pyset) : pyset :=
  fold_left (fun acc x => set_add x acc) xs s.

(** [[A-Z][a-z]+] *)
Definition word : Re.regex := Re.Cat [Re.Cls is_AZ; Re.Plus (Re.Cls is_az)].

(** [r'^(NAMES):\s*(.+)'], where NAMES reads [[A-Z][a-z]+(?:\s+[A-Z][a-z]+)*] *)
Definition speaker_re : Re.regex :=
  Re.Cat [Re.Bol;
          Re.Grp 1 (Re.Cat [word;
                            Re.Star (Re.Cat [Re.Plus (Re.Cls isspace); word])]);
          Re.Chr ":"; Re.Star (Re.Cls isspace);
          Re.Grp 2 (Re.Plus Re.Dot)].

(** [r'to\s+([A-Z][a-z]+)'], [r'@([A-Z][a-z]+)'], [r'for\s+([A-Z][a-z]+)'],
    [r'([A-Z][a-z]+),?\s+you'] *)
Definition direct_patterns : list Re.regex :=
  [ Re.Cat [Re.Chr "t"; Re.Chr "o"; Re.Plus (Re.Cls isspace); Re.Grp 1 word];
    Re.Cat [Re.Chr "@"; Re.Grp 1 word];
    Re.Cat [Re.Chr "f"; Re.Chr "o"; Re.Chr "r"; Re.Plus (Re.Cls isspace);
            Re.Grp 1 word];
    Re.Cat [Re.Grp 1 word; Re.Opt (Re.Chr ","); Re.Plus (Re.Cls isspace);
            Re.Chr "y"; Re.Chr "o"; Re.Chr "u"] ].

Definition remark_keywords : list string :=
  ["feedback"; "comment"; "suggestion"; "note"; "remark"; "observation";
   "think"; "believe"; "feel"; "consider"; "recommend"; "suggest";
   "concern"; "worry"; "issue"; "problem"; "good"; "great"; "excellent";
   "bad"; "wrong"; "improve"; "better"; "change"; "update"].

(** [for pattern in direct_patterns]: the first pattern found in
    [content], under IGNORECASE, with a group that is not empty. *)
Fixpoint direct_address (patterns : list Re.regex) (content : string)
  : option string :=
  match patterns with
  | [] => None
  | pattern :: patterns' =>
      match Re.search true pattern content with
      | Some g =>
          if nonempty (Re.group 1 g) then Some (Re.group 1 g)
          else direct_address patterns' content
      | None => direct_address patterns' content
      end
  end.

Section Pass.
Variable set_iter : pyset -> list string.

(** Who a remark is given to. *)
Definition given_to_of (participants : pyset) (speaker content : string)
  : string :=
  let content_lower := lower content in
  let given_to :=
    match find (fun participant =>
                  negb (String.eqb participant speaker)
                  && contains (lower participant) content_lower)
               (set_iter participants) with
    | Some participant => participant
    | None => "General"
    end in
  match direct_address direct_patterns content with
  | Some name => name
  | None => given_to
  end.

(** One turn of [for line in lines]. *)
Definition remark_line (st : list value * pyset) (line : string)
  : list value * pyset :=
  let '(action_items, participants) := st in
  let line := strip line in
  if negb (nonempty line) then st
  else
    match Re.rmatch false speaker_re line with
    | Some g =>
        let speaker := strip (Re.group 1 g) in
        let content := strip (Re.group 2 g) in
        let participants := set_add speaker participants in
        if any_in remark_keywords (lower content) then
          ((action_items
            ++ [VDict (dict_display
                         [("person", VStr speaker); ("remark", VStr content);
                          ("given_to",
                           VStr (given_to_of participants speaker content))])])%list,
           participants)
        else (action_items, participants)
    | None => st
    end.

(** The list [action_items] the loop leaves. *)
Definition remarks (lines : list string) : list value :=
  fst (fold_left remark_line lines ([], [])).

(** [if not action_items: action_items = [...]] *)
Definition or_generic (action_items : list value) : list value :=
  match action_items with
  | [] =>
      [VDict (dict_display
                [("person", VStr "System");
                 ("remark",
                  VStr "Meeting analysis completed using fallback processing");
                 ("given_to", VStr "General")])]
  | _ => action_items
  end.
End Pass.

End Remarks.

(* ================================================================= *)
(** ** [app.py], the legacy version *)

Module LegacyApp.
Import Py Data Remarks.

Definition positive_words : list string :=
  ["good"; "great"; "excellent"; "positive"; "success"; "complete"; "finished";
   "ready"; "done"; "progress"].

Definition negative_words : list string :=
  ["problem"; "issue"; "error"; "failed"; "critical"; "urgent"; "delay";
   "concern"; "worry"; "difficult"].

(** [sum(1 for word in words if word in vocabulary)] *)
Definition count_in (vocabulary words : list string) : nat :=
  List.length (filter (fun word => mem word vocabulary) words).

(** The mood and its justification. *)
Definition mood_of (positive_count negative_count : nat) : string * string :=
  if negative_count <? positive_count then
    ("Positive", "Meeting had more positive language and successful outcomes")
  else if positive_count <? negative_count then
    ("Negative", "Meeting contained several issues and problems to address")
  else
    ("Neutral", "Meeting had balanced discussion of topics").

(** [r'[A-Z][a-z]+:'] *)
Definition name_colon : Re.regex := Re.Cat [word; Re.Chr ":"].

(** [r'[.!?]+'] *)
Definition sentence_end : Re.regex :=
  Re.Plus (Re.Cls (fun c => existsb (Ascii.eqb c) ["."%char; "!"%char; "?"%char])).

(** [r'^([A-Z][a-z]+):'] *)
Definition assignee_re : Re.regex := Re.Cat [Re.Bol; Re.Grp 1 word; Re.Chr ":"].

(** [r'^[A-Z][a-z]+:\s*'] *)
Definition task_prefix : Re.regex :=
  Re.Cat [Re.Bol; word; Re.Chr ":"; Re.Star (Re.Cls isspace)].

Definition task_keywords : list string :=
  ["will"; "need to"; "should"; "must"; "finish"; "complete"; "schedule";
   "test"; "help with"].

Definition decision_keywords : list string :=
  ["decided"; "agreed"; "concluded"; "final"; "approved"; "confirmed"; "perfect"].

Definition next_step_keywords : list string :=
  ["next"; "follow up"; "schedule"; "plan"; "prepare"; "finalize"].

(** The priority of a statement, from its lower-case text. *)
Definition statement_priority (statement_lower : string) : string :=
  if any_in ["critical"; "urgent"; "asap"; "immediately"; "friday"] statement_lower
  then "high"
  else if any_in ["important"; "priority"; "soon"; "thursday"] statement_lower
  then "medium"
  else "low".

(** [lines]: the lines of the transcript, stripped, the empty ones left
    out. *)
Definition lines_of (transcript : string) : list string :=
  filter nonempty (map strip (split_char LF transcript)).

(** [names]: every [Name:] of every line. *)
Definition names_of (lines : list string) : pyset :=
  fold_left
    (fun names line =>
       set_update (map (rstrip_by (Ascii.eqb ":")) (Re.findall name_colon line))
                  names)
    lines [].

(** [statements]: the parts of the lines between full stops, question
    and exclamation marks that are longer than ten characters. *)
Definition statements_of (lines : list string) : list string :=
  flat_map
    (fun line =>
       filter (fun part => nonempty part && (10 <? String.length part))
              (map strip (Re.split sentence_end line)))
    lines.

(** The three lists [for statement in statements] fills. *)
Record found : Type :=
  { action_items : list value;
    key_decisions : list string;
    next_steps : list string }.

(** The action item of a statement, when it has one. *)
Definition task_item (statement : string) : list value :=
  let statement_lower := lower statement in
  if any_in task_keywords statement_lower then
    let assignee :=
      match Re.search false assignee_re statement with
      | Some g => Re.group 1 g
      | None => "Unassigned"
      end in
    let priority := statement_priority statement_lower in
    let task_desc := strip (Re.sub_empty task_prefix statement) in
    if nonempty task_desc && (10 <? String.length task_desc) then
      [VDict (dict_display
                [("task", VStr task_desc); ("assignee", VStr assignee);
                 ("assigned_by", VStr "Meeting");
                 ("deadline", VStr "Not specified");
                 ("priority", VStr priority); ("confidence", VStr "Medium")])]
    else []
  else [].

(** One turn of [for statement in statements]. *)
Definition scan_statement (acc : found) (statement : string) : found :=
  let statement_lower := lower statement in
  {| action_items := (action_items acc ++ task_item statement)%list;
     key_decisions :=
       if any_in decision_keywords statement_lower
       then (key_decisions acc ++ [strip statement])%list else key_decisions acc;
     next_steps :=
       if any_in next_step_keywords statement_lower
       then (next_steps acc ++ [strip statement])%list else next_steps acc |}.

Definition scan_statements (statements : list string) : found :=
  fold_left scan_statement statements
            {| action_items := []; key_decisions := []; next_steps := [] |}.

(** [item[k]] for an item whose values are strings. *)
Definition item_str (k : string) (item : value) : string :=
  match item with
  | VDict d => match dict_get k d with Some (VStr s) => s | _ => "" end
  | _ => ""
  end.

Definition default_decisions : list string :=
  ["Project timeline and deliverables discussed"; "Resource allocation planned";
   "Next meeting scheduled"].

Definition default_next_steps : list string :=
  ["Follow up on action items"; "Prepare progress report";
   "Schedule next review meeting"].

(** [if not l: l = default] *)
Definition or_default (l default : list string) : list string :=
  match l with [] => default | _ => l end.

Section Fallback.
Variable set_iter : pyset -> list string.

(** [summary_parts], one optional sentence after the other. *)
Definition summary_parts (client_name project_name : string) (names : pyset)
    (tasks : list value) (decisions : list string) (mood : string)
  : list string :=
  let heading :=
    "Meeting for " ++ client_name ++ " regarding " ++ project_name ++ "." in
  let participants :=
    match names with
    | [] => []
    | _ => ["Participants included: "
            ++ join ", " (firstn 3 (set_iter names)) ++ "."]
    end in
  let key_tasks :=
    match tasks with
    | [] => []
    | first :: _ =>
        ["Key tasks identified: " ++ str_of_nat (List.length tasks)
         ++ " action items including " ++ take 50 (item_str "task" first)
         ++ "..."]
    end in
  let decisions_made :=
    match decisions with
    | [] => []
    | first :: _ => ["Important decisions made: " ++ take 50 first ++ "..."]
    end in
  let closing :=
    "Overall meeting mood was " ++ lower mood
    ++ " with focus on project deliverables and timeline." in
  (heading :: participants ++ key_tasks ++ decisions_made ++ [closing])%list.

Definition create_fallback_analysis (transcript client_name project_name : string)
  : dict :=
  let words := split_ws (lower transcript) in
  let positive_count := count_in positive_words words in
  let negative_count := count_in negative_words words in
  let '(mood, mood_justification) := mood_of positive_count negative_count in
  let lines := lines_of transcript in
  let names := names_of lines in
  let statements := statements_of lines in
  let acc := scan_statements statements in
  let summary :=
    join " " (summary_parts client_name project_name names
                            (action_items acc) (key_decisions acc) mood) in
  let key_decisions := or_default (key_decisions acc) default_decisions in
  let next_steps := or_default (next_steps acc) default_next_steps in
  (* the list of the first loop is dropped here *)
  let action_items := or_generic (remarks set_iter lines) in
  dict_display
    [("summary", VStr summary);
     ("mood", VDict (dict_display [("overall", VStr mood);
                                   ("justification", VStr mood_justification)]));
     ("action_items", VList (firstn 10 action_items));
     ("key_decisions", VList (map VStr (firstn 3 key_decisions)));
     ("next_steps", VList (map VStr (firstn 3 next_steps)))].
End Fallback.

End LegacyApp.

(* ================================================================= *)
(** ** [ps 3/app.py] *)

Module App.
Import Py Data Remarks.

Definition positive_words : list string :=
  ["good"; "great"; "excellent"; "positive"; "success"; "complete"; "finished"].

Definition negative_words : list string :=
  ["problem"; "issue"; "error"; "failed"; "critical"; "urgent"; "delay"].

(** [r'[A-Z][a-z]+ [A-Z][a-z]+'] *)
Definition full_name : Re.regex := Re.Cat [word; Re.Chr " "; word].

(** One turn of the first [for line in lines]. *)
Definition task_line (line : string) : list value :=
  let line_lower := lower line in
  if any_in ["will"; "need to"; "should"; "must"; "task"; "action"] line_lower then
    let names := Re.findall full_name line in
    let assignee := match names with first :: _ => first | [] => "Unassigned" end in
    let priority :=
      if any_in ["critical"; "urgent"; "asap"; "immediately"] line_lower then "high"
      else if any_in ["important"; "priority"; "soon"] line_lower then "medium"
      else "low" in
    [VDict (dict_display
              [("task", VStr (strip line)); ("assignee", VStr assignee);
               ("assigned_by", VStr "Meeting"); ("deadline", VStr "Not specified");
               ("priority", VStr priority); ("confidence", VStr "Medium")])]
  else [].

Definition high_keywords : list string :=
  ["must"; "asap"; "critical"; "urgent"; "immediately"; "emergency"; "deadline";
   "crucial"; "vital"; "essential"; "required by"].

Definition medium_keywords : list string :=
  ["should soon"; "priority"; "important"; "should"; "preferred"; "recommend";
   "significant"; "moderate"; "needed soon"].

Definition classify_task_priority (task_text context : string) : string :=
  let task_lower := lower (task_text ++ " " ++ context) in
  if any_in high_keywords task_lower then "high"
  else if any_in medium_keywords task_lower then "medium"
  else "low".

Section Fallback.
Variable set_iter : pyset -> list string.

Definition create_fallback_analysis (transcript client_name project_name : string)
  : dict :=
  let words := split_ws (lower transcript) in
  let positive_count := LegacyApp.count_in positive_words words in
  let negative_count := LegacyApp.count_in negative_words words in
  let '(mood, mood_justification) :=
    LegacyApp.mood_of positive_count negative_count in
  let lines := split_char LF transcript in
  let action_items := flat_map task_line lines in
  (* the list of the first loop is dropped here *)
  let action_items := or_generic (remarks set_iter lines) in
  let summary :=
    "Meeting for " ++ client_name ++ " regarding " ++ project_name
    ++ ". Key topics discussed include project progress, technical implementation, and upcoming deliverables. "
    ++ str_of_nat (List.length action_items) ++ " action items identified." in
  dict_display
    [("summary", VStr summary);
     ("mood", VDict (dict_display [("overall", VStr mood);
                                   ("justification", VStr mood_justification)]));
     ("action_items", VList (firstn 5 action_items));
     ("key_decisions",
      VList [VStr "Project timeline and deliverables discussed";
             VStr "Resource allocation planned";
             VStr "Next meeting scheduled"]);
     ("next_steps",
      VList [VStr "Follow up on action items";
             VStr "Prepare progress report";
             VStr "Schedule next review meeting"]);
     ("action_items", VList (firstn 10 action_items))].

Variable json_loads : string -> outcome dict.

(** The analysis step of [summarize_meeting]: an exception of the
    engine is caught and the transcript goes to
    [create_fallback_analysis]. *)
Definition summarize_meeting_analysis (generate_content : AIEngine.Model)
    (transcript client_name project_name : string) : dict :=
  let ai_engine := AIEngine.init generate_content in
  match AIEngine.process_transcript json_loads ai_engine transcript
                                    (Some client_name) (Some project_name) with
  | Return result => result
  | Raise ai_error => create_fallback_analysis transcript client_name project_name
  end.
End Fallback.

End App.

(* ================================================================= *)
(** ** Vocabulary of the properties *)

Module Spec.
Import Py Data.

(** [k] occurs in [s]. *)
Definition Occurs (k s : string) : Prop := exists a b, s = a ++ k ++ b.

(** What [classify_task_priority] looks at. *)
Definition subject (task_text context : string) : string :=
  lower (task_text ++ " " ++ context).

(** The four fields every result must carry. *)
Definition mandatory : list string :=
  ["summary"; "action_items"; "key_decisions"; "next_steps"].

Definition complete (result : dict) : bool :=
  forallb (fun k => dict_mem k result) mandatory.

(** The summary of a result is a string and is not empty. *)
Definition summary_nonempty (result : dict) : Prop :=
  exists s, dict_get "summary" result = Some (VStr s) /\ s <> "".

(** The list under a key of a result. *)
Definition list_at (k : string) (result : dict) : list value :=
  match dict_get k result with
  | Some (VList l) => l
  | _ => []
  end.

(** The keys of the three lists [_fallback_parsing] appends to. *)
Definition list_keys : list string :=
  ["action_items"; "key_decisions"; "next_steps"].

(** The shape [_fallback_parsing] keeps its dictionary in: a string under
    [summary], a list under each list key. *)
Definition well_formed (result : dict) : Prop :=
  (exists s, dict_get "summary" result = Some (VStr s))
  /\ (forall k, In k list_keys -> exists l, dict_get k result = Some (VList l)).

(** A computation that, from a well-formed dictionary, returns a value
    in [Q] and leaves a well-formed dictionary: it does not raise. *)
Definition ok {A : Type} (m : AIEngine.M A) (Q : A -> Prop) : Prop :=
  forall result, well_formed result ->
    exists a result', m result = (Return a, result')
                      /\ well_formed result' /\ Q a.

(** The lines [_fallback_parsing] does not skip, as it reads them. *)
Definition seen_lines (text : string) : list string :=
  filter nonempty (map strip (split_char LF text)).


(** The fields of an action item. *)
Definition action_item_fields : list string :=
  ["task"; "assignee"; "assigned_by"; "deadline"; "priority"; "confidence"].

(** An item that has every field of an action item, none of them [None]. *)
Definition populated (item : value) : bool :=
  match item with
  | VDict d =>
      forallb (fun k => match dict_get k d with
                        | Some VNone | None => false
                        | Some _ => true
                        end) action_item_fields
  | _ => false
  end.

(** A remark, as the remark pass builds it. *)
Definition is_remark (item : value) : Prop :=
  exists person remark given_to,
    item = VDict [("person", VStr person); ("remark", VStr remark);
                  ("given_to", VStr given_to)].

End Spec.

(* ================================================================= *)
(** ** Collaborators and inputs of the examples *)

Module Examples.
Import Py Data.

Definition sarah : string :=
  "Sarah: I will finish the report by Friday. Mike: That's urgent, please prioritize it.".

(** A model that answers the request of [__init__] and is out of reach
    afterwards. *)
Definition offline_model : AIEngine.Model :=
  fun prompt =>
    if String.eqb prompt "Test" then Return "ok"
    else Raise (OtherError "ConnectionError").

(** A model that is out of reach from the start. *)
Definition dead_model : AIEngine.Model :=
  fun _ => Raise (OtherError "ConnectionError").

(** A model that answers every request with the same text. *)
Definition canned_model (text : string) : AIEngine.Model :=
  fun _ => Return text.

(** [json.loads] at one payload: the object it parses to there; any
    other text is taken as undecodable. *)
Definition json_loads_at (payload : string) (object : dict)
  : string -> outcome dict :=
  fun text => if String.eqb text payload then Return object
              else Raise JSONDecodeError.

(** A decoder that is never reached. *)
Definition no_json : string -> outcome dict := fun _ => Raise JSONDecodeError.

(** The payload of an object with an empty summary; [quoted] turns the
    backquotes into double quotes. *)
Definition empty_summary_payload : string := AIEngine.quoted "{`summary`: ``}".

Definition empty_summary_object : dict := [("summary", VStr "")].

Definition nl : string := String LF "".

(** A reply in prose with one action item. *)
Definition prose_reply : string := "Action items:" ++ nl ++ "- Send the notes".


(** A transcript of two blank lines. *)
Definition blank_transcript : string := "  " ++ nl ++ "   ".

(** Sets iterated in the order their elements were added. *)
Definition insertion_order : Remarks.pyset -> list string := fun s => s.

End Examples.

(* ================================================================= *)
(** ** [ps 3/validators.py]: class [InputValidator] *)

Module Validators.
Import Py Data.

(** [[\x00-\x08\x0b\x0c\x0e-\x1f\x7f]] *)
Definition is_control (c : ascii) : bool :=
  let n := code c in
  between 0 8 n || (n =? 11) || (n =? 12) || between 14 31 n || (n =? 127).

(** [s.replace(c, new)] for a one-character [c]. *)
Fixpoint replace_char (c : ascii) (new : string) (s : string) : string :=
  match s with
  | EmptyString => EmptyString
  | String d s' =>
      (if Ascii.eqb d c then new else String d EmptyString)
      ++ replace_char c new s'
  end.

(** The single quote. *)
Definition sq : ascii := ascii_of_nat 39.

(** The double quote, as a character. *)
Definition dq_char : ascii := ascii_of_nat 34.

(** [html.escape(s, quote=True)]: the ampersand first, then the angle
    brackets, then the two quotes. *)
Definition html_escape (s : string) : string :=
  let s := replace_char "&" "&amp;" s in
  let s := replace_char "<" "&lt;" s in
  let s := replace_char ">" "&gt;" s in
  let s := replace_char dq_char "&quot;" s in
  let s := replace_char sq "&#x27;" s in
  s.

Definition sanitize_string (text : string) (max_length : nat) : string :=
  if negb (nonempty text) then ""
  else
    let text := Re.sub_empty (Re.Cls is_control) text in
    let text := html_escape text in
    let text :=
      if max_length <? String.length text then take max_length text else text in
    strip text.

(** The character classes of the e-mail pattern. *)
Definition is_alnum (c : ascii) : bool := is_AZ c || is_az c || is_digit c.

Definition is_local (c : ascii) : bool :=
  is_alnum c
  || existsb (Ascii.eqb c) ["."%char; "_"%char; "%"%char; "+"%char; "-"%char].

Definition is_domain (c : ascii) : bool :=
  is_alnum c || existsb (Ascii.eqb c) ["."%char; "-"%char].

Definition is_letter (c : ascii) : bool := is_AZ c || is_az c.

(** [r'^[a-zA-Z0-9._%+-]+@[a-zA-Z0-9.-]+\.[a-zA-Z]{2,}$'], the final
    dollar left to [at_end]. *)
Definition email_re : Re.regex :=
  Re.Cat [Re.Bol; Re.Plus (Re.Cls is_local); Re.Chr "@";
          Re.Plus (Re.Cls is_domain); Re.Chr ".";
          Re.Cls is_letter; Re.Plus (Re.Cls is_letter)].

(** [$]: the end of the subject, or the line feed that ends it. *)
Definition at_end (rest : string) : bool :=
  match rest with
  | EmptyString => true
  | String c EmptyString => Ascii.eqb c LF
  | _ => false
  end.

(** [bool(re.match(pattern, email))] *)
Definition validate_email (email : string) : bool :=
  match Re.rx false email_re 0 email []
              (fun _ rest g => if at_end rest then Some g else None) with
  | Some _ => true
  | None => false
  end.

(** [if cond: result['valid'] = False; result['errors'].append(msg)] on
    the pair of the two entries of [result]. *)
Definition fail_if (cond : bool) (msg : string) (result : bool * list string)
  : bool * list string :=
  if cond then (false, (snd result ++ [msg])%list) else result.

(** [not re.search(cls, password)] *)
Definition lacks (p : ascii -> bool) (password : string) : bool :=
  match Re.search false (Re.Cls p) password with
  | Some _ => false
  | None => true
  end.

Definition validate_password (password : string) : dict :=
  let result := (true, []) in
  let result :=
    fail_if (String.length password <? 8)
            "Password must be at least 8 characters long" result in
  let result :=
    fail_if (lacks is_AZ password)
            "Password must contain at least one uppercase letter" result in
  let result :=
    fail_if (lacks is_az password)
            "Password must contain at least one lowercase letter" result in
  let result :=
    fail_if (lacks is_digit password)
            "Password must contain at least one number" result in
  dict_display [("valid", VBool (fst result));
                ("errors", VList (map VStr (snd result)))].

End Validators.

(* ================================================================= *)
(** ** [ps 3/app.py]: the rest of [summarize_meeting] *)

Module Request.
Import Py Data.

#[local] Set Warnings "-abstract-large-number".






(** A row the task loop hands to [TaskAssignment], and whether the alert
    mail is asked for. *)
Record task_row : Type :=
  { task_description : string; priority : string; alert : bool }.

(** [task_data.get(k, default)]: an item that is no dictionary has no
    [get]. *)
Definition item_get (k : string) (default : value) (task_data : value)
  : outcome value :=
  match task_data with
  | VDict d => Return (dict_get_default k default d)
  | _ => Raise AttributeError
  end.

(** One turn of [for task_data in result['action_items']], the database
    session left out. *)
Definition make_row (transcript : string) (task_data : value) : outcome task_row :=
  match item_get "priority" (VStr "Low") task_data with
  | Raise e => Raise e
  | Return (VStr p) =>
      let original_priority := lower p in
      match item_get "task" (VStr "") task_data with
      | Raise e => Raise e
      | Return (VStr task) =>
          let classified_priority :=
            App.classify_task_priority task transcript in
          let final_priority :=
            if negb (String.eqb classified_priority "normal")
            then classified_priority else original_priority in
          Return {| task_description := task;
                    priority := final_priority;
                    alert := String.eqb final_priority "high" |}
      | Return _ => Raise TypeError
      end
  | Return _ => Raise AttributeError
  end.

(** [for x in v]: the items of a list, the characters of a string, the
    keys of a dictionary; other objects are not iterable. *)
Fixpoint chars (s : string) : list value :=
  match s with
  | EmptyString => []
  | String c s' => VStr (String c EmptyString) :: chars s'
  end.

Definition iterate (v : value) : outcome (list value) :=
  match v with
  | VList l => Return l
  | VStr s => Return (chars s)
  | VDict d => Return (map (fun kv => VStr (fst kv)) d)
  | _ => Raise TypeError
  end.

Fixpoint make_rows (transcript : string) (items : list value)
  : outcome (list task_row) :=
  match items with
  | [] => Return []
  | task_data :: items' =>
      match make_row transcript task_data with
      | Raise e => Raise e
      | Return row =>
          match make_rows transcript items' with
          | Raise e => Raise e
          | Return rows => Return (row :: rows)
          end
      end
  end.

(** Lines 499 to 522: the rows made from a result, or the exception that
    makes the handler roll the session back. *)
Definition task_rows (result : dict) (transcript : string)
  : outcome (list task_row) :=
  if truthy (dict_get_default "action_items" VNone result) then
    match iterate (dict_get_default "action_items" VNone result) with
    | Raise e => Raise e
    | Return items => make_rows transcript items
    end
  else Return [].

End Request.

(* ================================================================= *)
(** ** [ps 3/ai_engine.py]: [extract_action_items] *)

Module Wrappers.
Import Py Data AIEngine.

Section Extract.
(** [str(v)] of an object that is no string. *)
Variable py_repr : value -> string.
Variable json_loads : string -> outcome dict.

(** [str(item)] *)
Definition py_str (item : value) : string :=
  match item with
  | VStr s => s
  | _ => py_repr item
  end.

(** [item.get('task', str(item)) if isinstance(item, dict) else str(item)] *)
Definition item_text (item : value) : value :=
  match item with
  | VDict d => dict_get_default "task" (VStr (py_str item)) d
  | _ => VStr (py_str item)
  end.

Definition extract_action_items (self : engine) (meeting_content : string)
  : outcome (list value) :=
  match process_transcript json_loads self meeting_content None None with
  | Raise e => Raise e
  | Return result =>
      if truthy (dict_get_default "action_items" VNone result) then
        match Request.iterate (dict_get_default "action_items" VNone result) with
        | Raise e => Raise e
        | Return items => Return (map item_text items)
        end
      else Return []
  end.
End Extract.

End Wrappers.

(* ================================================================= *)
(** ** [ps 3/file_processor.py] and [upload_file] of [ps 3/app.py] *)

Module Files.
Import Py Data.

(** [s.endswith(suffix)] *)
Definition endswith (suffix s : string) : bool :=
  (String.length suffix <=? String.length s)
  && String.eqb (substring (String.length s - String.length suffix)
                           (String.length suffix) s)
                suffix.

(** What an extractor gives: the text, or a ValueError with its message
    (each extractor turns every exception of its library into one). *)
Inductive extraction : Type :=
| Text (text : string)
| ValueError (message : string).

Definition audio_suffixes : list string :=
  [".mp3"; ".wav"; ".m4a"; ".ogg"; ".flac"].

Section Extractors.
(** The extractors on the stream of the upload. *)
Variable text_from_pdf : extraction.
Variable text_from_docx : extraction.
Variable text_from_txt : extraction.
Variable text_from_audio : string -> extraction.

Definition process_file (filename : string) : extraction :=
  let filename_lower := lower filename in
  if endswith ".pdf" filename_lower then text_from_pdf
  else if endswith ".docx" filename_lower then text_from_docx
  else if endswith ".txt" filename_lower then text_from_txt
  else if existsb (fun suffix => endswith suffix filename_lower) audio_suffixes
  then text_from_audio filename
  else ValueError ("Unsupported file type: " ++ filename).

Definition allowed_extensions : list string := [".pdf"; ".docx"; ".txt"; ".mp3"].

(** [filename.split('.')[-1]] *)
Definition last_part (filename : string) : string :=
  last (split_char "." filename) "".

(** The answers of [upload_file]. *)
Inductive upload_answer : Type :=
| UploadError (status : nat) (error : string)
| Uploaded (transcript filename message : string).

(** [upload_file]; [None] is a request without the part [file]. *)
Definition upload_file (file : option string) : upload_answer :=
  match file with
  | None => UploadError 400 "No file provided"
  | Some filename =>
      if String.eqb filename "" then UploadError 400 "No file selected"
      else
        let file_extension := "." ++ lower (last_part filename) in
        if negb (mem file_extension allowed_extensions) then
          UploadError 400 ("Unsupported file type. Allowed: "
                           ++ join ", " allowed_extensions)
        else
          match process_file filename with
          | Text text_content =>
              Uploaded text_content filename
                       ("Successfully processed " ++ filename)
          | ValueError message =>
              UploadError 500 ("Failed to process file: " ++ message)
          end
  end.
End Extractors.

End Files.

(* ================================================================= *)
(** ** [ps 3/rate_limiter.py]: class [RateLimiter] *)

Module RateLimiter.

Section Clock.
(** The readings of [time.time()] and the arithmetic on them. *)
Variable T : Type.
(** [t < now - window] *)
Variable before : T -> T -> Z -> bool.
(** [now - last_cleanup > cleanup_interval] *)
Variable cleanup_due : T -> T -> bool.
(** [int(t + window)] *)
Variable reset_at : T -> Z -> Z.

(** [self.requests], from a key to the times of its requests, and
    [self.last_cleanup]. *)
Record limiter : Type :=
  { requests : list (string * list T); last_cleanup : T }.

Record info : Type := { limit : Z; remaining : Z; reset_time : Z }.

(** [self.requests.get(key)] *)
Fixpoint history (key : string) (requests : list (string * list T))
  : option (list T) :=
  match requests with
  | [] => None
  | (k, times) :: rest => if String.eqb k key then Some times else history key rest
  end.

(** [self.requests[key] = times] *)
Fixpoint store (key : string) (times : list T) (requests : list (string * list T))
  : list (string * list T) :=
  match requests with
  | [] => [(key, times)]
  | (k, old) :: rest =>
      if String.eqb k key then (key, times) :: rest
      else (k, old) :: store key times rest
  end.

(** [while request_times and request_times[0] < cutoff_time: popleft()] *)
Fixpoint prune (now : T) (window : Z) (request_times : list T) : list T :=
  match request_times with
  | [] => []
  | t :: rest =>
      if before t now window then prune now window rest else request_times
  end.

(** [_cleanup_old_entries], which reads the clock itself: every history
    loses what is older than a day, and an empty history loses its key. *)
Definition _cleanup_old_entries (current_time : T)
    (requests : list (string * list T)) : list (string * list T) :=
  filter (fun entry => match snd entry with [] => false | _ => true end)
         (map (fun entry => (fst entry, prune current_time 86400 (snd entry)))
              requests).

(** [is_allowed]; [cleanup_time] is the reading of the clock inside
    [_cleanup_old_entries]. *)
Definition is_allowed (self : limiter) (key : string) (limit window : Z)
    (current_time cleanup_time : T) : bool * info * limiter :=
  let self :=
    if cleanup_due current_time (last_cleanup self)
    then {| requests := _cleanup_old_entries cleanup_time (requests self);
            last_cleanup := current_time |}
    else self in
  let requests :=
    match history key (requests self) with
    | None => store key [] (requests self)
    | Some _ => requests self
    end in
  let request_times :=
    match history key requests with Some times => times | None => [] end in
  let request_times := prune current_time window request_times in
  if (Z.of_nat (List.length request_times) <? limit)%Z then
    let request_times := (request_times ++ [current_time])%list in
    (true,
     {| limit := limit;
        remaining := (limit - Z.of_nat (List.length request_times))%Z;
        reset_time := reset_at current_time window |},
     {| requests := store key request_times requests;
        last_cleanup := last_cleanup self |})
  else
    (false,
     {| limit := limit;
        remaining := 0%Z;
        reset_time :=
          match request_times with
          | t :: _ => reset_at t window
          | [] => reset_at current_time window
          end |},
     {| requests := store key request_times requests;
        last_cleanup := last_cleanup self |}).
End Clock.

End RateLimiter.

(* ================================================================= *)
(** ** [ps 3/app.py]: the recipients of [send_critical_task_email] *)

Module Mail.
Import Py.

(** [[email.strip() for email in recipients if email.strip()]] on the
    value of NOTIFICATION_RECIPIENTS, split at the commas. *)
Definition recipients (notification_recipients : string) : list string :=
  map strip
      (filter (fun email => nonempty (strip email))
              (split_char "," notification_recipients)).

End Mail.

(* ================================================================= *)
(** ** Vocabulary of the further properties *)

Module Terms.
Import Py Data.

(** Every character of [s] passes [p]; some character of [s] does. *)
Fixpoint every (p : ascii -> bool) (s : string) : bool :=
  match s with
  | EmptyString => true
  | String c s' => p c && every p s'
  end.

Fixpoint some (p : ascii -> bool) (s : string) : bool :=
  match s with
  | EmptyString => false
  | String c s' => p c || some p s'
  end.

(** [s] without the characters that pass [p]. *)
Fixpoint without (p : ascii -> bool) (s : string) : string :=
  match s with
  | EmptyString => EmptyString
  | String c s' => if p c then without p s' else String c (without p s')
  end.

(** What a pattern can take from the front of a subject: [Matches r s s']
    when [r] matches a front part of [s] and leaves [s'].  The anchor is
    not looked at. *)
Inductive Matches (icase : bool) : Re.regex -> string -> string -> Prop :=
| M_Eps s : Matches icase Re.Eps s s
| M_Bol s : Matches icase Re.Bol s s
| M_Cls p c s :
    Re.cls_test icase p c = true -> Matches icase (Re.Cls p) (String c s) s
| M_Seq a b s s1 s2 :
    Matches icase a s s1 -> Matches icase b s1 s2 ->
    Matches icase (Re.Seq a b) s s2
| M_Star_end a s : Matches icase (Re.Star a) s s
| M_Star_more a s s1 s2 :
    Matches icase a s s1 -> Matches icase (Re.Star a) s1 s2 ->
    Matches icase (Re.Star a) s s2
| M_Opt_none a s : Matches icase (Re.Opt a) s s
| M_Opt_some a s s1 : Matches icase a s s1 -> Matches icase (Re.Opt a) s s1
| M_Grp i a s s1 : Matches icase a s s1 -> Matches icase (Re.Grp i a) s s1.

(** A character that [sanitize_string] does not let through. *)
Definition is_markup (c : ascii) : bool :=
  existsb (Ascii.eqb c) ["<"%char; ">"%char; Validators.dq_char; Validators.sq].

Definition is_clean (c : ascii) : bool :=
  negb (is_markup c) && negb (Validators.is_control c).

(** A password that passes the four rules. *)
Definition strong (password : string) : bool :=
  (8 <=? String.length password)
  && some is_AZ password && some is_az password && some is_digit password.

(** The shape of the lists of [_fallback_parsing]: no participant, and
    under each list key strings of more than three characters. *)
Definition tidy (result : dict) : Prop :=
  map fst result
  = ["summary"; "action_items"; "participants"; "key_decisions"; "next_steps"]
  /\ dict_get "participants" result = Some (VList [])
  /\ (forall k, In k Spec.list_keys ->
        exists l, dict_get k result = Some (VList (map VStr l))
                  /\ Forall (fun s => 3 < String.length s) l).

(** A computation of [_fallback_parsing] that keeps a property of the
    dictionary, whether it returns or raises. *)
Definition keeps {A : Type} (P : dict -> Prop) (m : AIEngine.M A) : Prop :=
  forall result, P result -> P (snd (m result)).

(** An action item as the first loop of [create_fallback_analysis]
    builds it: six fields, with the sentinels of the fields the loop does
    not look for. *)
Definition is_task (item : value) : Prop :=
  exists task assignee priority,
    item = VDict [("task", VStr task); ("assignee", VStr assignee);
                  ("assigned_by", VStr "Meeting");
                  ("deadline", VStr "Not specified");
                  ("priority", VStr priority); ("confidence", VStr "Medium")].

(** The row the task loop makes of an item without task and priority. *)
Definition blank_row (transcript : string) : Request.task_row :=
  {| Request.task_description := "";
     Request.priority := App.classify_task_priority "" transcript;
     Request.alert :=
       String.eqb (App.classify_task_priority "" transcript) "high" |}.

(** The times of the requests a limiter holds for a key. *)
Definition times_of {T : Type} (key : string)
    (requests : list (string * list T)) : list T :=
  match RateLimiter.history T key requests with
  | Some times => times
  | None => []
  end.

(** Calls of [is_allowed] for one key, one after the other, each with
    its two readings of the clock: the answers, and the limiter left. *)
Fixpoint serve {T : Type} (before : T -> T -> Z -> bool)
    (cleanup_due : T -> T -> bool) (reset_at : T -> Z -> Z)
    (self : RateLimiter.limiter T) (key : string) (limit window : Z)
    (clock : list (T * T)) : list bool * RateLimiter.limiter T :=
  match clock with
  | [] => ([], self)
  | (current_time, cleanup_time) :: clock' =>
      let '(allowed, _, self') :=
        RateLimiter.is_allowed T before cleanup_due reset_at self key limit
                               window current_time cleanup_time in
      let '(answers, final) :=
        serve before cleanup_due reset_at self' key limit window clock' in
      (allowed :: answers, final)
  end.

(** The history of [key] that [is_allowed] starts from, after the
    cleanup when it is due, and what the window keeps of it. *)
Definition swept {T : Type} (before : T -> T -> Z -> bool)
    (cleanup_due : T -> T -> bool) (self : RateLimiter.limiter T)
    (key : string) (current_time cleanup_time : T) : list T :=
  if cleanup_due current_time (RateLimiter.last_cleanup T self)
  then RateLimiter.prune T before cleanup_time 86400
         (times_of key (RateLimiter.requests T self))
  else times_of key (RateLimiter.requests T self).

Definition kept {T : Type} (before : T -> T -> Z -> bool)
    (cleanup_due : T -> T -> bool) (self : RateLimiter.limiter T)
    (key : string) (window : Z) (current_time cleanup_time : T) : list T :=
  RateLimiter.prune T before current_time window
    (swept before cleanup_due self key current_time cleanup_time).

(** The number of allowed answers. *)
Definition passed (answers : list bool) : nat :=
  List.length (filter (fun answer : bool => answer) answers).

(** A clock in whole seconds. *)
Definition seconds_before (t now : Z) (window : Z) : bool := (t <? now - window)%Z.
Definition seconds_due (now last_cleanup : Z) : bool := (3600 <? now - last_cleanup)%Z.
Definition seconds_reset (t : Z) (window : Z) : Z := (t + window)%Z.

(** The numeric rank of a priority. *)
Definition rank (priority : string) : nat :=
  if String.eqb priority "high" then 2
  else if String.eqb priority "medium" then 1
  else 0.

End Terms.

(* ================================================================= *)
(** ** Requests, results and limiters of the instances *)

Module Samples.
Import Py Data.


(** A result whose action item carries a priority of its own. *)
Definition analysis : dict :=
  [("summary", VStr "The docs are out of date.");
   ("action_items",
    VList [VDict [("task", VStr "Update the docs"); ("priority", VStr "low")]])].

(** A transcript with a high-urgency keyword. *)
Definition pressing : string := "This is urgent: update the docs".

(** [repr] is not reached where the items are strings. *)
Definition no_repr : value -> string := fun _ => "".

(** A limiter that has seen nothing, and four calls within two
    seconds. *)
Definition fresh_limiter : RateLimiter.limiter Z :=
  {| RateLimiter.requests := []; RateLimiter.last_cleanup := 0%Z |}.

Definition four_calls : list (Z * Z) :=
  [(100, 100); (101, 101); (101, 101); (102, 102)]%Z.

(** A limiter with three logins of one address and uploads of it a day
    apart. *)
Definition used_limiter : RateLimiter.limiter Z :=
  {| RateLimiter.requests :=
       [("upload:10.0.0.7", [100; 90000]%Z);
        ("login:10.0.0.7", [99900; 99960; 99970]%Z)];
     RateLimiter.last_cleanup := 0%Z |}.



(** Two parts of a transcript; the first has a remark, a decision and a
    next step. *)
Definition first_part : string :=
  "Sarah: I think we decided to plan the next release.".

(** A reply whose action items are null, and the object it parses
    to. *)
Definition null_items_payload : string := AIEngine.quoted "{`action_items`: null}".

Definition null_items_object : dict := [("action_items", VNone)].

End Samples.

(* ================================================================= *)
(** * Properties *)

(** ** Strings *)

Module StrFacts.
Import Py.

Lemma append_empty_r (s : string) : s ++ "" = s.
Proof. induction s as [|c s IH]; simpl; [reflexivity | now rewrite IH]. Qed.

Lemma append_assoc (a b c : string) : (a ++ b) ++ c = a ++ b ++ c.
Proof. induction a as [|x a IH]; simpl; [reflexivity | now rewrite IH]. Qed.

Lemma append_length (a b : string) :
  String.length (a ++ b) = String.length a + String.length b.
Proof. induction a as [|x a IH]; simpl; [reflexivity | now rewrite IH]. Qed.

Lemma lower_app (a b : string) : lower (a ++ b) = lower a ++ lower b.
Proof. induction a as [|x a IH]; simpl; [reflexivity | now rewrite IH]. Qed.

Lemma prefix_app (n b : string) : prefix n (n ++ b) = true.
Proof.
  induction n as [|c n IH]; simpl.
  - now destruct b.
  - destruct (ascii_dec c c) as [_|ne]; [exact IH | now destruct ne].
Qed.

Lemma prefix_inv (n h : string) :
  prefix n h = true -> exists b, h = n ++ b.
Proof.
  revert h. induction n as [|c n IH]; intros h H.
  - now exists h.
  - destruct h as [|d h]; simpl in H; [discriminate|].
    destruct (ascii_dec c d) as [->|_]; [|discriminate].
    destruct (IH _ H) as [b ->]. now exists b.
Qed.

Lemma contains_unfold (n h : string) :
  contains n h
  = prefix n h
    || match h with EmptyString => false | String _ h' => contains n h' end.
Proof. destruct h; reflexivity. Qed.

(** [needle in hay] holds exactly when [hay] reads [a ++ needle ++ b]. *)
Lemma contains_app (n a b : string) : contains n (a ++ n ++ b) = true.
Proof.
  induction a as [|c a IH].
  - simpl append. rewrite contains_unfold, prefix_app. reflexivity.
  - simpl. rewrite IH. apply orb_true_r.
Qed.

Lemma contains_inv (n h : string) :
  contains n h = true -> exists a b, h = a ++ n ++ b.
Proof.
  induction h as [|c h IH]; rewrite contains_unfold; intros H.
  - rewrite orb_false_r in H. destruct (prefix_inv _ _ H) as [b E].
    now exists "", b.
  - apply orb_true_iff in H as [H|H].
    + destruct (prefix_inv _ _ H) as [b E]. now exists "", b.
    + destruct (IH H) as (a & b & ->). now exists (String c a), b.
Qed.

Lemma contains_spec (n h : string) :
  contains n h = true <-> exists a b, h = a ++ n ++ b.
Proof.
  split; [apply contains_inv | intros (a & b & ->); apply contains_app].
Qed.

Lemma any_in_intro (k : string) (keywords : list string) (s : string) :
  In k keywords -> contains k s = true -> any_in keywords s = true.
Proof.
  intros HIn Hc. unfold any_in. apply existsb_exists. now exists k.
Qed.

Lemma prefix_empty (h : string) : prefix "" h = true.
Proof. now destruct h. Qed.

(** A one-character needle. *)
Lemma contains_char_cons (c d : ascii) (s : string) :
  contains (String c "") (String d s)
  = Ascii.eqb d c || contains (String c "") s.
Proof.
  rewrite contains_unfold. f_equal. cbn [prefix].
  destruct (ascii_dec c d) as [->|ne].
  - now rewrite Ascii.eqb_refl, prefix_empty.
  - destruct (Ascii.eqb_spec d c); [now destruct ne | reflexivity].
Qed.

Lemma shift_index (n : nat) :
  match Z.of_nat n with Z.neg _ => (-1)%Z | i => (i + 1)%Z end
  = Z.of_nat (S n).
Proof. destruct (Z.of_nat n) eqn:E; lia. Qed.


Lemma rfind_char_none (c : ascii) (s : string) :
  contains (String c "") s = false -> rfind_char c s = (-1)%Z.
Proof.
  induction s as [|d s IH]; [reflexivity|].
  rewrite contains_char_cons. intros H. apply orb_false_iff in H as [Hd Hs].
  simpl. rewrite Hd, (IH Hs). reflexivity.
Qed.

(** [find] stops at the first occurrence, [rfind] at the last. *)
Lemma find_char_first (c : ascii) (a b : string) :
  contains (String c "") a = false ->
  find_char c (a ++ String c b) = Z.of_nat (String.length a).
Proof.
  induction a as [|d a IH]; intros H.
  - simpl. now rewrite Ascii.eqb_refl.
  - rewrite contains_char_cons in H. apply orb_false_iff in H as [Hd Ha].
    cbn [append find_char String.length]. rewrite Hd, (IH Ha).
    apply shift_index.
Qed.

Lemma rfind_char_last (c : ascii) (a b : string) :
  contains (String c "") b = false ->
  rfind_char c (a ++ String c b) = Z.of_nat (String.length a).
Proof.
  intros H. induction a as [|d a IH].
  - simpl. now rewrite (rfind_char_none _ _ H), Ascii.eqb_refl.
  - cbn [append rfind_char String.length]. rewrite IH.
    destruct (Z.of_nat (String.length a)) eqn:E; lia.
Qed.

End StrFacts.

(** ** The matcher *)

Module ReFacts.
Import Re.

(** Where the matcher goes on, it has moved forward by the characters it
    took from the subject. *)
Lemma rx_moves {R : Type} (icase : bool) (r : regex) :
  forall pos s g (k : nat -> string -> groups -> option R) x,
    rx icase r pos s g k = Some x ->
    exists pos' s' g',
      k pos' s' g' = Some x
      /\ pos' + String.length s' = pos + String.length s /\ pos <= pos'.
Proof.
  induction r as [| |p|a IHa b IHb|a IHa|a IHa|i a IHa]; intros pos s g k x H.
  - exists pos, s, g. auto.
  - cbn [rx] in H. destruct (pos =? 0); [|discriminate].
    exists pos, s, g. auto.
  - cbn [rx] in H. destruct s as [|c s]; [discriminate|].
    destruct (cls_test icase p c); [|discriminate].
    exists (S pos), s, g. cbn [String.length]. repeat split; [exact H|lia|lia].
  - cbn [rx] in H. apply IHa in H as (p1 & s1 & g1 & H & E1 & L1).
    apply IHb in H as (p2 & s2 & g2 & H & E2 & L2).
    exists p2, s2, g2. repeat split; [exact H|lia|lia].
  - cbn [rx] in H. revert H. generalize (String.length s) at 1. intros fuel.
    revert pos s g. induction fuel as [|fuel IH]; intros pos s g H.
    + exists pos, s, g. auto.
    + destruct (rx icase a pos s g _) as [y|] eqn:E.
      * injection H as ->. apply IHa in E as (p1 & s1 & g1 & E & E1 & L1).
        destruct (p1 =? pos); [discriminate|].
        apply IH in E as (p2 & s2 & g2 & E & E2 & L2).
        exists p2, s2, g2. repeat split; [exact E|lia|lia].
      * exists pos, s, g. auto.
  - cbn [rx] in H. destruct (rx icase a pos s g k) as [y|] eqn:E.
    + injection H as ->. now apply IHa in E.
    + exists pos, s, g. auto.
  - cbn [rx] in H. apply IHa in H as (p1 & s1 & g1 & H & E1 & L1).
    eexists p1, s1, _. repeat split; [exact H|lia|lia].
Qed.

Lemma match_at_moves (icase : bool) (r : regex) (pos : nat) (s : string)
    (pos' : nat) (s' : string) (g : groups) :
  match_at icase r pos s = Some (pos', s', g) ->
  pos' + String.length s' = pos + String.length s /\ pos <= pos'.
Proof.
  unfold match_at. intros H.
  apply rx_moves in H as (p1 & s1 & g1 & H & E & L).
  injection H as <- <- <-. auto.
Qed.

(** [scan] does not run out of fuel: any fuel above the length of the
    subject gives the same pieces. *)
Lemma scan_fuel (r : regex) (fuel fuel' : nat) :
  forall pos s gap,
    String.length s < fuel -> String.length s < fuel' ->
    scan fuel r pos s gap = scan fuel' r pos s gap.
Proof.
  revert fuel'. induction fuel as [|fuel IH]; intros fuel' pos s gap H H'.
  - lia.
  - destruct fuel' as [|fuel']; [lia|]. cbn [scan].
    destruct (match_at false r pos s) as [[[pos' s'] g]|] eqn:E.
    + destruct (pos' =? pos) eqn:Ep.
      * destruct s as [|c t]; [reflexivity|].
        cbn [String.length] in H, H'. apply IH; lia.
      * apply match_at_moves in E as [E L].
        apply Nat.eqb_neq in Ep.
        rewrite (IH fuel' pos' s' ""); [reflexivity|lia|lia].
    + destruct s as [|c t]; [reflexivity|].
      cbn [String.length] in H, H'. apply IH; lia.
Qed.

End ReFacts.

(** ** The priority classifier *)

Module Priority.
Import Py StrFacts Spec.

Lemma occurs_contains (k s : string) : Occurs k s <-> contains k s = true.
Proof. symmetry. apply contains_spec. Qed.

Lemma any_in_occurs (keywords : list string) (s : string) :
  any_in keywords s = true <-> exists k, In k keywords /\ Occurs k s.
Proof.
  unfold any_in. rewrite existsb_exists.
  split; intros (k & HIn & H); exists k; split; auto; now apply occurs_contains.
Qed.

Lemma any_in_none (keywords : list string) (s : string) :
  (forall k, In k keywords -> ~ Occurs k s) -> any_in keywords s = false.
Proof.
  intros H. destruct (any_in keywords s) eqn:E; [|reflexivity].
  apply any_in_occurs in E as (k & HIn & Hk). now destruct (H k HIn).
Qed.

(** An occurrence survives lower-casing, as the occurrence of the
    lower-case keyword. *)
Lemma occurs_lower (k s : string) : Occurs k s -> Occurs (lower k) (lower s).
Proof.
  intros (a & b & ->). exists (lower a), (lower b).
  now rewrite !lower_app.
Qed.

Lemma occurs_app_l (k s t : string) : Occurs k s -> Occurs k (s ++ t).
Proof.
  intros (a & b & ->). exists a, (b ++ t). now rewrite !append_assoc.
Qed.

Lemma occurs_app_r (k s t : string) : Occurs k t -> Occurs k (s ++ t).
Proof.
  intros (a & b & ->). exists (s ++ a), b. now rewrite !append_assoc.
Qed.

Lemma classify_high (task_text context : string) :
  (exists k, In k App.high_keywords /\ Occurs k (subject task_text context)) ->
  App.classify_task_priority task_text context = "high".
Proof.
  intros H. apply any_in_occurs in H. unfold App.classify_task_priority.
  fold (subject task_text context). now rewrite H.
Qed.

Lemma urgent_word_high (w task_text context : string) :
  In (lower w) App.high_keywords ->
  Occurs w task_text \/ Occurs w context ->
  App.classify_task_priority task_text context = "high".
Proof.
  intros HIn H. apply classify_high. exists (lower w). split; [exact HIn|].
  unfold subject. apply occurs_lower.
  destruct H as [H|H].
  - now apply occurs_app_l.
  - now apply occurs_app_r, occurs_app_r.
Qed.

(** C4.  [classify_task_priority] lower-cases the task text and the
    context, joined by one space, and decides by precedence: "high" as
    soon as a high-urgency keyword occurs there, whatever medium keyword
    occurs too; otherwise "medium" when a medium-urgency keyword occurs;
    otherwise "low".  A task text or context in which "ASAP" or
    "critical" occurs is classified "high", and so is a statement of the
    legacy fallback extractor. *)
Theorem priority_precedence (task_text context : string) :
  ((exists k, In k App.high_keywords /\ Occurs k (subject task_text context)) ->
   App.classify_task_priority task_text context = "high")
  /\ ((forall k, In k App.high_keywords -> ~ Occurs k (subject task_text context)) ->
      (exists k, In k App.medium_keywords /\ Occurs k (subject task_text context)) ->
      App.classify_task_priority task_text context = "medium")
  /\ ((forall k, In k App.high_keywords -> ~ Occurs k (subject task_text context)) ->
      (forall k, In k App.medium_keywords -> ~ Occurs k (subject task_text context)) ->
      App.classify_task_priority task_text context = "low")
  /\ (Occurs "ASAP" task_text \/ Occurs "ASAP" context
      \/ Occurs "critical" task_text \/ Occurs "critical" context ->
      App.classify_task_priority task_text context = "high")
  /\ (Occurs "ASAP" task_text \/ Occurs "critical" task_text ->
      LegacyApp.statement_priority (lower task_text) = "high").
Proof.
  repeat split.
  - apply classify_high.
  - intros Hh Hm. apply any_in_none in Hh. apply any_in_occurs in Hm.
    unfold App.classify_task_priority. fold (subject task_text context).
    now rewrite Hh, Hm.
  - intros Hh Hm. apply any_in_none in Hh. apply any_in_none in Hm.
    unfold App.classify_task_priority. fold (subject task_text context).
    now rewrite Hh, Hm.
  - intros [H|[H|[H|H]]].
    + apply (urgent_word_high "ASAP"); [simpl; tauto | now left].
    + apply (urgent_word_high "ASAP"); [simpl; tauto | now right].
    + apply (urgent_word_high "critical"); [simpl; tauto | now left].
    + apply (urgent_word_high "critical"); [simpl; tauto | now right].
  - intros H. unfold LegacyApp.statement_priority.
    assert (E : any_in ["critical"; "urgent"; "asap"; "immediately"; "friday"]
                       (lower task_text) = true).
    { apply any_in_occurs. destruct H as [H|H].
      - exists "asap". split; [simpl; tauto | exact (occurs_lower _ _ H)].
      - exists "critical". split; [simpl; tauto | exact (occurs_lower _ _ H)]. }
    now rewrite E.
Qed.

(** The claim at a text with "ASAP" and a medium keyword. *)
Lemma priority_precedence_witness :
  App.classify_task_priority "Fix the login ASAP, it is important" "" = "high".
Proof.
  destruct (priority_precedence "Fix the login ASAP, it is important" "")
    as (_ & _ & _ & H & _).
  apply H. left. exists "Fix the login ", ", it is important". reflexivity.
Defined.

End Priority.

(** ** Dictionaries *)

Module DictFacts.
Import Data.

Lemma dict_get_set_same (k : string) (v : value) (d : dict) :
  dict_get k (dict_set k v d) = Some v.
Proof.
  induction d as [|[k' v'] d IH]; simpl.
  - now rewrite String.eqb_refl.
  - destruct (String.eqb_spec k' k) as [->|ne]; simpl.
    + now rewrite String.eqb_refl.
    + destruct (String.eqb_spec k' k); [contradiction | exact IH].
Qed.

Lemma dict_get_set_other (k k' : string) (v : value) (d : dict) :
  k <> k' -> dict_get k' (dict_set k v d) = dict_get k' d.
Proof.
  intros ne. induction d as [|[k0 v0] d IH]; simpl.
  - destruct (String.eqb_spec k k'); [contradiction | reflexivity].
  - destruct (String.eqb_spec k0 k) as [->|ne0]; simpl.
    + destruct (String.eqb_spec k k'); [contradiction | reflexivity].
    + destruct (String.eqb_spec k0 k'); [reflexivity | exact IH].
Qed.

Lemma dict_mem_set (k k' : string) (v : value) (d : dict) :
  dict_mem k' d = true -> dict_mem k' (dict_set k v d) = true.
Proof.
  unfold dict_mem. destruct (String.eqb_spec k k') as [->|ne].
  - now rewrite dict_get_set_same.
  - now rewrite dict_get_set_other.
Qed.

Lemma dict_mem_set_same (k : string) (v : value) (d : dict) :
  dict_mem k (dict_set k v d) = true.
Proof. unfold dict_mem. now rewrite dict_get_set_same. Qed.

End DictFacts.

(** ** [_fallback_parsing] does not raise and leaves a summary *)

Module FallbackFacts.
Import Py Data AIEngine Spec DictFacts.

Lemma list_key_not_summary (k : string) : In k list_keys -> k <> "summary".
Proof. simpl. intros [<-|[<-|[<-|[]]]]; discriminate. Qed.

Lemma well_formed_result0 : well_formed result0.
Proof.
  split.
  - now exists "".
  - simpl. intros k [<-|[<-|[<-|[]]]]; now exists [].
Qed.

Lemma well_formed_set_summary (s : string) (result : dict) :
  well_formed result -> well_formed (dict_set "summary" (VStr s) result).
Proof.
  intros [_ Hl]. split.
  - exists s. apply dict_get_set_same.
  - intros k Hk. rewrite dict_get_set_other.
    + now apply Hl.
    + intros E. now apply (list_key_not_summary k).
Qed.

Lemma well_formed_set_list (k : string) (l : list value) (result : dict) :
  In k list_keys ->
  well_formed result -> well_formed (dict_set k (VList l) result).
Proof.
  intros Hk [Hs Hl]. split.
  - rewrite dict_get_set_other; [exact Hs | now apply list_key_not_summary].
  - intros k' Hk'. destruct (string_dec k k') as [->|ne].
    + exists l. apply dict_get_set_same.
    + rewrite dict_get_set_other; [now apply Hl | exact ne].
Qed.

Lemma well_formed_complete (result : dict) :
  well_formed result -> complete result = true.
Proof.
  intros [[s Hs] Hl]. unfold complete, mandatory, dict_mem. simpl.
  rewrite Hs.
  destruct (Hl "action_items") as [l1 ->]; [simpl; tauto|].
  destruct (Hl "key_decisions") as [l2 ->]; [simpl; tauto|].
  destruct (Hl "next_steps") as [l3 ->]; [simpl; tauto|].
  reflexivity.
Qed.

(** *** The rules of [ok] *)

Lemma ok_ret {A : Type} (a : A) (Q : A -> Prop) : Q a -> ok (ret a) Q.
Proof. intros H result Hwf. now exists a, result. Qed.

Lemma ok_bind {A B : Type} (m : M A) (f : A -> M B)
    (Q : A -> Prop) (Q' : B -> Prop) :
  ok m Q -> (forall a, Q a -> ok (f a) Q') -> ok (bind m f) Q'.
Proof.
  intros Hm Hf result Hwf.
  destruct (Hm result Hwf) as (a & r1 & E & Hwf1 & Ha).
  destruct (Hf a Ha r1 Hwf1) as (b & r2 & E2 & Hwf2 & Hb).
  exists b, r2. unfold bind. now rewrite E.
Qed.

Lemma ok_weaken {A : Type} (m : M A) (Q Q' : A -> Prop) :
  ok m Q -> (forall a, Q a -> Q' a) -> ok m Q'.
Proof.
  intros Hm HQ result Hwf.
  destruct (Hm result Hwf) as (a & r1 & E & Hwf1 & Ha).
  exists a, r1. auto.
Qed.

Lemma ok_getitem_summary :
  ok (getitem "summary") (fun v => exists s, v = VStr s).
Proof.
  intros result Hwf. destruct Hwf as [[s Hs] Hl].
  exists (VStr s), result. unfold getitem. rewrite Hs.
  split; [reflexivity | split; [split; eauto | eauto]].
Qed.

Lemma ok_setitem_summary (s : string) :
  ok (setitem "summary" (VStr s)) (fun _ => True).
Proof.
  intros result Hwf. exists tt, (dict_set "summary" (VStr s) result).
  split; [reflexivity | split; [now apply well_formed_set_summary | exact I]].
Qed.

Lemma ok_append (k : string) (v : value) :
  In k list_keys -> ok (append k v) (fun _ => True).
Proof.
  intros Hk result Hwf. destruct (proj2 Hwf k Hk) as [l Hg].
  exists tt, (dict_set k (VList (l ++ [v])%list) result).
  unfold append, bind, getitem. rewrite Hg. simpl.
  split; [reflexivity | split; [now apply well_formed_set_list | exact I]].
Qed.

Lemma after_first_some (line : string) :
  contains ":" line = true -> exists rest, after_first ":"%char line = Some rest.
Proof.
  intros H. apply StrFacts.contains_inv in H as (a & b & ->).
  induction a as [|c a IH]; simpl.
  - eauto.
  - destruct (Ascii.eqb c ":"%char); eauto.
Qed.

Lemma mem_in (x : string) (l : list string) : mem x l = true -> In x l.
Proof.
  unfold mem. rewrite existsb_exists. intros (y & Hy & E).
  apply String.eqb_eq in E. now subst.
Qed.

Lemma ok_parse_line (current_section : option string) (line : string) :
  ok (parse_line current_section line) (fun _ => True).
Proof.
  unfold parse_line.
  destruct (nonempty (strip line)); cbn [negb]; [|now apply ok_ret].
  destruct (contains "summary" (lower (strip line)) && contains ":" (strip line))
    eqn:E1.
  { apply andb_true_iff in E1 as [_ Hc]. rewrite Hc.
    destruct (after_first_some _ Hc) as [rest ->].
    eapply ok_bind with (Q := fun _ => True); [|intros; now apply ok_ret].
    destruct (nonempty (strip rest));
      [apply ok_setitem_summary | now apply ok_ret]. }
  clear E1.
  destruct (contains "action" _ && contains "item" _); [now apply ok_ret|].
  destruct (contains "decision" _); [now apply ok_ret|].
  destruct (contains "next" _ && contains "step" _); [now apply ok_ret|].
  destruct current_section as [section|]; [|now apply ok_ret].
  destruct (nonempty section); [|now apply ok_ret].
  eapply ok_bind with (Q := fun _ => True).
  { destruct (String.eqb section "summary"); [|now apply ok_ret].
    eapply ok_bind; [apply ok_getitem_summary|].
    intros; now apply ok_ret. }
  intros [|] _.
  { eapply ok_bind; [apply ok_setitem_summary | intros; now apply ok_ret]. }
  destruct (mem section _) eqn:Em; [|now apply ok_ret].
  eapply ok_bind with (Q := fun _ => True); [|intros; now apply ok_ret].
  destruct (nonempty _ && (3 <? _)); [|now apply ok_ret].
  apply ok_append. exact (mem_in _ _ Em).
Qed.

Lemma ok_parse_lines (lines : list string) (current_section : option string) :
  ok (parse_lines current_section lines) (fun _ => True).
Proof.
  revert current_section. induction lines as [|line lines IH]; intros cs; simpl.
  - now apply ok_ret.
  - eapply ok_bind; [apply ok_parse_line | intros; apply IH].
Qed.

Lemma nonempty_true (s : string) : nonempty s = true -> s <> "".
Proof. destruct s; [discriminate | intros _; discriminate]. Qed.

Lemma append_nonempty_r (a b : string) : b <> "" -> a ++ b <> "".
Proof. destruct a; simpl; [auto | discriminate]. Qed.

Lemma first_sentence_nonempty (s : string) : s <> "" -> first_sentence s <> "".
Proof.
  intros H. unfold first_sentence. destruct (200 <? String.length s); [|exact H].
  apply append_nonempty_r. discriminate.
Qed.

(** The sentences of the default summary are not empty. *)
Lemma sentences_nonempty (lines : list string) (first : string) (rest : list string) :
  map strip
      (filter (fun line => nonempty (strip line)
                           && (20 <? String.length (strip line))) lines)
  = first :: rest ->
  first <> "".
Proof.
  intros E.
  assert (HIn : In first (first :: rest)) by (left; reflexivity).
  rewrite <- E in HIn. apply in_map_iff in HIn as (line & <- & HIn).
  apply filter_In in HIn as [_ H]. apply andb_true_iff in H as [H _].
  now apply nonempty_true.
Qed.

Lemma summary_nonempty_set (s : string) (result : dict) :
  s <> "" -> summary_nonempty (dict_set "summary" (VStr s) result).
Proof. intros H. exists s. split; [apply dict_get_set_same | exact H]. Qed.

(** The body of the [try] of [_fallback_parsing] returns, and leaves a
    well-formed dictionary with a summary. *)
Lemma fallback_body_returns (text : string) :
  exists result,
    fallback_body text result0 = (Return tt, result)
    /\ well_formed result /\ summary_nonempty result.
Proof.
  unfold fallback_body.
  destruct (ok_parse_lines (split_char LF text) None result0 well_formed_result0)
    as (section & r1 & E & Hwf & _).
  unfold bind at 1. rewrite E.
  destruct Hwf as [[s Hs] Hl].
  assert (Hwf : well_formed r1) by (split; eauto).
  unfold bind, getitem. rewrite Hs.
  destruct s as [|c s]; cbn [truthy nonempty negb].
  - destruct (map strip _) as [|first rest] eqn:Es.
    + eexists. split; [reflexivity|]. split.
      * now apply well_formed_set_summary.
      * apply summary_nonempty_set. discriminate.
    + eexists. split; [reflexivity|]. split.
      * now apply well_formed_set_summary.
      * apply summary_nonempty_set, first_sentence_nonempty.
        exact (sentences_nonempty _ _ _ Es).
  - exists r1. split; [reflexivity|]. split; [exact Hwf|].
    exists (String c s). split; [exact Hs | discriminate].
Qed.

(** So the handler of [_fallback_parsing] is never entered. *)
Lemma fallback_parsing_body (text : string) :
  fallback_body text result0 = (Return tt, _fallback_parsing text).
Proof.
  destruct (fallback_body_returns text) as (result & E & _).
  unfold _fallback_parsing. now rewrite E.
Qed.

Lemma fallback_parsing_well_formed (text : string) :
  well_formed (_fallback_parsing text).
Proof.
  destruct (fallback_body_returns text) as (result & E & Hwf & _).
  unfold _fallback_parsing. now rewrite E.
Qed.

Lemma fallback_parsing_summary (text : string) :
  summary_nonempty (_fallback_parsing text).
Proof.
  destruct (fallback_body_returns text) as (result & E & _ & Hs).
  unfold _fallback_parsing. now rewrite E.
Qed.

Lemma fallback_parsing_complete (text : string) :
  complete (_fallback_parsing text) = true.
Proof. apply well_formed_complete, fallback_parsing_well_formed. Qed.

(** Were the handler entered, its summary would not be empty either. *)
Lemma handler_summary (text : string) (result : dict) :
  summary_nonempty
    (dict_set "summary"
              (VStr ("Parsed with limitations: " ++ take 100 text ++ "..."))
              result).
Proof. apply summary_nonempty_set. discriminate. Qed.

End FallbackFacts.

(** ** [_fallback_parsing] does not see the spaces around its text *)

Module StripFacts.
Import Py Data AIEngine Spec FallbackFacts.

Lemma rstrip_cons (c : ascii) (s : string) :
  rstrip (String c s)
  = match rstrip s with
    | EmptyString => if isspace c then EmptyString else String c EmptyString
    | r => String c r
    end.
Proof. reflexivity. Qed.

Lemma rstrip_idem (s : string) : rstrip (rstrip s) = rstrip s.
Proof.
  induction s as [|c s IH]; [reflexivity|].
  rewrite rstrip_cons. destruct (rstrip s) as [|d r] eqn:E.
  - destruct (isspace c) eqn:Ec; [reflexivity|].
    rewrite rstrip_cons. cbn [rstrip rstrip_by]. now rewrite Ec.
  - rewrite rstrip_cons, IH. reflexivity.
Qed.

(** Stripping on the left and on the right commute. *)
Lemma strip_comm (s : string) : rstrip (lstrip s) = lstrip (rstrip s).
Proof.
  induction s as [|c s IH]; [reflexivity|].
  cbn [lstrip]. rewrite rstrip_cons. destruct (isspace c) eqn:Ec.
  - rewrite IH. destruct (rstrip s) as [|d r]; [reflexivity|].
    cbn [lstrip]. now rewrite Ec.
  - rewrite rstrip_cons.
    destruct (rstrip s) as [|d r]; rewrite ?Ec; cbn [lstrip]; now rewrite Ec.
Qed.

Lemma strip_idem (s : string) : strip (strip s) = strip s.
Proof.
  unfold strip. rewrite (strip_comm (rstrip (lstrip s))), rstrip_idem.
  rewrite <- strip_comm.
  assert (L : forall t, lstrip (lstrip t) = lstrip t).
  { induction t as [|c t IH]; [reflexivity|].
    cbn [lstrip]. destruct (isspace c) eqn:Ec; [exact IH|].
    cbn [lstrip]. now rewrite Ec. }
  now rewrite L.
Qed.










(** [parse_line] reads a line stripped, and skips an empty one. *)
Lemma parse_line_strip (current_section : option string) (line : string) :
  parse_line current_section (strip line) = parse_line current_section line.
Proof. unfold parse_line. now rewrite strip_idem. Qed.

Lemma parse_lines_seen (lines : list string) (current_section : option string)
    (result : dict) :
  parse_lines current_section lines result
  = parse_lines current_section (filter nonempty (map strip lines)) result.
Proof.
  revert current_section result.
  induction lines as [|line lines IH]; intros cs result; [reflexivity|].
  cbn [map filter parse_lines]. destruct (nonempty (strip line)) eqn:E.
  - cbn [parse_lines]. unfold bind. rewrite parse_line_strip.
    destruct (parse_line cs line result) as [[section|e] r]; [apply IH|reflexivity].
  - unfold bind, parse_line. rewrite E. cbn [negb]. apply IH.
Qed.

Lemma sentences_seen (lines : list string) :
  map strip
      (filter (fun line => nonempty (strip line)
                           && (20 <? String.length (strip line))) lines)
  = map strip
        (filter (fun line => nonempty (strip line)
                             && (20 <? String.length (strip line)))
                (filter nonempty (map strip lines))).
Proof.
  induction lines as [|line lines IH]; [reflexivity|].
  cbn [map filter]. destruct (nonempty (strip line)) eqn:E.
  - cbn [filter andb]. rewrite strip_idem, E. cbn [andb].
    destruct (20 <? String.length (strip line)); cbn [map];
      now rewrite ?strip_idem, IH.
  - cbn [andb]. exact IH.
Qed.

(** The body of [_fallback_parsing] depends on the lines it sees only. *)
Lemma fallback_body_seen (text text' : string) (result : dict) :
  seen_lines text = seen_lines text' ->
  fallback_body text result = fallback_body text' result.
Proof.
  unfold seen_lines. intros H. unfold fallback_body.
  unfold bind at 1 3. rewrite (parse_lines_seen (split_char LF text)),
    (parse_lines_seen (split_char LF text')), H.
  rewrite (sentences_seen (split_char LF text)),
    (sentences_seen (split_char LF text')), H.
  reflexivity.
Qed.


End StripFacts.

(** ** [process_transcript] and the analysis step *)

Module ProcessFacts.
Import Py Data AIEngine Spec DictFacts FallbackFacts.

Lemma backfill_mem (k : string) (v : value) (d : dict) :
  dict_mem k (backfill k v d) = true.
Proof.
  unfold backfill. destruct (dict_mem k d) eqn:E; simpl.
  - exact E.
  - apply dict_mem_set_same.
Qed.

Lemma backfill_keeps (k k' : string) (v : value) (d : dict) :
  dict_mem k' d = true -> dict_mem k' (backfill k v d) = true.
Proof.
  intros H. unfold backfill. destruct (negb (dict_mem k d)); [|exact H].
  now apply dict_mem_set.
Qed.

Lemma ensure_fields_complete (result : dict) :
  complete (ensure_fields result) = true.
Proof.
  unfold complete, mandatory, ensure_fields. cbn [forallb].
  rewrite backfill_mem.
  rewrite (backfill_keeps _ "key_decisions"), (backfill_keeps _ "action_items"),
    (backfill_keeps _ "summary"); try reflexivity;
    repeat first [ apply backfill_mem | apply backfill_keeps ].
Qed.

(** A summary the model gave is kept as it is; a missing one is replaced. *)
Lemma ensure_fields_summary (result : dict) :
  dict_get "summary" (ensure_fields result)
  = match dict_get "summary" result with
    | Some v => Some v
    | None => Some (VStr "No summary available.")
    end.
Proof.
  unfold ensure_fields, backfill at 1 2 3.
  repeat match goal with
         | |- context [if negb ?b then _ else _] => destruct (negb b)
         end;
    repeat (rewrite dict_get_set_other by discriminate);
    unfold backfill, dict_mem;
    destruct (dict_get "summary" result) eqn:E; simpl; rewrite ?E;
    try reflexivity; apply dict_get_set_same.
Qed.

Section WithJson.
Variable json_loads : string -> outcome dict.

Lemma parse_response_complete (response_text : string) (result : dict) :
  parse_response json_loads response_text = Return result ->
  complete result = true.
Proof.
  unfold parse_response.
  destruct (negb _ && negb _).
  - destruct (json_loads _) as [object|e].
    + destruct (log_counts _); intros E; inversion E.
      apply ensure_fields_complete.
    + destruct e; intros E; inversion E. apply fallback_parsing_complete.
  - intros E; inversion E. apply fallback_parsing_complete.
Qed.

Lemma process_transcript_complete (self : engine) (transcript : string)
    (client_name project_name : option string) (result : dict) :
  process_transcript json_loads self transcript client_name project_name
  = Return result ->
  complete result = true.
Proof.
  unfold process_transcript. destruct (model self) as [generate_content|].
  - destruct (generate_content _) as [text|e]; [|discriminate].
    apply parse_response_complete.
  - intros E; inversion E. apply fallback_parsing_complete.
Qed.
End WithJson.

End ProcessFacts.

(** ** The two [create_fallback_analysis] *)

Module AnalysisFacts.
Import Py Data Remarks Spec.

Lemma join_nonempty (sep first : string) (rest : list string) :
  first <> "" -> join sep (first :: rest) <> "".
Proof.
  intros H. unfold join. destruct first as [|c first]; [now destruct H|].
  destruct rest; simpl; discriminate.
Qed.

Section WithSets.
Variable set_iter : pyset -> list string.

(** The result of the legacy extractor, key by key. *)
Lemma legacy_result (transcript client_name project_name : string) :
  exists summary mood,
    LegacyApp.create_fallback_analysis set_iter transcript client_name
                                       project_name
    = [("summary", VStr summary); ("mood", mood);
       ("action_items",
        VList (firstn 10 (or_generic
                            (remarks set_iter (LegacyApp.lines_of transcript)))));
       ("key_decisions",
        VList (map VStr
                   (firstn 3 (LegacyApp.or_default
                                (LegacyApp.key_decisions
                                   (LegacyApp.scan_statements
                                      (LegacyApp.statements_of
                                         (LegacyApp.lines_of transcript))))
                                LegacyApp.default_decisions))));
       ("next_steps",
        VList (map VStr
                   (firstn 3 (LegacyApp.or_default
                                (LegacyApp.next_steps
                                   (LegacyApp.scan_statements
                                      (LegacyApp.statements_of
                                         (LegacyApp.lines_of transcript))))
                                LegacyApp.default_next_steps))))]
    /\ summary <> "".
Proof.
  unfold LegacyApp.create_fallback_analysis.
  destruct (LegacyApp.mood_of _ _) as [mood justification].
  eexists. eexists. split; [reflexivity|].
  unfold LegacyApp.summary_parts. apply join_nonempty. discriminate.
Qed.

(** The result of the extractor of [ps 3/app.py], key by key: the
    second [action_items] of the display takes the place of the first. *)
Lemma app_result (transcript client_name project_name : string) :
  exists summary mood,
    App.create_fallback_analysis set_iter transcript client_name project_name
    = [("summary", VStr summary); ("mood", mood);
       ("action_items",
        VList (firstn 10 (or_generic
                            (remarks set_iter (split_char LF transcript)))));
       ("key_decisions",
        VList [VStr "Project timeline and deliverables discussed";
               VStr "Resource allocation planned";
               VStr "Next meeting scheduled"]);
       ("next_steps",
        VList [VStr "Follow up on action items";
               VStr "Prepare progress report";
               VStr "Schedule next review meeting"])]
    /\ summary <> "".
Proof.
  unfold App.create_fallback_analysis.
  destruct (LegacyApp.mood_of _ _) as [mood justification].
  eexists. eexists. split; [reflexivity|]. discriminate.
Qed.

Lemma app_complete (transcript client_name project_name : string) :
  complete (App.create_fallback_analysis set_iter transcript client_name
                                         project_name) = true.
Proof.
  destruct (app_result transcript client_name project_name)
    as (summary & mood & -> & _).
  reflexivity.
Qed.

(** Every item of the remark pass is a remark. *)
Lemma remark_line_remarks (st : list value * pyset) (line : string) :
  Forall is_remark (fst st) ->
  Forall is_remark (fst (remark_line set_iter st line)).
Proof.
  destruct st as [action_items participants]. unfold remark_line.
  destruct (negb _); [auto|].
  destruct (Re.rmatch false speaker_re _) as [g|]; [|auto].
  destruct (any_in remark_keywords _); [|auto].
  simpl. intros H. apply Forall_app. split; [exact H|].
  constructor; [|constructor]. do 3 eexists. reflexivity.
Qed.

Lemma remarks_are_remarks (lines : list string) :
  Forall is_remark (remarks set_iter lines).
Proof.
  unfold remarks.
  assert (H : forall st, Forall is_remark (fst st) ->
                         Forall is_remark (fst (fold_left (remark_line set_iter)
                                                          lines st))).
  { induction lines as [|line lines IH]; intros st Hst; simpl.
    - exact Hst.
    - apply IH. now apply remark_line_remarks. }
  apply H. constructor.
Qed.

Lemma or_generic_remarks (items : list value) :
  Forall is_remark items -> Forall is_remark (or_generic items).
Proof.
  destruct items as [|item items]; [|auto].
  intros _. constructor; [|constructor]. do 3 eexists. reflexivity.
Qed.

Lemma firstn_Forall {A : Type} (P : A -> Prop) (n : nat) (l : list A) :
  Forall P l -> Forall P (firstn n l).
Proof.
  intros H. rewrite <- (firstn_skipn n l) in H.
  now apply Forall_app in H.
Qed.

Lemma remark_not_populated (item : value) :
  is_remark item -> populated item = false.
Proof. intros (person & remark & given_to & ->). reflexivity. Qed.
End WithSets.

End AnalysisFacts.

(** ** The order of what the extractors find *)

Module OrderFacts.
Import Py Data Remarks Spec AIEngine Samples.





Section WithSets.
Variable set_iter : pyset -> list string.





End WithSets.






Lemma backfill_holds (k k' : string) (default v : value) (d : dict) :
  dict_get k d = Some v -> dict_get k (backfill k' default d) = Some v.
Proof.
  intros H. unfold backfill, dict_mem.
  destruct (String.eqb_spec k' k) as [->|ne].
  - now rewrite H.
  - destruct (dict_get k' d); [exact H|]. cbn [negb].
    rewrite DictFacts.dict_get_set_other; [exact H | congruence].
Qed.

(** What a reply holds is there after the missing fields are filled. *)
Lemma ensure_fields_holds (k : string) (v : value) (object : dict) :
  dict_get k object = Some v -> dict_get k (ensure_fields object) = Some v.
Proof. intros H. unfold ensure_fields. now do 4 apply backfill_holds. Qed.

End OrderFacts.

(** ** A list of any length under its heading *)

Module AgendaFacts.
Import Py Data Spec AIEngine Samples OrderFacts.



(** The dictionary of [_fallback_parsing] with the action items [l]. *)
#[local] Abbreviation holding summary l :=
  [("summary", VStr summary); ("action_items", VList l);
   ("participants", VList []); ("key_decisions", VList []);
   ("next_steps", VList [])].




End AgendaFacts.

(* ================================================================= *)
(** * The pipeline *)

Module Pipeline.
Import Py Data AIEngine Spec StrFacts FallbackFacts ProcessFacts AnalysisFacts.

(** [process_transcript] raises what its model raises: the model answers
    the request of [__init__] and is out of reach for the transcript. *)
Lemma process_transcript_raises :
  process_transcript Examples.no_json (init Examples.offline_model)
                     Examples.sarah (Some "Acme") (Some "Apollo")
  = Raise (OtherError "ConnectionError").
Proof. vm_compute. reflexivity. Qed.

(** A model that throws at every call leaves the engine without a
    model: the result is the result of [_fallback_parsing], which is not
    the result of [create_fallback_analysis]; and a model that throws at
    the transcript alone gives the result of [create_fallback_analysis],
    which is not the result of [_fallback_parsing]. *)
Lemma fallback_depends_on_failure :
  (App.summarize_meeting_analysis Examples.insertion_order Examples.no_json
                                  Examples.dead_model Examples.sarah
                                  "Acme" "Apollo"
   = _fallback_parsing Examples.sarah
   /\ App.summarize_meeting_analysis Examples.insertion_order Examples.no_json
                                     Examples.dead_model Examples.sarah
                                     "Acme" "Apollo"
      <> App.create_fallback_analysis Examples.insertion_order Examples.sarah
                                      "Acme" "Apollo")
  /\ (App.summarize_meeting_analysis Examples.insertion_order Examples.no_json
                                     Examples.offline_model Examples.sarah
                                     "Acme" "Apollo"
      = App.create_fallback_analysis Examples.insertion_order Examples.sarah
                                     "Acme" "Apollo"
      /\ App.summarize_meeting_analysis Examples.insertion_order Examples.no_json
                                        Examples.offline_model Examples.sarah
                                        "Acme" "Apollo"
         <> _fallback_parsing Examples.sarah).
Proof.
  split; (split; [vm_compute; reflexivity | vm_compute; discriminate]).
Qed.

Section Claims.
Variable set_iter : Remarks.pyset -> list string.
Variable json_loads : string -> outcome dict.

(** C1, as the code has it.  The analysis step of [summarize_meeting]
    gives a result with the four mandatory fields for every transcript
    and every behaviour of the model and of [json.loads]: it never
    raises.  [process_transcript] alone is not total: whatever it
    returns has the four fields, without a model it returns the result
    of [_fallback_parsing], and an exception of the model call is raised
    again to its caller, which is where [summarize_meeting] catches it
    and turns to [create_fallback_analysis]. *)
Theorem analysis_total (generate_content : Model)
    (transcript client_name project_name : string) :
  complete (App.summarize_meeting_analysis set_iter json_loads generate_content
                                           transcript client_name project_name)
  = true
  /\ (forall self cn pn result,
        process_transcript json_loads self transcript cn pn = Return result ->
        complete result = true)
  /\ (forall self cn pn,
        model self = None ->
        process_transcript json_loads self transcript cn pn
        = Return (_fallback_parsing transcript))
  /\ (forall self cn pn e,
        model self = Some generate_content ->
        generate_content (prompt transcript cn pn) = Raise e ->
        process_transcript json_loads self transcript cn pn = Raise e)
  /\ (forall e,
        process_transcript json_loads (init generate_content) transcript
                           (Some client_name) (Some project_name) = Raise e ->
        App.summarize_meeting_analysis set_iter json_loads generate_content
                                       transcript client_name project_name
        = App.create_fallback_analysis set_iter transcript client_name
                                       project_name).
Proof.
  split; [|split; [|split; [|split]]].
  - unfold App.summarize_meeting_analysis.
    destruct (process_transcript _ _ _ _ _) as [result|e] eqn:E.
    + exact (process_transcript_complete _ _ _ _ _ _ E).
    + apply app_complete.
  - intros self cn pn result. apply process_transcript_complete.
  - intros self cn pn Hm. unfold process_transcript. now rewrite Hm.
  - intros self cn pn e Hm Hg. unfold process_transcript. now rewrite Hm, Hg.
  - intros e E. unfold App.summarize_meeting_analysis. now rewrite E.
Qed.

(** C2, as the code has it.  Which extractor the analysis step of
    [summarize_meeting] falls back to depends on the call that fails.
    When the model fails at the request of [__init__], the engine has
    no model and the result is the result of [_fallback_parsing] on the
    transcript.  When the model answered that request and its call in
    [process_transcript] raises, the result is the result of
    [create_fallback_analysis] on the same transcript, client and
    project. *)
Theorem model_failure_falls_back (generate_content : Model)
    (transcript client_name project_name : string) :
  (forall e,
     generate_content "Test" = Raise e ->
     App.summarize_meeting_analysis set_iter json_loads generate_content
                                    transcript client_name project_name
     = _fallback_parsing transcript)
  /\ (forall reply e,
        generate_content "Test" = Return reply ->
        generate_content (prompt transcript (Some client_name)
                                 (Some project_name)) = Raise e ->
        App.summarize_meeting_analysis set_iter json_loads generate_content
                                       transcript client_name project_name
        = App.create_fallback_analysis set_iter transcript client_name
                                       project_name).
Proof.
  unfold App.summarize_meeting_analysis, init, process_transcript. split.
  - intros e Hinit. now rewrite Hinit.
  - intros reply e Hinit Hcall. rewrite Hinit. cbn [model]. now rewrite Hcall.
Qed.

Lemma span_condition (n m : nat) :
  negb (Z.eqb (Z.of_nat n) (-1)) && negb (Z.eqb (Z.of_nat m + 1) 0) = true.
Proof.
  destruct (Z.eqb_spec (Z.of_nat n) (-1)); [lia|].
  destruct (Z.eqb_spec (Z.of_nat m + 1) 0); [lia|]. reflexivity.
Qed.

(** The payload [parse_response] hands to [json.loads]. *)
Lemma parse_response_span (response_text a b c d : string) :
  response_text = a ++ "{" ++ b -> contains "{" a = false ->
  response_text = c ++ "}" ++ d -> contains "}" d = false ->
  parse_response json_loads response_text
  = match json_loads (substring (String.length a)
                                (String.length c + 1 - String.length a)
                                response_text) with
    | Return result =>
        match log_counts (ensure_fields result) with
        | Return _ => Return (ensure_fields result)
        | Raise e => Raise e
        end
    | Raise JSONDecodeError => Return (_fallback_parsing response_text)
    | Raise e => Raise e
    end.
Proof.
  intros Ea Ha Ec Hd. unfold parse_response.
  assert (F : find_char "{"%char response_text = Z.of_nat (String.length a)).
  { rewrite Ea. now apply find_char_first. }
  assert (L : rfind_char "}"%char response_text = Z.of_nat (String.length c)).
  { rewrite Ec. now apply rfind_char_last. }
  rewrite F, L, span_condition. unfold slice. rewrite Nat2Z.id.
  replace (Z.to_nat (Z.of_nat (String.length c) + 1 - Z.of_nat (String.length a)))
    with (String.length c + 1 - String.length a) by lia.
  reflexivity.
Qed.


End Claims.

(** C2 at a model that is out of reach for the transcript, and at one
    that is out of reach from the start. *)
Lemma model_failure_falls_back_witness :
  App.summarize_meeting_analysis Examples.insertion_order Examples.no_json
                                 Examples.offline_model Examples.sarah
                                 "Acme" "Apollo"
  = App.create_fallback_analysis Examples.insertion_order Examples.sarah
                                 "Acme" "Apollo"
  /\ App.summarize_meeting_analysis Examples.insertion_order Examples.no_json
                                    Examples.dead_model Examples.sarah
                                    "Acme" "Apollo"
     = _fallback_parsing Examples.sarah.
Proof.
  split.
  - apply (proj2 (model_failure_falls_back Examples.insertion_order
                    Examples.no_json Examples.offline_model Examples.sarah
                    "Acme" "Apollo")
                 "ok" (OtherError "ConnectionError")); reflexivity.
  - apply (proj1 (model_failure_falls_back Examples.insertion_order
                    Examples.no_json Examples.dead_model Examples.sarah
                    "Acme" "Apollo")
                 (OtherError "ConnectionError")); reflexivity.
Defined.


(** C1 at the transcript of the example and a model out of reach. *)
Lemma analysis_total_witness :
  complete (App.summarize_meeting_analysis Examples.insertion_order
              Examples.no_json Examples.offline_model Examples.sarah
              "Acme" "Apollo") = true
  /\ process_transcript Examples.no_json (init Examples.offline_model)
                        Examples.sarah (Some "Acme") (Some "Apollo")
     = Raise (OtherError "ConnectionError").
Proof.
  destruct (analysis_total Examples.insertion_order Examples.no_json
              Examples.offline_model Examples.sarah "Acme" "Apollo")
    as (H1 & _ & _ & H4 & _).
  split; [exact H1|].
  apply (H4 (init Examples.offline_model) (Some "Acme") (Some "Apollo"));
    reflexivity.
Defined.

End Pipeline.

(* ================================================================= *)
(** * The results of the extractors *)

Module Results.
Import Py Data AIEngine Spec Remarks Samples.
Import StrFacts FallbackFacts ProcessFacts AnalysisFacts OrderFacts AgendaFacts.


(** A reply that parses to an object with an empty summary is returned
    with that summary. *)
Lemma empty_summary_returned :
  dict_get "summary"
    (App.summarize_meeting_analysis Examples.insertion_order
       (Examples.json_loads_at Examples.empty_summary_payload
                               Examples.empty_summary_object)
       (Examples.canned_model Examples.empty_summary_payload)
       Examples.sarah "Acme" "Apollo")
  = Some (VStr "").
Proof. vm_compute. reflexivity. Qed.

(** With a model, the result for the empty transcript is made from the
    reply of the model. *)
Lemma empty_transcript_with_model :
  process_transcript Examples.no_json
    {| model := Some (Examples.canned_model Examples.prose_reply) |}
    "" None None
  = Return [("summary", VStr "Meeting transcript processed successfully.");
            ("action_items", VList [VStr "Send the notes"]);
            ("participants", VList []); ("key_decisions", VList []);
            ("next_steps", VList [])].
Proof. vm_compute. reflexivity. Qed.

Section Claims.
Variable set_iter : pyset -> list string.
Variable json_loads : string -> outcome dict.

Lemma parse_response_summary (response_text : string) :
  match parse_response json_loads response_text with
  | Return result =>
      summary_nonempty result
      \/ exists payload object,
           json_loads payload = Return object /\ result = ensure_fields object
  | Raise _ => True
  end.
Proof.
  unfold parse_response. destruct (negb _ && negb _).
  - destruct (json_loads _) as [object|e] eqn:E.
    + destruct (log_counts _); [|exact I]. right. eauto.
    + destruct e; try exact I. left. apply fallback_parsing_summary.
  - left. apply fallback_parsing_summary.
Qed.

Lemma app_summary (transcript client_name project_name : string) :
  summary_nonempty (App.create_fallback_analysis set_iter transcript
                                                 client_name project_name).
Proof.
  destruct (app_result set_iter transcript client_name project_name)
    as (s & m & -> & H).
  exists s. split; [reflexivity | exact H].
Qed.

Lemma legacy_summary (transcript client_name project_name : string) :
  summary_nonempty (LegacyApp.create_fallback_analysis set_iter transcript
                                                       client_name project_name).
Proof.
  destruct (legacy_result set_iter transcript client_name project_name)
    as (s & m & -> & H).
  exists s. split; [reflexivity | exact H].
Qed.

(** C6, as the code has it.  The summary is a string that is not empty
    in the result of [_fallback_parsing], in its handler and in the result
    of both [create_fallback_analysis].  After a parse a missing summary
    becomes the placeholder, and a summary the model gave is kept as it
    is: the result of the analysis step has a summary that is not empty,
    or it is the parsed object with its missing fields filled in. *)
Theorem summary_invariant (generate_content : Model)
    (transcript client_name project_name : string) :
  summary_nonempty (_fallback_parsing transcript)
  /\ summary_nonempty (LegacyApp.create_fallback_analysis set_iter transcript
                                                          client_name project_name)
  /\ summary_nonempty (App.create_fallback_analysis set_iter transcript
                                                    client_name project_name)
  /\ (forall result,
        summary_nonempty
          (dict_set "summary"
                    (VStr ("Parsed with limitations: " ++ take 100 transcript
                           ++ "..."))
                    result))
  /\ (forall object,
        dict_get "summary" (ensure_fields object)
        = match dict_get "summary" object with
          | Some v => Some v
          | None => Some (VStr "No summary available.")
          end)
  /\ (summary_nonempty
        (App.summarize_meeting_analysis set_iter json_loads generate_content
                                        transcript client_name project_name)
      \/ exists payload object,
           json_loads payload = Return object
           /\ App.summarize_meeting_analysis set_iter json_loads generate_content
                                             transcript client_name project_name
              = ensure_fields object).
Proof.
  split; [apply fallback_parsing_summary|].
  split; [apply legacy_summary|].
  split; [apply app_summary|].
  split; [intros result; apply handler_summary|].
  split; [apply ensure_fields_summary|].
  unfold App.summarize_meeting_analysis, process_transcript.
  destruct (model (init generate_content)) as [m|].
  - destruct (m _) as [text|e]; [|left; apply app_summary].
    pose proof (parse_response_summary (strip text)) as H.
    destruct (parse_response json_loads (strip text)) as [result|e].
    + exact H.
    + left; apply app_summary.
  - left. apply fallback_parsing_summary.
Qed.

(** C8 on the code.  On the transcript of the scenario the first loop of
    the legacy extractor finds the task of Sarah, with its six fields, but
    the result holds the remark of the system alone; the classifier gives
    "high" for the text of the scenario. *)
Theorem sarah_scenario (client_name project_name : string) :
  LegacyApp.action_items
    (LegacyApp.scan_statements
       (LegacyApp.statements_of (LegacyApp.lines_of Examples.sarah)))
  = [VDict [("task", VStr "I will finish the report by Friday");
            ("assignee", VStr "Sarah"); ("assigned_by", VStr "Meeting");
            ("deadline", VStr "Not specified"); ("priority", VStr "high");
            ("confidence", VStr "Medium")]]
  /\ list_at "action_items"
       (LegacyApp.create_fallback_analysis set_iter Examples.sarah client_name
                                           project_name)
     = [VDict [("person", VStr "System");
               ("remark",
                VStr "Meeting analysis completed using fallback processing");
               ("given_to", VStr "General")]]
  /\ list_at "action_items"
       (App.create_fallback_analysis set_iter Examples.sarah client_name
                                     project_name)
     = [VDict [("person", VStr "System");
               ("remark",
                VStr "Meeting analysis completed using fallback processing");
               ("given_to", VStr "General")]]
  /\ App.classify_task_priority "urgent, please prioritize" "" = "high".
Proof.
  split; [vm_compute; reflexivity|].
  split; [|split; [|vm_compute; reflexivity]].
  - destruct (legacy_result set_iter Examples.sarah client_name project_name)
      as (s & m & -> & _).
    vm_compute. reflexivity.
  - destruct (app_result set_iter Examples.sarah client_name project_name)
      as (s & m & -> & _).
    vm_compute. reflexivity.
Qed.

(** C9, as the code has it.  Without a model, [process_transcript] on the
    empty transcript returns the placeholder summary and no action item;
    so it does on every transcript whose lines are all blank. *)
Theorem empty_transcript (client_name project_name : option string) :
  process_transcript json_loads {| model := None |} "" client_name project_name
  = Return [("summary", VStr "Meeting transcript processed successfully.");
            ("action_items", VList []); ("participants", VList []);
            ("key_decisions", VList []); ("next_steps", VList [])]
  /\ (forall transcript,
        seen_lines transcript = [] ->
        process_transcript json_loads {| model := None |} transcript
                           client_name project_name
        = Return [("summary", VStr "Meeting transcript processed successfully.");
                  ("action_items", VList []); ("participants", VList []);
                  ("key_decisions", VList []); ("next_steps", VList [])]).
Proof.
  split; [reflexivity|].
  intros transcript H. unfold process_transcript. cbn [model]. f_equal.
  pose proof (fallback_parsing_body transcript) as E.
  rewrite (StripFacts.fallback_body_seen transcript "" result0 H) in E.
  rewrite (fallback_parsing_body "") in E. now injection E as <-.
Qed.

(** C10.  The key decisions and the next steps of
    [create_fallback_analysis] of [ps 3/app.py] are two fixed lists,
    whatever the transcript, the client and the project. *)
Theorem fixed_decisions_and_next_steps
    (transcript client_name project_name : string) :
  dict_get "key_decisions"
    (App.create_fallback_analysis set_iter transcript client_name project_name)
  = Some (VList [VStr "Project timeline and deliverables discussed";
                 VStr "Resource allocation planned";
                 VStr "Next meeting scheduled"])
  /\ dict_get "next_steps"
       (App.create_fallback_analysis set_iter transcript client_name project_name)
     = Some (VList [VStr "Follow up on action items";
                    VStr "Prepare progress report";
                    VStr "Schedule next review meeting"])
  /\ (forall transcript' client_name' project_name',
        dict_get "key_decisions"
          (App.create_fallback_analysis set_iter transcript client_name
                                        project_name)
        = dict_get "key_decisions"
            (App.create_fallback_analysis set_iter transcript' client_name'
                                          project_name')
        /\ dict_get "next_steps"
             (App.create_fallback_analysis set_iter transcript client_name
                                           project_name)
           = dict_get "next_steps"
               (App.create_fallback_analysis set_iter transcript' client_name'
                                             project_name')).
Proof.
  destruct (app_result set_iter transcript client_name project_name)
    as (s & m & -> & _).
  split; [reflexivity|]. split; [reflexivity|].
  intros transcript' client_name' project_name'.
  destruct (app_result set_iter transcript' client_name' project_name')
    as (s' & m' & -> & _).
  split; reflexivity.
Qed.
End Claims.


(** C9 at a transcript of blank lines. *)
Lemma empty_transcript_witness :
  process_transcript Examples.no_json {| model := None |}
                     Examples.blank_transcript None None
  = Return [("summary", VStr "Meeting transcript processed successfully.");
            ("action_items", VList []); ("participants", VList []);
            ("key_decisions", VList []); ("next_steps", VList [])].
Proof.
  destruct (empty_transcript Examples.no_json None None) as [_ H].
  apply H. reflexivity.
Defined.

End Results.

(* ================================================================= *)
(** * Further properties *)

(** ** Characters of a string *)

Module CharFacts.
Import Py Terms StrFacts.

Lemma every_app (p : ascii -> bool) (a b : string) :
  every p (a ++ b) = every p a && every p b.
Proof.
  induction a as [|c a IH]; simpl; [reflexivity|].
  now rewrite IH, andb_assoc.
Qed.

Lemma some_app (p : ascii -> bool) (a b : string) :
  some p (a ++ b) = some p a || some p b.
Proof.
  induction a as [|c a IH]; simpl; [reflexivity|].
  now rewrite IH, orb_assoc.
Qed.

Lemma every_substring (p : ascii -> bool) (s : string) :
  every p s = true -> forall n m, every p (substring n m s) = true.
Proof.
  induction s as [|c s IH]; intros H n m.
  - now destruct n, m.
  - simpl in H. apply andb_true_iff in H as [Hc Hs].
    destruct n as [|n]; destruct m as [|m]; simpl; auto.
    rewrite Hc. now apply IH.
Qed.

Lemma every_lstrip (p : ascii -> bool) (s : string) :
  every p s = true -> every p (lstrip s) = true.
Proof.
  induction s as [|c s IH]; [auto|]. intros H. cbn [lstrip].
  destruct (isspace c); [|exact H].
  simpl in H. apply andb_true_iff in H as [_ H]. now apply IH.
Qed.

Lemma every_rstrip (p : ascii -> bool) (s : string) :
  every p s = true -> every p (rstrip s) = true.
Proof.
  induction s as [|c s IH]; [auto|]. intros H.
  simpl in H. apply andb_true_iff in H as [Hc Hs].
  rewrite StripFacts.rstrip_cons. specialize (IH Hs).
  destruct (rstrip s) as [|d r].
  - destruct (isspace c); simpl; [reflexivity | now rewrite Hc].
  - cbn [every]. rewrite Hc. exact IH.
Qed.

Lemma every_strip (p : ascii -> bool) (s : string) :
  every p s = true -> every p (strip s) = true.
Proof. intros H. unfold strip. now apply every_rstrip, every_lstrip. Qed.

Lemma every_without (p : ascii -> bool) (s : string) :
  every (fun c => negb (p c)) (without p s) = true.
Proof.
  induction s as [|c s IH]; [reflexivity|]. simpl.
  destruct (p c) eqn:E; [exact IH|]. simpl. now rewrite E.
Qed.

Lemma length_substring (n m : nat) (s : string) :
  String.length (substring n m s) <= m.
Proof.
  revert n m. induction s as [|c s IH]; intros n m.
  - destruct n, m; simpl; lia.
  - destruct n as [|n]; destruct m as [|m]; simpl; try lia.
    + specialize (IH 0 m). lia.
    + apply IH.
    + apply IH.
Qed.

Lemma length_lstrip (s : string) : String.length (lstrip s) <= String.length s.
Proof.
  induction s as [|c s IH]; [auto|]. cbn [lstrip].
  destruct (isspace c); simpl; lia.
Qed.

Lemma length_rstrip (s : string) : String.length (rstrip s) <= String.length s.
Proof.
  induction s as [|c s IH]; [auto|]. rewrite StripFacts.rstrip_cons.
  destruct (rstrip s) as [|d r]; [destruct (isspace c)|]; simpl in *; lia.
Qed.

Lemma length_strip (s : string) : String.length (strip s) <= String.length s.
Proof.
  unfold strip. pose proof (length_rstrip (lstrip s)).
  pose proof (length_lstrip s). lia.
Qed.

End CharFacts.

(** ** [re.sub] and [re.search] of one class *)

Module ClassFacts.
Import Py Terms StrFacts CharFacts.

Lemma concat_empty_cons (x : string) (l : list string) :
  String.concat "" (x :: l) = x ++ String.concat "" l.
Proof. destruct l; simpl; [now rewrite append_empty_r | reflexivity]. Qed.

(** Deleting the matches of a class deletes the characters of the class. *)
Lemma scan_class (p : ascii -> bool) (fuel : nat) :
  forall pos s gap,
    String.length s < fuel ->
    String.concat "" (map fst (fst (Re.scan fuel (Re.Cls p) pos s gap)))
    ++ snd (Re.scan fuel (Re.Cls p) pos s gap)
    = gap ++ without p s.
Proof.
  induction fuel as [|fuel IH]; intros pos s gap H; [lia|].
  destruct s as [|c s].
  - cbn. now rewrite append_empty_r.
  - cbn [String.length] in H. cbn [Re.scan without].
    unfold Re.match_at. cbn [Re.rx Re.cls_test].
    destruct (p c) eqn:E.
    + replace (S pos =? pos) with false by (symmetry; apply Nat.eqb_neq; lia).
      specialize (IH (S pos) s "" ltac:(lia)).
      destruct (Re.scan fuel (Re.Cls p) (S pos) s "") as [ms rest].
      cbn [fst snd map] in *. rewrite concat_empty_cons, append_assoc, IH.
      reflexivity.
    + rewrite (IH (S pos) s (gap ++ String c "") ltac:(lia)).
      now rewrite append_assoc.
Qed.

Lemma sub_class (p : ascii -> bool) (s : string) :
  Re.sub_empty (Re.Cls p) s = without p s.
Proof.
  unfold Re.sub_empty, Re.scan_all.
  pose proof (scan_class p (S (String.length s)) 0 s "" ltac:(lia)) as H.
  destruct (Re.scan _ _ _ _ _) as [ms rest]. exact H.
Qed.

(** A class is found in a subject when a character of the subject is in
    the class. *)
Lemma search_class (p : ascii -> bool) (s : string) (pos : nat) :
  match Re.search_from false (Re.Cls p) pos s with
  | Some _ => true
  | None => false
  end = some p s.
Proof.
  revert pos. induction s as [|c s IH]; intros pos; [reflexivity|].
  cbn [Re.search_from some]. unfold Re.match_at. cbn [Re.rx Re.cls_test].
  destruct (p c); [reflexivity|]. apply IH.
Qed.

Lemma lacks_some (p : ascii -> bool) (password : string) :
  Validators.lacks p password = negb (some p password).
Proof.
  unfold Validators.lacks, Re.search.
  rewrite <- (search_class p password 0).
  now destruct (Re.search_from _ _ _ _).
Qed.

End ClassFacts.

(** ** [InputValidator] *)

Module ValidatorFacts.
Import Py Data Terms StrFacts CharFacts ClassFacts Validators.

(** A replacement does away with its character, and brings in nothing
    that its new text does not hold. *)
Lemma replace_char_removes (q : ascii -> bool) (c : ascii) (new s : string) :
  every q new = true ->
  (forall d, Ascii.eqb d c = false -> q d = true) ->
  every q (replace_char c new s) = true.
Proof.
  intros Hn Hq. induction s as [|d s IH]; [reflexivity|].
  cbn [replace_char]. rewrite every_app, IH, andb_true_r.
  destruct (Ascii.eqb d c) eqn:E; [exact Hn|].
  simpl. now rewrite (Hq d E).
Qed.

Lemma replace_char_keeps (q : ascii -> bool) (c : ascii) (new s : string) :
  every q new = true -> every q s = true ->
  every q (replace_char c new s) = true.
Proof.
  intros Hn. induction s as [|d s IH]; [reflexivity|]. intros H.
  simpl in H. apply andb_true_iff in H as [Hd Hs].
  cbn [replace_char]. rewrite every_app, (IH Hs), andb_true_r.
  destruct (Ascii.eqb d c); [exact Hn|]. simpl. now rewrite Hd.
Qed.

Lemma every_and (p q : ascii -> bool) (s : string) :
  every p s = true -> every q s = true ->
  every (fun c => p c && q c) s = true.
Proof.
  induction s as [|c s IH]; [reflexivity|]. simpl. intros Hp Hq.
  apply andb_true_iff in Hp as [-> Hp]. apply andb_true_iff in Hq as [-> Hq].
  now rewrite IH.
Qed.

Lemma neq_eqb (c d : ascii) : Ascii.eqb d c = false -> negb (Ascii.eqb d c) = true.
Proof. now intros ->. Qed.

(** After [html_escape] no markup character is left, and no control
    character has come in. *)
Lemma html_escape_clean (s : string) :
  every (fun c => negb (is_control c)) s = true ->
  every is_clean (html_escape s) = true.
Proof.
  intros H. unfold html_escape.
  set (s5 := replace_char sq _ _).
  assert (C : every (fun c => negb (is_control c)) s5 = true).
  { subst s5. do 5 (apply replace_char_keeps; [reflexivity|]). exact H. }
  assert (L : every (fun c => negb (Ascii.eqb c "<")) s5 = true).
  { subst s5. do 3 (apply replace_char_keeps; [reflexivity|]).
    apply replace_char_removes; [reflexivity | apply neq_eqb]. }
  assert (G : every (fun c => negb (Ascii.eqb c ">")) s5 = true).
  { subst s5. do 2 (apply replace_char_keeps; [reflexivity|]).
    apply replace_char_removes; [reflexivity | apply neq_eqb]. }
  assert (D : every (fun c => negb (Ascii.eqb c dq_char)) s5 = true).
  { subst s5. apply replace_char_keeps; [reflexivity|].
    apply replace_char_removes; [reflexivity | apply neq_eqb]. }
  assert (Q : every (fun c => negb (Ascii.eqb c sq)) s5 = true).
  { subst s5. apply replace_char_removes; [reflexivity | apply neq_eqb]. }
  clearbody s5. clear - C L G D Q.
  induction s5 as [|c s IH]; [reflexivity|]. simpl in *.
  apply andb_true_iff in C as [C1 C]. apply andb_true_iff in L as [L1 L].
  apply andb_true_iff in G as [G1 G]. apply andb_true_iff in D as [D1 D].
  apply andb_true_iff in Q as [Q1 Q].
  rewrite (IH C L G D Q), andb_true_r.
  unfold is_clean, is_markup. cbn [existsb].
  apply negb_true_iff in L1, G1, D1, Q1. now rewrite L1, G1, D1, Q1, C1.
Qed.

(** The cut and the strip leave at most [max_length] characters. *)
Lemma cut_length (max_length : nat) (t : string) :
  String.length
    (strip (if max_length <? String.length t then take max_length t else t))
  <= max_length.
Proof.
  destruct (Nat.ltb_spec max_length (String.length t)) as [H|H].
  - pose proof (length_strip (take max_length t)).
    pose proof (length_substring 0 max_length t). unfold take in *. lia.
  - pose proof (length_strip t). lia.
Qed.

(** X1.  What [sanitize_string] returns has at most [max_length]
    characters and no space at either end. *)
Theorem sanitize_string_bounded (text : string) (max_length : nat) :
  String.length (sanitize_string text max_length) <= max_length
  /\ strip (sanitize_string text max_length) = sanitize_string text max_length.
Proof.
  unfold sanitize_string. destruct (negb (nonempty text)).
  - split; [simpl; lia | reflexivity].
  - split; [apply cut_length | apply StripFacts.strip_idem].
Qed.

(** The text is clean once the control characters are out and the
    markup is escaped, and the cut and the strip keep it so. *)
Lemma scrub_clean (text : string) :
  every is_clean (html_escape (Re.sub_empty (Re.Cls is_control) text)) = true.
Proof. apply html_escape_clean. rewrite sub_class. apply every_without. Qed.

Lemma cut_clean (max_length : nat) (t : string) :
  every is_clean t = true ->
  every is_clean
    (strip (if max_length <? String.length t then take max_length t else t))
  = true.
Proof.
  intros H. apply every_strip. destruct (max_length <? _); [|exact H].
  unfold take. now apply every_substring.
Qed.

(** X2.  What [sanitize_string] returns holds no angle bracket, no
    quote of either kind and none of the control characters of its
    pattern, also when the cut falls inside an escaped character. *)
Theorem sanitize_string_clean (text : string) (max_length : nat) :
  every is_clean (sanitize_string text max_length) = true.
Proof.
  unfold sanitize_string. destruct (negb (nonempty text)); [reflexivity|].
  apply cut_clean, scrub_clean.
Qed.

Lemma fail_if_valid (cond : bool) (msg : string) (result : bool * list string) :
  (fst result = true <-> snd result = []) ->
  (fst (fail_if cond msg result) = true <-> snd (fail_if cond msg result) = []).
Proof.
  intros H. unfold fail_if. destruct cond; [|exact H]. simpl. split.
  - discriminate.
  - intros E. now destruct (snd result).
Qed.

Lemma fail_if_fst (cond : bool) (msg : string) (result : bool * list string) :
  fst (fail_if cond msg result) = negb cond && fst result.
Proof. unfold fail_if. now destruct cond. Qed.

(** X3.  [validate_password] reports a password as valid exactly when it
    lists no error, and that is exactly when the password has eight
    characters or more, a capital letter, a small letter and a digit. *)
Theorem validate_password_strength (password : string) :
  dict_get "valid" (validate_password password) = Some (VBool (strong password))
  /\ (strong password = true
      <-> dict_get "errors" (validate_password password) = Some (VList [])).
Proof.
  unfold validate_password.
  set (r1 := fail_if (String.length password <? 8) _ (true, [])).
  set (r2 := fail_if (lacks is_AZ password) _ r1).
  set (r3 := fail_if (lacks is_az password) _ r2).
  set (r4 := fail_if (lacks is_digit password) _ r3).
  assert (V : fst r4 = strong password).
  { subst r4 r3 r2 r1. rewrite !fail_if_fst, !lacks_some, !negb_involutive.
    unfold strong. cbn [fst]. rewrite andb_true_r.
    replace (negb (String.length password <? 8))
      with (8 <=? String.length password)
      by (destruct (Nat.ltb_spec (String.length password) 8);
          destruct (Nat.leb_spec 8 (String.length password)); simpl; lia || auto).
    destruct (8 <=? _), (some is_AZ _), (some is_az _), (some is_digit _);
      reflexivity. }
  assert (E : fst r4 = true <-> snd r4 = []).
  { subst r4 r3 r2 r1. repeat apply fail_if_valid. simpl. tauto. }
  cbn [dict_display fold_left dict_set fst snd String.eqb Ascii.eqb Bool.eqb
       dict_get].
  rewrite V in *. split; [reflexivity|].
  rewrite E. split.
  - now intros ->.
  - intros H. injection H as H. now destruct (snd r4).
Qed.

Lemma validate_password_strength_witness :
  dict_get "errors" (validate_password "Passw0rd") = Some (VList []).
Proof.
  apply (proj1 (proj2 (validate_password_strength "Passw0rd"))). reflexivity.
Defined.

End ValidatorFacts.

(** ** What the matcher accepts *)

Module MatchFacts.
Import Py Data Terms StrFacts CharFacts Re.

(** Where the matcher goes on, the pattern has matched the part of the
    subject it went over. *)
Lemma rx_matches {R : Type} (icase : bool) (r : regex) :
  forall pos s g (k : nat -> string -> groups -> option R) x,
    rx icase r pos s g k = Some x ->
    exists pos' s' g', k pos' s' g' = Some x /\ Matches icase r s s'.
Proof.
  induction r as [| |p|a IHa b IHb|a IHa|a IHa|i a IHa]; intros pos s g k x H.
  - exists pos, s, g. split; [exact H | constructor].
  - cbn [rx] in H. destruct (pos =? 0); [|discriminate].
    exists pos, s, g. split; [exact H | constructor].
  - cbn [rx] in H. destruct s as [|c s]; [discriminate|].
    destruct (cls_test icase p c) eqn:E; [|discriminate].
    exists (S pos), s, g. split; [exact H | now constructor].
  - cbn [rx] in H. apply IHa in H as (p1 & s1 & g1 & H & M1).
    apply IHb in H as (p2 & s2 & g2 & H & M2).
    exists p2, s2, g2. split; [exact H | econstructor; eassumption].
  - cbn [rx] in H. revert H. generalize (String.length s) at 1. intros fuel.
    revert pos s g. induction fuel as [|fuel IH]; intros pos s g H.
    + exists pos, s, g. split; [exact H | constructor].
    + destruct (rx icase a pos s g _) as [y|] eqn:E.
      * injection H as ->. apply IHa in E as (p1 & s1 & g1 & E & M1).
        destruct (p1 =? pos); [discriminate|].
        apply IH in E as (p2 & s2 & g2 & E & M2).
        exists p2, s2, g2. split; [exact E | econstructor; eassumption].
      * exists pos, s, g. split; [exact H | constructor].
  - cbn [rx] in H. destruct (rx icase a pos s g k) as [y|] eqn:E.
    + injection H as ->. apply IHa in E as (p1 & s1 & g1 & E & M1).
      exists p1, s1, g1. split; [exact E | now constructor].
    + exists pos, s, g. split; [exact H | constructor].
  - cbn [rx] in H. apply IHa in H as (p1 & s1 & g1 & H & M1).
    eexists p1, s1, _. split; [exact H | now constructor].
Qed.

(** What a class, a repeated class and a literal take. *)
Lemma matches_cls (p : ascii -> bool) (s s' : string) :
  Matches false (Cls p) s s' -> exists c, s = String c s' /\ p c = true.
Proof. intros H. inversion H; subst. eauto. Qed.

Lemma matches_star_cls (p : ascii -> bool) (s s' : string) :
  Matches false (Star (Cls p)) s s' ->
  exists w, s = w ++ s' /\ every p w = true.
Proof.
  intros H. remember (Star (Cls p)) as r eqn:Er.
  induction H; try discriminate.
  - now exists "".
  - injection Er as ->. apply matches_cls in H as (c & -> & Hc).
    destruct (IHMatches2 eq_refl) as (w & -> & Hw).
    exists (String c w). simpl. now rewrite Hc, Hw.
Qed.

Lemma matches_plus_cls (p : ascii -> bool) (s s' : string) :
  Matches false (Plus (Cls p)) s s' ->
  exists w, s = w ++ s' /\ every p w = true /\ 1 <= String.length w.
Proof.
  intros H. inversion H; subst.
  match goal with M : Matches _ (Cls p) _ _ |- _ =>
    apply matches_cls in M as (c & -> & Hc) end.
  match goal with M : Matches _ (Star _) _ _ |- _ =>
    apply matches_star_cls in M as (w & -> & Hw) end.
  exists (String c w). simpl. rewrite Hc, Hw. repeat split. lia.
Qed.

Lemma matches_chr (c : ascii) (s s' : string) :
  Matches false (Chr c) s s' -> s = String c s'.
Proof.
  intros H. apply matches_cls in H as (d & -> & E).
  apply Ascii.eqb_eq in E. now subst.
Qed.

End MatchFacts.

Module EmailFacts.
Import Py Data Terms StrFacts CharFacts Re MatchFacts Validators.

Lemma at_end_cases (rest : string) :
  at_end rest = true -> rest = "" \/ rest = String LF "".
Proof.
  destruct rest as [|c [|d rest]]; simpl; try discriminate; auto.
  intros H. apply Ascii.eqb_eq in H. subst. now right.
Qed.

(** X4.  An address [validate_email] accepts reads
    [local @ domain . tld], with a local part and a domain that are not
    empty and made of the characters of their classes, and two letters or
    more at the end; what may follow is one line feed and nothing else. *)
Theorem validate_email_shape (email : string) :
  validate_email email = true ->
  exists local domain tld rest,
    email = local ++ "@" ++ domain ++ "." ++ tld ++ rest
    /\ every is_local local = true /\ 1 <= String.length local
    /\ every is_domain domain = true /\ 1 <= String.length domain
    /\ every is_letter tld = true /\ 2 <= String.length tld
    /\ (rest = "" \/ rest = String LF "").
Proof.
  unfold validate_email. intros H.
  destruct (rx false email_re 0 email [] _) as [g|] eqn:E; [clear H|discriminate].
  apply rx_matches in E as (pos & rest & g' & K & M).
  destruct (at_end rest) eqn:A; [clear K|discriminate].
  apply at_end_cases in A.
  unfold email_re, Cat in M. cbn [fold_right] in M.
  inversion M as [| | |? ? ? s0 ? M0 M1| | | | |]; subst; clear M.
  inversion M0; subst; clear M0.
  inversion M1 as [| | |? ? ? s1 ? Ml M2| | | | |]; subst; clear M1.
  apply matches_plus_cls in Ml as (local & -> & Hl & Ll).
  inversion M2 as [| | |? ? ? s2 ? Ma M3| | | | |]; subst; clear M2.
  apply matches_chr in Ma. subst s1.
  inversion M3 as [| | |? ? ? s3 ? Md M4| | | | |]; subst; clear M3.
  apply matches_plus_cls in Md as (domain & -> & Hd & Ld).
  inversion M4 as [| | |? ? ? s4 ? Mp M5| | | | |]; subst; clear M4.
  apply matches_chr in Mp. subst s3.
  inversion M5 as [| | |? ? ? s5 ? M6 M7| | | | |]; subst; clear M5.
  apply matches_cls in M6 as (c & -> & Hc).
  inversion M7 as [| | |? ? ? s6 ? Mt M8| | | | |]; subst; clear M7.
  apply matches_plus_cls in Mt as (w & -> & Hw & Lw).
  inversion M8; subst; clear M8.
  exists local, domain, (String c w), rest.
  repeat split; auto.
  - simpl. now rewrite Hc, Hw.
  - simpl. lia.
Qed.

(** The address of the example is accepted. *)
Lemma validate_email_shape_witness :
  exists local domain tld rest,
    "sarah.lee@example.co" = local ++ "@" ++ domain ++ "." ++ tld ++ rest
    /\ every is_local local = true /\ 1 <= String.length local
    /\ every is_domain domain = true /\ 1 <= String.length domain
    /\ every is_letter tld = true /\ 2 <= String.length tld
    /\ (rest = "" \/ rest = String LF "").
Proof. apply (validate_email_shape "sarah.lee@example.co"). reflexivity. Defined.

End EmailFacts.

(** ** The checks and the task loop of [summarize_meeting] *)

Module RequestFacts.
Import Py Data Terms Spec StrFacts CharFacts ValidatorFacts Priority Request.
#[local] Set Warnings "-abstract-large-number".






(** The classifier has three answers. *)
Lemma classify_range (task_text context : string) :
  App.classify_task_priority task_text context = "high"
  \/ App.classify_task_priority task_text context = "medium"
  \/ App.classify_task_priority task_text context = "low".
Proof.
  unfold App.classify_task_priority.
  destruct (any_in App.high_keywords _); [auto|].
  destruct (any_in App.medium_keywords _); auto.
Qed.

Lemma classify_not_normal (task_text context : string) :
  String.eqb (App.classify_task_priority task_text context) "normal" = false.
Proof. destruct (classify_range task_text context) as [->|[->| ->]]; reflexivity. Qed.

Lemma make_row_priority (transcript : string) (task_data : value) (row : task_row) :
  make_row transcript task_data = Return row ->
  priority row = App.classify_task_priority (task_description row) transcript
  /\ alert row = String.eqb (priority row) "high".
Proof.
  unfold make_row.
  destruct (item_get "priority" _ task_data) as [[| | | |p| |]|]; try discriminate.
  destruct (item_get "task" _ task_data) as [[| | | |task| |]|]; try discriminate.
  rewrite classify_not_normal. cbn [negb]. intros H. injection H as <-.
  split; reflexivity.
Qed.

Lemma make_rows_forall (P : task_row -> Prop) (transcript : string) :
  (forall task_data row, make_row transcript task_data = Return row -> P row) ->
  forall items rows,
    make_rows transcript items = Return rows -> Forall P rows.
Proof.
  intros HP. induction items as [|item items IH]; intros rows H.
  - injection H as <-. constructor.
  - cbn [make_rows] in H.
    destruct (make_row transcript item) as [row|] eqn:E; [|discriminate].
    destruct (make_rows transcript items) as [rows'|]; [|discriminate].
    injection H as <-. constructor; [now apply (HP item) | now apply IH].
Qed.

Lemma task_rows_forall (P : task_row -> Prop) (transcript : string) :
  (forall task_data row, make_row transcript task_data = Return row -> P row) ->
  forall result rows,
    task_rows result transcript = Return rows -> Forall P rows.
Proof.
  intros HP result rows. unfold task_rows.
  destruct (truthy _).
  - destruct (iterate _) as [items|]; [|discriminate].
    now apply make_rows_forall.
  - intros H. injection H as <-. constructor.
Qed.

(** X6.  In the task loop of [summarize_meeting] the priority of every
    row is the answer of [classify_task_priority] on the task and the
    whole transcript: the priority the analysis gave is never used, and
    the alert is asked for exactly when that answer is "high". *)
Theorem task_priority_is_classified (result : dict) (transcript : string)
    (rows : list task_row) :
  task_rows result transcript = Return rows ->
  Forall (fun row =>
            priority row
            = App.classify_task_priority (task_description row) transcript
            /\ alert row = String.eqb (priority row) "high") rows.
Proof. apply task_rows_forall. apply make_row_priority. Qed.

Lemma task_priority_is_classified_witness :
  exists rows,
    task_rows Samples.analysis Examples.sarah = Return rows
    /\ Forall (fun row =>
                priority row
                = App.classify_task_priority (task_description row) Examples.sarah
                /\ alert row = String.eqb (priority row) "high") rows.
Proof.
  eexists. split; [vm_compute; reflexivity|].
  apply (task_priority_is_classified Samples.analysis Examples.sarah).
  vm_compute. reflexivity.
Defined.

Lemma occurs_in_subject (k task_text context : string) :
  Occurs k (lower context) -> Occurs k (subject task_text context).
Proof.
  intros H. unfold subject. rewrite !lower_app.
  now apply occurs_app_r, occurs_app_r.
Qed.

(** X7.  When a high-urgency keyword occurs anywhere in the transcript,
    every row the task loop makes has priority "high" and asks for the
    alert, whatever the task says. *)
Theorem urgent_transcript_escalates (result : dict) (transcript : string)
    (rows : list task_row) :
  (exists k, In k App.high_keywords /\ Occurs k (lower transcript)) ->
  task_rows result transcript = Return rows ->
  Forall (fun row => priority row = "high" /\ alert row = true) rows.
Proof.
  intros (k & HIn & Hk). apply task_rows_forall.
  intros task_data row H. apply make_row_priority in H as [Hp Ha].
  assert (E : priority row = "high").
  { rewrite Hp. apply classify_high. exists k. split; [exact HIn|].
    now apply occurs_in_subject. }
  split; [exact E | now rewrite Ha, E].
Qed.

Lemma urgent_transcript_escalates_witness :
  exists rows,
    task_rows Samples.analysis Samples.pressing = Return rows
    /\ Forall (fun row => priority row = "high" /\ alert row = true) rows.
Proof.
  eexists. split; [vm_compute; reflexivity|].
  apply (urgent_transcript_escalates Samples.analysis Samples.pressing).
  - exists "urgent". split; [simpl; tauto|].
    exists "this is ", ": update the docs". reflexivity.
  - vm_compute. reflexivity.
Defined.

(** X8.  An addition to the context never lowers the priority of a task,
    and an addition to the task never lowers the priority the context
    alone has. *)
Theorem context_never_lowers (task_text context : string) :
  rank (App.classify_task_priority task_text "")
  <= rank (App.classify_task_priority task_text context)
  /\ rank (App.classify_task_priority "" context)
     <= rank (App.classify_task_priority task_text context).
Proof.
  assert (L : forall keywords,
             any_in keywords (lower (task_text ++ " " ++ "")) = true ->
             any_in keywords (lower (task_text ++ " " ++ context)) = true).
  { intros keywords H. apply any_in_occurs in H as (k & HIn & Hk).
    apply any_in_occurs. exists k. split; [exact HIn|].
    rewrite append_empty_r in Hk.
    rewrite <- append_assoc, lower_app. now apply occurs_app_l. }
  assert (R : forall keywords,
             any_in keywords (lower ("" ++ " " ++ context)) = true ->
             any_in keywords (lower (task_text ++ " " ++ context)) = true).
  { intros keywords H. apply any_in_occurs in H as (k & HIn & Hk).
    apply any_in_occurs. exists k. split; [exact HIn|].
    rewrite lower_app. now apply occurs_app_r. }
  unfold App.classify_task_priority. split.
  - destruct (any_in App.high_keywords (lower (task_text ++ " " ++ ""))) eqn:E1.
    + now rewrite (L _ E1).
    + destruct (any_in App.high_keywords (lower (task_text ++ " " ++ context)));
        [destruct (any_in App.medium_keywords _); cbn; lia|].
      destruct (any_in App.medium_keywords (lower (task_text ++ " " ++ "")))
        eqn:E2; [now rewrite (L _ E2) | cbn].
      destruct (any_in App.medium_keywords _); cbn; lia.
  - destruct (any_in App.high_keywords (lower ("" ++ " " ++ context))) eqn:E1.
    + now rewrite (R _ E1).
    + destruct (any_in App.high_keywords (lower (task_text ++ " " ++ context)));
        [destruct (any_in App.medium_keywords _); cbn; lia|].
      destruct (any_in App.medium_keywords (lower ("" ++ " " ++ context)))
        eqn:E2; [now rewrite (R _ E2) | cbn].
      destruct (any_in App.medium_keywords _); cbn; lia.
Qed.

End RequestFacts.

(** ** More on [_fallback_parsing] and on the engine *)

Module EngineFacts.
Import Py Data Terms Spec StrFacts DictFacts FallbackFacts ProcessFacts.
Import AnalysisFacts AIEngine Request.

Lemma dict_set_keys (k : string) (v : value) (d : dict) :
  In k (map fst d) -> map fst (dict_set k v d) = map fst d.
Proof.
  induction d as [|[k' v'] d IH]; [intros []|].
  cbn [map fst dict_set]. intros H.
  destruct (String.eqb_spec k' k) as [->|ne]; [reflexivity|].
  cbn [map fst]. f_equal. apply IH. destruct H as [H|H]; [contradiction|exact H].
Qed.

Lemma tidy_set_summary (v : value) (result : dict) :
  tidy result -> tidy (dict_set "summary" v result).
Proof.
  intros (K & P & L). split; [|split].
  - rewrite dict_set_keys; [exact K | rewrite K; simpl; tauto].
  - rewrite dict_get_set_other; [exact P | discriminate].
  - intros k Hk. rewrite dict_get_set_other; [now apply L|].
    intros E. now apply (list_key_not_summary k).
Qed.

Lemma tidy_append (k s : string) (result : dict) :
  In k list_keys -> 3 < String.length s -> tidy result ->
  tidy (snd (append k (VStr s) result)).
Proof.
  intros Hk Hs (K & P & L). destruct (L k Hk) as (l & Hg & Hl).
  unfold append, bind, getitem. rewrite Hg. cbn [setitem snd].
  split; [|split].
  - rewrite dict_set_keys; [exact K|].
    rewrite K. simpl in Hk. simpl. tauto.
  - rewrite dict_get_set_other; [exact P|].
    simpl in Hk. destruct Hk as [<-|[<-|[<-|[]]]]; discriminate.
  - intros k' Hk'. destruct (string_dec k k') as [<-|ne].
    + exists (l ++ [s])%list. rewrite dict_get_set_same, map_app. split.
      * reflexivity.
      * apply Forall_app. split; [exact Hl | now repeat constructor].
    + rewrite dict_get_set_other; [now apply L | exact ne].
Qed.

Lemma keeps_ret {A : Type} (P : dict -> Prop) (a : A) : keeps P (ret a).
Proof. intros result H. exact H. Qed.

Lemma keeps_bind {A B : Type} (P : dict -> Prop) (m : M A) (f : A -> M B) :
  keeps P m -> (forall a, keeps P (f a)) -> keeps P (bind m f).
Proof.
  intros Hm Hf result H. unfold bind. specialize (Hm result H).
  destruct (m result) as [[a|e] r]; [now apply Hf | exact Hm].
Qed.

Lemma keeps_getitem (P : dict -> Prop) (k : string) : keeps P (getitem k).
Proof.
  intros result H. unfold getitem. now destruct (dict_get k result).
Qed.

Lemma keeps_parse_line (current_section : option string) (line : string) :
  keeps tidy (parse_line current_section line).
Proof.
  unfold parse_line.
  destruct (negb (nonempty (strip line))); [apply keeps_ret|].
  destruct (contains "summary" _ && contains ":" _).
  { apply keeps_bind; [|intros; apply keeps_ret].
    destruct (contains ":" _); [|apply keeps_ret].
    destruct (after_first _ _); [|intros result H; exact H].
    destruct (nonempty _); [|apply keeps_ret].
    intros result H. now apply tidy_set_summary. }
  destruct (contains "action" _ && contains "item" _); [apply keeps_ret|].
  destruct (contains "decision" _); [apply keeps_ret|].
  destruct (contains "next" _ && contains "step" _); [apply keeps_ret|].
  destruct current_section as [section|]; [|apply keeps_ret].
  destruct (nonempty section); [|apply keeps_ret].
  apply keeps_bind.
  { destruct (String.eqb section "summary"); [|apply keeps_ret].
    apply keeps_bind; [apply keeps_getitem | intros; apply keeps_ret]. }
  intros [|].
  { apply keeps_bind; [|intros; apply keeps_ret].
    intros result H. now apply tidy_set_summary. }
  destruct (mem section _) eqn:Em; [|apply keeps_ret].
  apply keeps_bind; [|intros; apply keeps_ret].
  destruct (nonempty _ && (3 <? _)) eqn:E; [|apply keeps_ret].
  apply andb_true_iff in E as [_ E]. apply Nat.ltb_lt in E.
  intros result H. apply tidy_append; [exact (mem_in _ _ Em) | exact E | exact H].
Qed.

Lemma keeps_parse_lines (lines : list string) (current_section : option string) :
  keeps tidy (parse_lines current_section lines).
Proof.
  revert current_section. induction lines as [|line lines IH]; intros cs.
  - apply keeps_ret.
  - cbn [parse_lines]. apply keeps_bind; [apply keeps_parse_line | intros; apply IH].
Qed.

Lemma tidy_result0 : tidy result0.
Proof.
  split; [reflexivity|]. split; [reflexivity|].
  simpl. intros k [<-|[<-|[<-|[]]]]; exists []; split; constructor.
Qed.

Lemma keeps_fallback_body (text : string) : keeps tidy (fallback_body text).
Proof.
  unfold fallback_body. apply keeps_bind; [apply keeps_parse_lines|].
  intros _. apply keeps_bind; [apply keeps_getitem|].
  intros s. destruct (negb (truthy s)); [|apply keeps_ret].
  destruct (map strip _); intros result Hr; now apply tidy_set_summary.
Qed.

(** The action items of [_fallback_parsing] are strings. *)
Lemma fallback_parsing_strings (text : string) :
  exists l,
    dict_get "action_items" (_fallback_parsing text) = Some (VList (map VStr l)).
Proof.
  pose proof (keeps_fallback_body text result0 tidy_result0) as H.
  rewrite fallback_parsing_body in H. destruct H as (_ & _ & L).
  destruct (L "action_items") as (l & Hg & _); [simpl; tauto|].
  now exists l.
Qed.

(** X9.  The result of [_fallback_parsing] has its five keys and no
    other, never a participant, and under [action_items],
    [key_decisions] and [next_steps] only strings of more than three
    characters. *)
Theorem fallback_parsing_tidy (text : string) : tidy (_fallback_parsing text).
Proof.
  pose proof (keeps_fallback_body text result0 tidy_result0) as H.
  now rewrite fallback_parsing_body in H.
Qed.

(** X10.  The task loop of [summarize_meeting] cannot take the action
    items of [_fallback_parsing]: they are strings, so the loop makes no
    row when there is none and raises AttributeError at the first one. *)
Theorem fallback_parsing_rows (text transcript : string) :
  task_rows (_fallback_parsing text) transcript
  = match list_at "action_items" (_fallback_parsing text) with
    | [] => Return []
    | _ => Raise AttributeError
    end.
Proof.
  destruct (fallback_parsing_strings text) as (l & Hg).
  unfold task_rows, list_at, dict_get_default. rewrite Hg.
  destruct l as [|s l]; reflexivity.
Qed.

Lemma make_row_remark (transcript : string) (item : value) :
  is_remark item -> make_row transcript item = Return (blank_row transcript).
Proof.
  intros (person & remark & given_to & ->).
  unfold make_row, item_get, dict_get_default.
  cbn [dict_get String.eqb Ascii.eqb Bool.eqb].
  rewrite RequestFacts.classify_not_normal. reflexivity.
Qed.

Lemma make_rows_remarks (transcript : string) (items : list value) :
  Forall is_remark items ->
  make_rows transcript items = Return (map (fun _ => blank_row transcript) items).
Proof.
  induction 1 as [|item items H _ IH]; [reflexivity|].
  cbn [make_rows map]. now rewrite (make_row_remark _ _ H), IH.
Qed.

(** X11.  For every result of [create_fallback_analysis] of
    [ps 3/app.py] the task loop makes one row for each action item
    returned, at least one, and every row has an empty task description
    and the priority of the transcript alone. *)
Theorem fallback_analysis_rows (set_iter : Remarks.pyset -> list string)
    (text client_name project_name transcript : string) :
  let result := App.create_fallback_analysis set_iter text client_name
                  project_name in
  task_rows result transcript
  = Return (map (fun _ => blank_row transcript) (list_at "action_items" result))
  /\ 1 <= List.length (list_at "action_items" result).
Proof.
  intros result. subst result.
  destruct (app_result set_iter text client_name project_name)
    as (s & m & -> & _).
  unfold task_rows, list_at, dict_get_default.
  cbn [dict_get String.eqb Ascii.eqb Bool.eqb].
  set (items := firstn 10 _).
  assert (R : Forall is_remark items).
  { apply firstn_Forall, or_generic_remarks, remarks_are_remarks. }
  assert (N : 1 <= List.length items).
  { subst items. unfold Remarks.or_generic.
    destruct (Remarks.remarks _ _); simpl; lia. }
  split; [|exact N].
  destruct items as [|item items]; [simpl in N; lia|].
  cbn [truthy iterate]. now apply make_rows_remarks.
Qed.

Lemma backfill_get (k k' : string) (v v' : value) (d : dict) :
  dict_get k d = Some v -> dict_get k (backfill k' v' d) = Some v.
Proof.
  intros H. unfold backfill, dict_mem.
  destruct (String.eqb_spec k' k) as [->|ne].
  - now rewrite H.
  - destruct (negb _); [|exact H]. now rewrite dict_get_set_other.
Qed.

Lemma backfill_idle (k : string) (v : value) (d : dict) :
  dict_mem k d = true -> backfill k v d = d.
Proof. intros H. unfold backfill. now rewrite H. Qed.

(** X12.  Filling in the missing fields changes nothing the reply of the
    model holds, and doing it twice is doing it once. *)
Theorem ensure_fields_keeps (object : dict) :
  (forall k v, dict_get k object = Some v ->
               dict_get k (ensure_fields object) = Some v)
  /\ ensure_fields (ensure_fields object) = ensure_fields object.
Proof.
  split.
  - intros k v H. unfold ensure_fields. now repeat apply backfill_get.
  - pose proof (ensure_fields_complete object) as C.
    unfold complete, mandatory in C. cbn [forallb] in C.
    apply andb_true_iff in C as [C1 C]. apply andb_true_iff in C as [C2 C].
    apply andb_true_iff in C as [C3 C]. apply andb_true_iff in C as [C4 _].
    set (o := ensure_fields object) in *.
    unfold ensure_fields at 1.
    now rewrite (backfill_idle "summary"), (backfill_idle "action_items"),
      (backfill_idle "key_decisions"), (backfill_idle "next_steps").
Qed.

Lemma ensure_fields_keeps_witness :
  dict_get "summary" (ensure_fields Examples.empty_summary_object)
  = Some (VStr "").
Proof.
  apply (proj1 (ensure_fields_keeps Examples.empty_summary_object)).
  reflexivity.
Defined.

End EngineFacts.

(** ** What the engine hands to its callers *)

Module CallerFacts.
Import Py Data Terms Spec StrFacts DictFacts FallbackFacts ProcessFacts.
Import AIEngine Request EngineFacts.

Lemma log_counts_sized (result : dict) (u : unit) :
  log_counts result = Return u ->
  forall k, In k list_keys ->
    exists n, py_len (dict_get_default k (VList []) result) = Return n.
Proof.
  unfold log_counts. intros H k Hk.
  destruct (py_len (dict_get_default "action_items" _ _)) as [n1|] eqn:E1;
    [|discriminate].
  destruct (py_len (dict_get_default "key_decisions" _ _)) as [n2|] eqn:E2;
    [|discriminate].
  destruct (py_len (dict_get_default "next_steps" _ _)) as [n3|] eqn:E3;
    [|discriminate].
  simpl in Hk. destruct Hk as [<-|[<-|[<-|[]]]]; eauto.
Qed.

Lemma well_formed_sized (result : dict) :
  well_formed result ->
  forall k, In k list_keys ->
    exists n, py_len (dict_get_default k (VList []) result) = Return n.
Proof.
  intros [_ L] k Hk. destruct (L k Hk) as [l Hl].
  unfold dict_get_default. rewrite Hl. simpl. eauto.
Qed.

Section WithJson.
Variable json_loads : string -> outcome dict.

(** [len] raises on null, on a truth value and on a number, and raises
    nothing but TypeError. *)
Lemma py_len_raises (v : value) (e : exn) :
  py_len v = Raise e ->
  e = TypeError
  /\ (v = VNone \/ (exists b, v = VBool b) \/ (exists z, v = VInt z)
      \/ exists f, v = VFloat f).
Proof.
  destruct v; cbn [py_len]; intros H; try discriminate; injection H as <-;
    (split; [reflexivity|]); eauto 6.
Qed.

Lemma log_counts_raises (result : dict) (k : string) (v : value) :
  In k list_keys -> dict_get k result = Some v -> py_len v = Raise TypeError ->
  log_counts result = Raise TypeError.
Proof.
  intros Hk Hg Hv. unfold log_counts.
  assert (E : py_len (dict_get_default k (VList []) result) = Raise TypeError)
    by (unfold dict_get_default; now rewrite Hg).
  destruct (py_len (dict_get_default "action_items" _ _)) as [n1|e1] eqn:E1;
    [|now apply py_len_raises in E1 as [-> _]].
  destruct (py_len (dict_get_default "key_decisions" _ _)) as [n2|e2] eqn:E2;
    [|now apply py_len_raises in E2 as [-> _]].
  destruct (py_len (dict_get_default "next_steps" _ _)) as [n3|e3] eqn:E3;
    [|now apply py_len_raises in E3 as [-> _]].
  simpl in Hk. destruct Hk as [<-|[<-|[<-|[]]]]; congruence.
Qed.

(** X13.  Whatever [process_transcript] returns has, under
    [action_items], [key_decisions] and [next_steps], a value with a
    length.  When the reply of the model parses to an object that holds
    null, a number or a truth value under one of the three keys, nothing
    is returned: the call raises the TypeError of its log line.  The
    values without a length are exactly those. *)
Theorem returned_lists_are_sized (self : engine) (transcript : string)
    (client_name project_name : option string) :
  (forall result,
     process_transcript json_loads self transcript client_name project_name
     = Return result ->
     forall k, In k list_keys ->
       exists n, py_len (dict_get_default k (VList []) result) = Return n)
  /\ (forall generate_content text a b c d object k v,
        model self = Some generate_content ->
        generate_content (prompt transcript client_name project_name)
        = Return text ->
        strip text = a ++ "{" ++ b -> contains "{" a = false ->
        strip text = c ++ "}" ++ d -> contains "}" d = false ->
        json_loads (substring (String.length a)
                              (String.length c + 1 - String.length a)
                              (strip text)) = Return object ->
        In k list_keys -> dict_get k object = Some v ->
        py_len v = Raise TypeError ->
        process_transcript json_loads self transcript client_name project_name
        = Raise TypeError)
  /\ (forall v,
        py_len v = Raise TypeError
        <-> (v = VNone \/ (exists b, v = VBool b) \/ (exists z, v = VInt z)
             \/ exists f, v = VFloat f)).
Proof.
  split; [|split].
  - intros result. unfold process_transcript.
    destruct (model self) as [generate_content|].
    + destruct (generate_content _) as [text|]; [|discriminate].
      unfold parse_response. destruct (negb _ && negb _).
      * destruct (json_loads _) as [object|[]]; try discriminate.
        -- destruct (log_counts _) as [u|] eqn:E; [|discriminate].
           intros H. injection H as <-. now apply (log_counts_sized _ u).
        -- intros H. injection H as <-.
           apply well_formed_sized, fallback_parsing_well_formed.
      * intros H. injection H as <-.
        apply well_formed_sized, fallback_parsing_well_formed.
    + intros H. injection H as <-.
      apply well_formed_sized, fallback_parsing_well_formed.
  - intros generate_content text a b c d object k v Hm Hg Ea Ha Ec Hd Hj Hk Hv Hl.
    unfold process_transcript. rewrite Hm, Hg.
    rewrite (Pipeline.parse_response_span json_loads _ a b c d Ea Ha Ec Hd), Hj.
    rewrite (log_counts_raises (ensure_fields object) k v Hk); auto.
    now apply OrderFacts.ensure_fields_holds.
  - intros v. split.
    + intros H. now apply py_len_raises in H.
    + intros [->|[[b ->]|[[z ->]|[f ->]]]]; reflexivity.
Qed.

(** X14.  [summarize] raises nothing of its own: when it raises,
    [process_transcript] raised; and without a model it returns a string
    that is not empty. *)
Theorem summarize_outcome (self : engine) (meeting_content : string) :
  (forall e,
     summarize json_loads self meeting_content = Raise e ->
     process_transcript json_loads self meeting_content None None = Raise e)
  /\ (model self = None ->
      exists s, summarize json_loads self meeting_content = Return (VStr s)
                /\ s <> "").
Proof.
  unfold summarize. split.
  - intros e.
    destruct (process_transcript _ _ _ _ _) as [result|e'] eqn:E.
    + apply process_transcript_complete in E.
      unfold complete, mandatory, dict_mem in E. cbn [forallb] in E.
      destruct (dict_get "summary" result); [discriminate|].
      discriminate.
    + intros H. now injection H as ->.
  - intros Hm. unfold process_transcript. rewrite Hm.
    destruct (fallback_parsing_summary meeting_content) as (s & -> & Hs).
    now exists s.
Qed.

Section WithRepr.
Variable py_repr : value -> string.

Lemma item_text_strings (l : list string) :
  map (Wrappers.item_text py_repr) (map VStr l) = map VStr l.
Proof. induction l as [|s l IH]; [reflexivity|]. simpl. now rewrite IH. Qed.

(** X15.  Without a model, [extract_action_items] returns the action
    items of [_fallback_parsing] as they are. *)
Theorem extract_action_items_fallback (self : engine) (meeting_content : string) :
  model self = None ->
  Wrappers.extract_action_items py_repr json_loads self meeting_content
  = Return (list_at "action_items" (_fallback_parsing meeting_content)).
Proof.
  intros Hm. unfold Wrappers.extract_action_items, process_transcript.
  rewrite Hm.
  destruct (EngineFacts.fallback_parsing_strings meeting_content) as (l & Hg).
  unfold list_at, dict_get_default. rewrite Hg.
  destruct l as [|s l]; [reflexivity|].
  cbn [truthy map iterate]. f_equal.
  exact (item_text_strings (s :: l)).
Qed.
End WithRepr.
End WithJson.

Lemma returned_lists_are_sized_witness :
  (exists result,
     process_transcript
       (Examples.json_loads_at Examples.empty_summary_payload
                               Examples.empty_summary_object)
       (init (Examples.canned_model Examples.empty_summary_payload))
       Examples.sarah (Some "Acme") (Some "Apollo") = Return result
     /\ forall k, In k list_keys ->
          exists n, py_len (dict_get_default k (VList []) result) = Return n)
  /\ process_transcript
       (Examples.json_loads_at Samples.null_items_payload
                               Samples.null_items_object)
       (init (Examples.canned_model Samples.null_items_payload))
       Examples.sarah (Some "Acme") (Some "Apollo") = Raise TypeError.
Proof.
  split.
  - eexists. split; [vm_compute; reflexivity|].
    apply (proj1 (returned_lists_are_sized
                    (Examples.json_loads_at Examples.empty_summary_payload
                                            Examples.empty_summary_object)
                    (init (Examples.canned_model Examples.empty_summary_payload))
                    Examples.sarah (Some "Acme") (Some "Apollo"))).
    vm_compute. reflexivity.
  - apply (proj1 (proj2 (returned_lists_are_sized
                    (Examples.json_loads_at Samples.null_items_payload
                                            Samples.null_items_object)
                    (init (Examples.canned_model Samples.null_items_payload))
                    Examples.sarah (Some "Acme") (Some "Apollo")))
                 (Examples.canned_model Samples.null_items_payload)
                 Samples.null_items_payload
                 "" (AIEngine.quoted "`action_items`: null}")
                 (AIEngine.quoted "{`action_items`: null") ""
                 Samples.null_items_object "action_items" VNone);
      try reflexivity.
    simpl. tauto.
Defined.

Lemma summarize_outcome_witness :
  exists s,
    summarize Examples.no_json (init Examples.dead_model) Examples.sarah
    = Return (VStr s)
    /\ s <> "".
Proof.
  apply (proj2 (summarize_outcome Examples.no_json (init Examples.dead_model)
                  Examples.sarah)).
  reflexivity.
Defined.

Lemma extract_action_items_fallback_witness :
  Wrappers.extract_action_items Samples.no_repr Examples.no_json
    (init Examples.dead_model) Examples.prose_reply
  = Return (list_at "action_items" (_fallback_parsing Examples.prose_reply)).
Proof.
  apply (extract_action_items_fallback Examples.no_json Samples.no_repr
           (init Examples.dead_model) Examples.prose_reply).
  reflexivity.
Defined.

End CallerFacts.

(** ** File names *)

Module FileFacts.
Import Py Data Terms StrFacts CharFacts Files.

Lemma substring_all (s : string) : substring 0 (String.length s) s = s.
Proof. induction s as [|c s IH]; simpl; [reflexivity | now rewrite IH]. Qed.

Lemma substring_skip (a b : string) (m : nat) :
  substring (String.length a) m (a ++ b) = substring 0 m b.
Proof. induction a as [|c a IH]; simpl; [reflexivity | exact IH]. Qed.

Lemma substring_split (s : string) (n : nat) :
  n <= String.length s ->
  s = substring 0 n s ++ substring n (String.length s - n) s.
Proof.
  revert n. induction s as [|c s IH]; intros n H.
  - destruct n; reflexivity.
  - destruct n as [|n].
    + simpl. now rewrite substring_all.
    + simpl in *. f_equal. apply IH. lia.
Qed.

(** [s.endswith(suffix)] holds when [s] reads [a ++ suffix]. *)
Lemma endswith_spec (suffix s : string) :
  endswith suffix s = true <-> exists a, s = a ++ suffix.
Proof.
  unfold endswith. split.
  - intros H. apply andb_true_iff in H as [L E].
    apply Nat.leb_le in L. apply String.eqb_eq in E.
    exists (substring 0 (String.length s - String.length suffix) s).
    pose proof (substring_split s (String.length s - String.length suffix)
                  ltac:(lia)) as S.
    replace (String.length s - (String.length s - String.length suffix))
      with (String.length suffix) in S by lia.
    now rewrite E in S.
  - intros [a ->]. rewrite append_length.
    replace (String.length a + String.length suffix - String.length suffix)
      with (String.length a) by lia.
    rewrite substring_skip, substring_all, String.eqb_refl, andb_true_r.
    apply Nat.leb_le. lia.
Qed.

Lemma append_last (a a' : string) (c c' : ascii) :
  a ++ String c "" = a' ++ String c' "" -> c = c'.
Proof.
  revert a'. induction a as [|x a IH]; intros [|y a'] H; simpl in H.
  - now injection H.
  - injection H as _ H. now destruct a'.
  - injection H as _ H. now destruct a.
  - injection H as _ H. now apply (IH a').
Qed.

(** Two suffixes that end in different characters exclude each other. *)
Lemma endswith_other (w w' : string) (c c' : ascii) (s : string) :
  c <> c' ->
  endswith (w ++ String c "") s = true ->
  endswith (w' ++ String c' "") s = false.
Proof.
  intros ne H. apply endswith_spec in H as [a ->].
  destruct (endswith _ _) eqn:E; [|reflexivity].
  apply endswith_spec in E as [a' E].
  rewrite <- !append_assoc in E. apply append_last in E. contradiction.
Qed.

Lemma lower_dot (c : ascii) :
  Ascii.eqb (lower_char c) "." = Ascii.eqb c ".".
Proof. destruct c as [[] [] [] [] [] [] [] []]; reflexivity. Qed.

Lemma some_dot_lower (s : string) :
  some (fun c => Ascii.eqb c ".") (lower s) = some (fun c => Ascii.eqb c ".") s.
Proof.
  induction s as [|c s IH]; [reflexivity|]. simpl. now rewrite lower_dot, IH.
Qed.

Lemma contains_char_some (c : ascii) (s : string) :
  contains (String c "") s = some (fun d => Ascii.eqb d c) s.
Proof.
  induction s as [|d s IH]; [reflexivity|].
  rewrite contains_char_cons, IH. reflexivity.
Qed.

(** The part after the last dot. *)
Lemma split_dot_shape (s : string) :
  match split_char "." s with
  | [] => False
  | [w] => s = w /\ contains "." s = false
  | w :: ws => exists a, s = a ++ "." ++ last ws ""
  end.
Proof.
  induction s as [|c s IH].
  - simpl. auto.
  - cbn [split_char]. destruct (Ascii.eqb_spec c ".") as [->|ne].
    + destruct (split_char "." s) as [|w ws]; [contradiction|].
      destruct ws as [|w' ws].
      * destruct IH as [-> _]. now exists "".
      * destruct IH as [a ->]. exists (String "." a). reflexivity.
    + destruct (split_char "." s) as [|w ws]; [contradiction|].
      destruct ws as [|w' ws].
      * destruct IH as [-> H]. split; [reflexivity|].
        rewrite contains_char_cons, H.
        destruct (Ascii.eqb_spec c "."); [contradiction | reflexivity].
      * destruct IH as [a ->]. exists (String c a). reflexivity.
Qed.

Lemma last_part_dotted (filename : string) :
  contains "." filename = true ->
  exists a, filename = a ++ "." ++ last_part filename.
Proof.
  intros H. unfold last_part. pose proof (split_dot_shape filename) as S.
  destruct (split_char "." filename) as [|w [|w' ws]]; [contradiction| |].
  - destruct S as [_ S]. congruence.
  - destruct S as [a S]. exists a. exact S.
Qed.

Lemma last_part_dotless (filename : string) :
  contains "." filename = false -> last_part filename = filename.
Proof.
  intros H. unfold last_part. pose proof (split_dot_shape filename) as S.
  destruct (split_char "." filename) as [|w [|w' ws]]; [contradiction| |].
  - destruct S as [-> _]. reflexivity.
  - destruct S as [a S]. rewrite S in H.
    rewrite contains_app in H. discriminate.
Qed.

Lemma endswith_extension (filename : string) :
  contains "." filename = true ->
  endswith ("." ++ lower (last_part filename)) (lower filename) = true.
Proof.
  intros H. destruct (last_part_dotted filename H) as [a E].
  apply endswith_spec. exists (lower a). rewrite E at 1.
  now rewrite !lower_app.
Qed.

Section Extractors.
Variable text_from_pdf : extraction.
Variable text_from_docx : extraction.
Variable text_from_txt : extraction.
Variable text_from_audio : string -> extraction.

(** X16.  A file name with a dot that [upload_file] admits is never
    refused by [process_file]: it goes to the extractor of its last
    extension, whatever the case of its letters. *)
Theorem admitted_names_are_processed (filename : string) :
  contains "." filename = true ->
  mem ("." ++ lower (last_part filename)) allowed_extensions = true ->
  let extension := "." ++ lower (last_part filename) in
  let processed :=
    process_file text_from_pdf text_from_docx text_from_txt text_from_audio
                 filename in
  (extension = ".pdf" /\ processed = text_from_pdf)
  \/ (extension = ".docx" /\ processed = text_from_docx)
  \/ (extension = ".txt" /\ processed = text_from_txt)
  \/ (extension = ".mp3" /\ processed = text_from_audio filename).
Proof.
  intros Hd Hm extension processed.
  pose proof (endswith_extension filename Hd) as E. fold extension in E.
  unfold mem, allowed_extensions in Hm. fold extension in Hm.
  cbn [existsb] in Hm. subst processed. unfold process_file.
  repeat rewrite orb_true_iff in Hm.
  destruct Hm as [H|[H|[H|[H|H]]]]; try discriminate;
    apply String.eqb_eq in H; rewrite H in E.
  - left. split; [exact H|]. now rewrite E.
  - right; left. split; [exact H|].
    assert (F1 : endswith ".pdf" (lower filename) = false)
      by exact (endswith_other ".doc" ".pd" "x" "f" _ ltac:(discriminate) E).
    now rewrite F1, E.
  - right; right; left. split; [exact H|].
    assert (F1 : endswith ".pdf" (lower filename) = false)
      by exact (endswith_other ".tx" ".pd" "t" "f" _ ltac:(discriminate) E).
    assert (F2 : endswith ".docx" (lower filename) = false)
      by exact (endswith_other ".tx" ".doc" "t" "x" _ ltac:(discriminate) E).
    now rewrite F1, F2, E.
  - right; right; right. split; [exact H|].
    assert (F1 : endswith ".pdf" (lower filename) = false)
      by exact (endswith_other ".mp" ".pd" "3" "f" _ ltac:(discriminate) E).
    assert (F2 : endswith ".docx" (lower filename) = false)
      by exact (endswith_other ".mp" ".doc" "3" "x" _ ltac:(discriminate) E).
    assert (F3 : endswith ".txt" (lower filename) = false)
      by exact (endswith_other ".mp" ".tx" "3" "t" _ ltac:(discriminate) E).
    rewrite F1, F2, F3. unfold audio_suffixes. cbn [existsb]. now rewrite E.
Qed.

Lemma endswith_needs_dot (suffix s : string) :
  some (fun c => Ascii.eqb c ".") suffix = true ->
  some (fun c => Ascii.eqb c ".") s = false ->
  endswith suffix s = false.
Proof.
  intros Hs H. destruct (endswith suffix s) eqn:E; [|reflexivity].
  apply endswith_spec in E as [a ->].
  rewrite some_app, Hs, orb_true_r in H. discriminate.
Qed.

(** X17.  A name without a dot that passes the check of [upload_file]
    (as "pdf" or "TXT" do, the check putting the dot before the name) is
    always answered with the error 500 of an unsupported file type. *)
Theorem dotless_names_fail (filename : string) :
  contains "." filename = false ->
  mem ("." ++ lower filename) allowed_extensions = true ->
  upload_file text_from_pdf text_from_docx text_from_txt text_from_audio
              (Some filename)
  = UploadError 500 ("Failed to process file: Unsupported file type: "
                     ++ filename).
Proof.
  intros Hd Hm. unfold upload_file.
  destruct (String.eqb_spec filename "") as [->|_]; [discriminate|].
  rewrite (last_part_dotless _ Hd), Hm. cbn [negb].
  assert (D : some (fun c => Ascii.eqb c ".") (lower filename) = false).
  { now rewrite some_dot_lower, <- contains_char_some. }
  unfold process_file, audio_suffixes. cbn [existsb].
  rewrite (endswith_needs_dot ".pdf" _ eq_refl D),
    (endswith_needs_dot ".docx" _ eq_refl D),
    (endswith_needs_dot ".txt" _ eq_refl D),
    (endswith_needs_dot ".mp3" _ eq_refl D),
    (endswith_needs_dot ".wav" _ eq_refl D),
    (endswith_needs_dot ".m4a" _ eq_refl D),
    (endswith_needs_dot ".ogg" _ eq_refl D),
    (endswith_needs_dot ".flac" _ eq_refl D).
  reflexivity.
Qed.
End Extractors.

(** X16 at a name in capitals. *)
Lemma admitted_names_are_processed_witness :
  ("." ++ lower (last_part "Minutes.v2.DOCX") = ".pdf"
   /\ process_file (Text "p") (Text "d") (Text "t") Text "Minutes.v2.DOCX"
      = Text "p")
  \/ ("." ++ lower (last_part "Minutes.v2.DOCX") = ".docx"
      /\ process_file (Text "p") (Text "d") (Text "t") Text "Minutes.v2.DOCX"
         = Text "d")
  \/ ("." ++ lower (last_part "Minutes.v2.DOCX") = ".txt"
      /\ process_file (Text "p") (Text "d") (Text "t") Text "Minutes.v2.DOCX"
         = Text "t")
  \/ ("." ++ lower (last_part "Minutes.v2.DOCX") = ".mp3"
      /\ process_file (Text "p") (Text "d") (Text "t") Text "Minutes.v2.DOCX"
         = Text "Minutes.v2.DOCX").
Proof.
  apply (admitted_names_are_processed (Text "p") (Text "d") (Text "t") Text
           "Minutes.v2.DOCX"); reflexivity.
Defined.

(** X17 at the name "pdf". *)
Lemma dotless_names_fail_witness :
  upload_file (Text "p") (Text "d") (Text "t") Text (Some "pdf")
  = UploadError 500 "Failed to process file: Unsupported file type: pdf".
Proof.
  apply (dotless_names_fail (Text "p") (Text "d") (Text "t") Text "pdf");
    reflexivity.
Defined.

End FileFacts.

(* ================================================================= *)
(** ** [rate_limiter.py]: what [is_allowed] keeps of a key's history *)

Module RateFacts.
Import RateLimiter Terms.
#[local] Open Scope list_scope.

Section Clock.
Variable T : Type.
Variable before : T -> T -> Z -> bool.
Variable cleanup_due : T -> T -> bool.
Variable reset_at : T -> Z -> Z.

#[local] Abbreviation history := (history T).
#[local] Abbreviation store := (store T).
#[local] Abbreviation prune := (prune T before).
#[local] Abbreviation _cleanup_old_entries := (_cleanup_old_entries T before).
#[local] Abbreviation is_allowed := (is_allowed T before cleanup_due reset_at).
#[local] Abbreviation keys requests := (map fst requests).

Lemma history_absent (key : string) (requests : list (string * list T)) :
  ~ In key (keys requests) -> history key requests = None.
Proof.
  induction requests as [|[k h] rest IH]; intros H; [reflexivity|].
  cbn [RateLimiter.history]. destruct (String.eqb_spec k key) as [->|ne].
  - exfalso. apply H. now left.
  - apply IH. intros I. apply H. now right.
Qed.

Lemma history_present (key : string) (requests : list (string * list T)) :
  history key requests = None -> ~ In key (keys requests).
Proof.
  induction requests as [|[k h] rest IH]; intros H; [now intros []|].
  cbn [RateLimiter.history] in H. destruct (String.eqb_spec k key) as [->|ne].
  - discriminate.
  - intros [E|I]; [now apply ne | now apply IH].
Qed.

Lemma history_store (key : string) (times : list T)
    (requests : list (string * list T)) :
  history key (store key times requests) = Some times.
Proof.
  induction requests as [|[k h] rest IH]; cbn [RateLimiter.store RateLimiter.history].
  - now rewrite String.eqb_refl.
  - destruct (String.eqb_spec k key) as [->|ne]; cbn [RateLimiter.history].
    + now rewrite String.eqb_refl.
    + destruct (String.eqb_spec k key); [contradiction | exact IH].
Qed.

Lemma history_store_other (key other : string) (times : list T)
    (requests : list (string * list T)) :
  other <> key ->
  history other (store key times requests) = history other requests.
Proof.
  intros ne. induction requests as [|[k h] rest IH];
    cbn [RateLimiter.store RateLimiter.history].
  - destruct (String.eqb_spec key other); [now subst | reflexivity].
  - destruct (String.eqb_spec k key) as [->|nk]; cbn [RateLimiter.history].
    + destruct (String.eqb_spec key other); [now subst | reflexivity].
    + now rewrite IH.
Qed.

Lemma keys_store (key : string) (times : list T)
    (requests : list (string * list T)) :
  keys (store key times requests)
  = match history key requests with
    | Some _ => keys requests
    | None => keys requests ++ [key]
    end.
Proof.
  induction requests as [|[k h] rest IH];
    cbn [RateLimiter.store RateLimiter.history map fst app]; [reflexivity|].
  destruct (String.eqb_spec k key) as [->|ne]; cbn [map fst]; [reflexivity|].
  rewrite IH. now destruct (history key rest).
Qed.

Lemma nodup_store (key : string) (times : list T)
    (requests : list (string * list T)) :
  NoDup (keys requests) -> NoDup (keys (store key times requests)).
Proof.
  intros N. rewrite keys_store. destruct (history key requests) eqn:E; [exact N|].
  apply NoDup_app; [exact N | repeat constructor; now intros [] |].
  intros x I [<-|[]]. now apply (history_present _ _ E).
Qed.

Lemma prune_suffix (now : T) (window : Z) (times : list T) :
  exists dropped, times = dropped ++ prune now window times.
Proof.
  induction times as [|t rest [d IH]]; [now exists []|].
  cbn [RateLimiter.prune]. destruct (before t now window).
  - exists (t :: d). cbn [app]. now rewrite <- IH.
  - now exists [].
Qed.

Lemma prune_fresh (now : T) (window : Z) (times : list T) :
  Forall (fun t => before t now window = false) times ->
  prune now window times = times.
Proof.
  intros [|t rest H _]; [reflexivity|]. cbn [RateLimiter.prune]. now rewrite H.
Qed.

Lemma keys_cleanup (now : T) (requests : list (string * list T)) :
  forall key, In key (keys (_cleanup_old_entries now requests)) ->
              In key (keys requests).
Proof.
  unfold RateLimiter._cleanup_old_entries.
  induction requests as [|[k h] rest IH]; intros key; cbn [map filter fst snd];
    [easy|].
  destruct (prune now 86400 h); cbn [map fst In]; intuition.
Qed.

Lemma nodup_cleanup (now : T) (requests : list (string * list T)) :
  NoDup (keys requests) -> NoDup (keys (_cleanup_old_entries now requests)).
Proof.
  induction requests as [|[k h] rest IH]; intros N; [constructor|].
  inversion N as [|? ? notin N']; subst.
  unfold RateLimiter._cleanup_old_entries in *. cbn [map filter fst snd].
  destruct (prune now 86400 h); cbn [map fst]; [now apply IH|].
  constructor; [|now apply IH].
  intros I. apply notin. now apply (keys_cleanup now rest).
Qed.

Lemma times_of_cleanup (now : T) (key : string)
    (requests : list (string * list T)) :
  NoDup (keys requests) ->
  times_of key (_cleanup_old_entries now requests)
  = prune now 86400 (times_of key requests).
Proof.
  unfold times_of.
  induction requests as [|[k h] rest IH]; intros N; [reflexivity|].
  inversion N as [|? ? notin N']; subst. specialize (IH N').
  unfold RateLimiter._cleanup_old_entries in *.
  cbn [map filter fst snd RateLimiter.history].
  destruct (String.eqb_spec k key) as [->|ne].
  - destruct (prune now 86400 h) as [|t ts] eqn:P.
    + rewrite IH, (history_absent key rest notin). reflexivity.
    + cbn [RateLimiter.history]. now rewrite String.eqb_refl.
  - destruct (prune now 86400 h) as [|t ts]; [exact IH|].
    cbn [RateLimiter.history fst].
    destruct (String.eqb_spec k key); [contradiction | exact IH].
Qed.

#[local] Abbreviation swept := (swept before cleanup_due).
#[local] Abbreviation kept := (kept before cleanup_due).

Lemma is_allowed_times (self : limiter T) (key : string) (limit window : Z)
    (current_time cleanup_time : T) :
  NoDup (keys (requests T self)) ->
  let k := kept self key window current_time cleanup_time in
  let allowed := (Z.of_nat (length k) <? limit)%Z in
  let '(answer, report, self') :=
    is_allowed self key limit window current_time cleanup_time in
  answer = allowed
  /\ times_of key (requests T self') = k ++ (if allowed then [current_time] else [])
  /\ NoDup (keys (requests T self'))
  /\ RateLimiter.limit report = limit
  /\ remaining report
     = if allowed then (limit - Z.of_nat (length (k ++ [current_time])))%Z
       else 0%Z.
Proof.
  intros N. cbv zeta. unfold RateLimiter.is_allowed.
  set (self1 := if cleanup_due _ _ then _ else self).
  assert (N1 : NoDup (keys (requests T self1))).
  { unfold self1. destruct (cleanup_due _ _); [|exact N].
    now apply nodup_cleanup. }
  assert (E1 : times_of key (requests T self1)
               = swept self key current_time cleanup_time).
  { unfold self1, swept. destruct (cleanup_due _ _); [|reflexivity].
    now apply times_of_cleanup. }
  set (requests1 := match history key (requests T self1) with
                    | None => _ | Some _ => _ end).
  assert (N2 : NoDup (keys requests1)).
  { unfold requests1. destruct (history key _); [exact N1|].
    now apply nodup_store. }
  assert (E2 : match history key requests1 with Some t => t | None => [] end
               = swept self key current_time cleanup_time).
  { rewrite <- E1. unfold requests1, times_of.
    destruct (history key (requests T self1)) eqn:H; [now rewrite H|].
    now rewrite history_store. }
  rewrite E2.
  change (prune current_time window (swept self key current_time cleanup_time))
    with (kept self key window current_time cleanup_time).
  destruct (_ <? _)%Z; cbn [requests RateLimiter.limit remaining];
    unfold times_of; rewrite history_store;
    (split; [reflexivity|]); (split; [|split; [now apply nodup_store | now split]]).
  - reflexivity.
  - now rewrite app_nil_r.
Qed.

Lemma kept_suffix (self : limiter T) (key : string) (window : Z)
    (current_time cleanup_time : T) :
  exists dropped,
    times_of key (requests T self)
    = dropped ++ kept self key window current_time cleanup_time.
Proof.
  unfold kept, swept.
  destruct (prune_suffix current_time window
              (if cleanup_due current_time (last_cleanup T self)
               then prune cleanup_time 86400 (times_of key (requests T self))
               else times_of key (requests T self))) as [d2 E2].
  destruct (cleanup_due _ _).
  - destruct (prune_suffix cleanup_time 86400 (times_of key (requests T self)))
      as [d1 E1].
    exists (d1 ++ d2). rewrite <- app_assoc, <- E2. exact E1.
  - now exists d2.
Qed.

(** X18.  One call of [is_allowed], on a limiter whose keys are those of
    a dictionary: the history of the key loses a front part and nothing
    else, and gains the time of the call exactly when the call is
    allowed.  An allowed call leaves at most [limit] times in it, and
    reports the room left, which is not negative; a refused call reports
    no room, and the times kept are at least [limit]. *)
Theorem is_allowed_respects_limit (self self' : limiter T) (key : string)
    (limit window : Z) (current_time cleanup_time : T)
    (allowed : bool) (report : info) :
  NoDup (keys (requests T self)) ->
  is_allowed self key limit window current_time cleanup_time
  = (allowed, report, self') ->
  NoDup (keys (requests T self'))
  /\ RateLimiter.limit report = limit
  /\ exists dropped held,
       times_of key (requests T self) = dropped ++ held
       /\ times_of key (requests T self')
          = held ++ (if allowed then [current_time] else [])
       /\ if allowed
          then (Z.of_nat (length (times_of key (requests T self'))) <= limit)%Z
               /\ remaining report
                  = (limit - Z.of_nat (length (times_of key (requests T self'))))%Z
               /\ (0 <= remaining report)%Z
          else remaining report = 0%Z
               /\ (limit <= Z.of_nat (length held))%Z.
Proof.
  intros N E.
  pose proof (is_allowed_times self key limit window current_time cleanup_time N)
    as S.
  cbv zeta in S. rewrite E in S. destruct S as (A & Ti & N' & R1 & R2).
  split; [exact N'|]. split; [exact R1|].
  destruct (kept_suffix self key window current_time cleanup_time) as [d D].
  rewrite <- A in Ti, R2.
  exists d, (kept self key window current_time cleanup_time).
  split; [exact D|]. split; [exact Ti|].
  rewrite R2, Ti. destruct allowed; symmetry in A.
  - apply Z.ltb_lt in A. rewrite length_app. cbn [length]. lia.
  - apply Z.ltb_ge in A. split; [reflexivity | exact A].
Qed.

(** X19.  A call for one key drops a front part of the history of every
    other key and nothing else: all of it stays when the cleanup is not
    due. *)
Theorem is_allowed_other_keys (self self' : limiter T) (key other : string)
    (limit window : Z) (current_time cleanup_time : T)
    (allowed : bool) (report : info) :
  NoDup (keys (requests T self)) ->
  other <> key ->
  is_allowed self key limit window current_time cleanup_time
  = (allowed, report, self') ->
  times_of other (requests T self')
  = if cleanup_due current_time (last_cleanup T self)
    then prune cleanup_time 86400 (times_of other (requests T self))
    else times_of other (requests T self).
Proof.
  intros N ne E. unfold RateLimiter.is_allowed in E.
  set (self1 := if cleanup_due _ _ then _ else self) in E.
  assert (E1 : times_of other (requests T self1)
               = if cleanup_due current_time (last_cleanup T self)
                 then prune cleanup_time 86400 (times_of other (requests T self))
                 else times_of other (requests T self)).
  { unfold self1. destruct (cleanup_due _ _); [|reflexivity].
    now apply times_of_cleanup. }
  rewrite <- E1.
  set (requests1 := match history key (requests T self1) with
                    | None => _ | Some _ => _ end) in E.
  assert (E2 : history other requests1 = history other (requests T self1)).
  { unfold requests1. destruct (history key _); [reflexivity|].
    now apply history_store_other. }
  destruct (_ <? _)%Z; injection E as <- <- <-; cbn [requests];
    unfold times_of; now rewrite history_store_other, E2.
Qed.

(** X20.  Calls for one key, one after the other, on times of which none
    has left the window or the day of the cleanup: the calls allowed are
    at most the room the history had, [limit] less its length, and no
    call is allowed when it had none. *)
Theorem burst_is_limited (self : limiter T) (key : string) (limit window : Z)
    (clock : list (T * T)) :
  NoDup (keys (requests T self)) ->
  (forall t current_time cleanup_time,
      In t (times_of key (requests T self) ++ map fst clock) ->
      In (current_time, cleanup_time) clock ->
      before t current_time window = false
      /\ before t cleanup_time 86400 = false) ->
  let '(answers, final) :=
    serve before cleanup_due reset_at self key limit window clock in
  (Z.of_nat (passed answers)
   <= Z.max 0 (limit - Z.of_nat (length (times_of key (requests T self)))))%Z
  /\ times_of key (requests T final)
     = times_of key (requests T self)
       ++ map fst (firstn (passed answers) clock).
Proof.
  revert self. induction clock as [|[now ct] clock IH]; intros self N F.
  - cbn. split; [lia | now rewrite app_nil_r].
  - cbn [serve].
    pose proof (is_allowed_times self key limit window now ct N) as S.
    cbv zeta in S.
    destruct (is_allowed self key limit window now ct) as [[answer report] self'].
    destruct S as (A & Ti & N' & _ & _).
    assert (K : kept self key window now ct = times_of key (requests T self)).
    { unfold kept, swept.
      assert (P1 : prune ct 86400 (times_of key (requests T self))
                   = times_of key (requests T self)).
      { apply prune_fresh, Forall_forall. intros t I.
        apply (F t now ct); [apply in_or_app; now left | now left]. }
      assert (P2 : prune now window (times_of key (requests T self))
                   = times_of key (requests T self)).
      { apply prune_fresh, Forall_forall. intros t I.
        apply (F t now ct); [apply in_or_app; now left | now left]. }
      destruct (cleanup_due _ _); [rewrite P1|]; exact P2. }
    rewrite K in A, Ti.
    specialize (IH self' N').
    assert (F' : forall t current_time cleanup_time,
               In t (times_of key (requests T self') ++ map fst clock) ->
               In (current_time, cleanup_time) clock ->
               before t current_time window = false
               /\ before t cleanup_time 86400 = false).
    { intros t c c' I J. apply F; [|now right].
      rewrite Ti in I. apply in_app_or in I. apply in_or_app.
      destruct I as [I|I]; [|right; now right].
      apply in_app_or in I. destruct I as [I|I]; [now left|].
      right. left. destruct (_ <? _)%Z; [|now destruct I].
      destruct I as [<-|[]]. reflexivity. }
    specialize (IH F').
    destruct (serve before cleanup_due reset_at self' key limit window clock)
      as [answers final].
    destruct IH as [B Tf]. rewrite Tf, Ti, A.
    destruct (_ <? _)%Z eqn:L; unfold passed; cbn [filter length firstn map fst]; fold (passed answers).
    + apply Z.ltb_lt in L. rewrite Ti in B. rewrite length_app in B.
      cbn [length] in B. split; [lia|].
      rewrite <- app_assoc. reflexivity.
    + apply Z.ltb_ge in L. rewrite Ti, app_nil_r in B.
      assert (Z0 : passed answers = 0) by lia.
      rewrite Z0. split; [lia|]. cbn [firstn map]. now rewrite !app_nil_r.
Qed.

End Clock.

Lemma is_allowed_respects_limit_witness :
  exists allowed report self',
    is_allowed Z seconds_before seconds_due seconds_reset Samples.used_limiter
      "login:10.0.0.7" 3 60 100000%Z 100000%Z = (allowed, report, self')
    /\ NoDup (map fst (requests Z self'))
    /\ RateLimiter.limit report = 3%Z
    /\ exists dropped held,
         times_of "login:10.0.0.7" (requests Z Samples.used_limiter)
         = dropped ++ held
         /\ times_of "login:10.0.0.7" (requests Z self')
            = held ++ (if allowed then [100000%Z] else [])
         /\ if allowed
            then (Z.of_nat (length (times_of "login:10.0.0.7" (requests Z self')))
                  <= 3)%Z
                 /\ remaining report
                    = (3 - Z.of_nat (length (times_of "login:10.0.0.7"
                                               (requests Z self'))))%Z
                 /\ (0 <= remaining report)%Z
            else remaining report = 0%Z
                 /\ (3 <= Z.of_nat (length held))%Z.
Proof.
  eexists _, _, _. split; [reflexivity|].
  apply (is_allowed_respects_limit Z seconds_before seconds_due seconds_reset
           Samples.used_limiter _ "login:10.0.0.7" 3 60 100000%Z 100000%Z).
  - repeat constructor; simpl; intuition discriminate.
  - reflexivity.
Defined.

Lemma is_allowed_other_keys_witness :
  exists allowed report self',
    is_allowed Z seconds_before seconds_due seconds_reset Samples.used_limiter
      "login:10.0.0.7" 3 60 100000%Z 100000%Z = (allowed, report, self')
    /\ times_of "upload:10.0.0.7" (requests Z self') = [90000%Z].
Proof.
  eexists _, _, _. split; [reflexivity|].
  rewrite (is_allowed_other_keys Z seconds_before seconds_due seconds_reset
             Samples.used_limiter _ "login:10.0.0.7" "upload:10.0.0.7"
             3 60 100000%Z 100000%Z true _
             ltac:(repeat constructor; simpl; intuition discriminate)
             ltac:(discriminate) eq_refl).
  reflexivity.
Defined.

Lemma burst_is_limited_witness :
  let '(answers, final) :=
    serve seconds_before seconds_due seconds_reset Samples.fresh_limiter
          "login:10.0.0.7" 3 60 Samples.four_calls in
  (Z.of_nat (passed answers)
   <= Z.max 0 (3 - Z.of_nat (length (times_of "login:10.0.0.7"
                                       (requests Z Samples.fresh_limiter)))))%Z
  /\ times_of "login:10.0.0.7" (requests Z final)
     = times_of "login:10.0.0.7" (requests Z Samples.fresh_limiter)
       ++ map fst (firstn (passed answers) Samples.four_calls).
Proof.
  apply (burst_is_limited Z seconds_before seconds_due seconds_reset
           Samples.fresh_limiter "login:10.0.0.7" 3 60 Samples.four_calls).
  - constructor.
  - intros t current_time cleanup_time I J. simpl in I, J.
    repeat (destruct I as [<-|I]; [|]);
      try contradiction;
      repeat (destruct J as [J|J]; [injection J as <- <-; now vm_compute|]);
      contradiction.
Defined.

End RateFacts.

(* ================================================================= *)
(** ** [ps 3/app.py]: the recipients of the alert *)

Module MailFacts.
Import Py Terms Mail CharFacts.

Lemma split_char_pieces (sep : ascii) (s : string) :
  Forall (fun piece => every (fun c => negb (Ascii.eqb c sep)) piece = true)
         (split_char sep s).
Proof.
  induction s as [|c s IH]; cbn [split_char]; [now repeat constructor|].
  destruct (Ascii.eqb c sep) eqn:E; [now constructor|].
  destruct (split_char sep s) as [|w ws].
  - repeat constructor. cbn [every]. now rewrite E.
  - inversion IH as [|? ? Hw Hws]; subst. constructor; [|exact Hws].
    cbn [every]. now rewrite E, Hw.
Qed.

(** X21.  Whatever NOTIFICATION_RECIPIENTS holds, no address the alert is
    sent to is empty, has a space at either end or holds a comma; and
    there is no address at all exactly when every part between the
    commas is blank. *)
Theorem recipients_are_trimmed (notification_recipients : string) :
  Forall (fun email =>
            email <> ""
            /\ strip email = email
            /\ every (fun c => negb (Ascii.eqb c ",")) email = true)
         (recipients notification_recipients)
  /\ (recipients notification_recipients = []
      <-> Forall (fun part => strip part = "")
                 (split_char "," notification_recipients)).
Proof.
  unfold recipients. split.
  - pose proof (split_char_pieces "," notification_recipients) as P.
    induction P as [|part parts Hp _ IH]; [constructor|].
    cbn [filter map]. destruct (nonempty (strip part)) eqn:N; [|exact IH].
    cbn [map]. constructor; [|exact IH].
    split; [|split].
    + intros E. rewrite E in N. discriminate.
    + apply StripFacts.strip_idem.
    + now apply every_strip.
  - induction (split_char "," notification_recipients) as [|part parts IH].
    + split; [constructor | reflexivity].
    + cbn [filter map]. destruct (strip part) eqn:S; cbn [nonempty map].
      * rewrite IH. split; [now constructor|].
        intros H. now inversion H.
      * split; [discriminate|]. intros H. inversion H. congruence.
Qed.

Lemma recipients_are_trimmed_witness : recipients " , " = [].
Proof.
  apply (proj2 (proj2 (recipients_are_trimmed " , "))).
  repeat constructor.
Defined.

End MailFacts.

(* ================================================================= *)
(** * The shapes of the action items *)

Module Items.
Import Py Data AIEngine Spec Remarks Terms.
Import FallbackFacts AnalysisFacts OrderFacts EngineFacts.

(** Without a model the action item of the analysis step is a string,
    and after a failure of the model at the transcript it is a remark:
    neither has the fields of an action item. *)
Lemma action_items_without_fields :
  (list_at "action_items"
     (App.summarize_meeting_analysis Examples.insertion_order Examples.no_json
        Examples.dead_model Examples.prose_reply "Acme" "Apollo")
   = [VStr "Send the notes"]
   /\ populated (VStr "Send the notes") = false)
  /\ (list_at "action_items"
        (App.summarize_meeting_analysis Examples.insertion_order Examples.no_json
           Examples.offline_model Samples.first_part "Acme" "Apollo")
      = [VDict [("person", VStr "Sarah");
                ("remark", VStr "I think we decided to plan the next release.");
                ("given_to", VStr "plan")]]
      /\ populated
           (VDict [("person", VStr "Sarah");
                   ("remark",
                    VStr "I think we decided to plan the next release.");
                   ("given_to", VStr "plan")]) = false).
Proof. repeat split; vm_compute; reflexivity. Qed.

Lemma task_populated (item : value) : is_task item -> populated item = true.
Proof. intros (task & assignee & priority & ->). reflexivity. Qed.

Section Claims.
Variable set_iter : pyset -> list string.

(** C7, as the code has it.  No fallback result carries action items
    with the six fields.  Every action item either
    [create_fallback_analysis] returns is a remark with the keys
    [person], [remark] and [given_to], each with a string, and has none
    of the six fields in full; every action item of [_fallback_parsing]
    is a string of more than three characters.  The items with the six
    fields and the sentinels are those of the first loop of
    [create_fallback_analysis], which are not returned.  After a parse
    the action items are what the reply holds. *)
Theorem action_item_shapes (transcript client_name project_name : string) :
  Forall (fun item => is_remark item /\ populated item = false)
         (list_at "action_items"
            (LegacyApp.create_fallback_analysis set_iter transcript client_name
                                                project_name))
  /\ Forall (fun item => is_remark item /\ populated item = false)
            (list_at "action_items"
               (App.create_fallback_analysis set_iter transcript client_name
                                             project_name))
  /\ Forall (fun item => exists s, item = VStr s /\ 3 < String.length s)
            (list_at "action_items" (_fallback_parsing transcript))
  /\ (forall statement,
        Forall (fun item => is_task item /\ populated item = true)
               (LegacyApp.task_item statement))
  /\ (forall line,
        Forall (fun item => is_task item /\ populated item = true)
               (App.task_line line))
  /\ (forall object v,
        dict_get "action_items" object = Some v ->
        dict_get "action_items" (ensure_fields object) = Some v).
Proof.
  assert (R : forall lines,
             Forall (fun item => is_remark item /\ populated item = false)
                    (firstn 10 (or_generic (remarks set_iter lines)))).
  { intros lines. apply firstn_Forall.
    eapply Forall_impl;
      [|apply or_generic_remarks, remarks_are_remarks].
    intros item H. split; [exact H | now apply remark_not_populated]. }
  assert (T : forall item, is_task item ->
                           is_task item /\ populated item = true).
  { intros item H. split; [exact H | now apply task_populated]. }
  split; [|split; [|split; [|split; [|split]]]].
  - destruct (legacy_result set_iter transcript client_name project_name)
      as (s & m & -> & _).
    apply R.
  - destruct (app_result set_iter transcript client_name project_name)
      as (s & m & -> & _).
    apply R.
  - pose proof (keeps_fallback_body transcript result0 tidy_result0) as H.
    rewrite fallback_parsing_body in H. cbn [snd] in H.
    destruct H as (_ & _ & L).
    destruct (L "action_items") as (l & Hg & Hl); [simpl; tauto|].
    unfold list_at. rewrite Hg. apply Forall_map.
    eapply Forall_impl; [|exact Hl]. intros s Hs. now exists s.
  - intros statement. unfold LegacyApp.task_item.
    destruct (any_in LegacyApp.task_keywords _); [|constructor].
    destruct (nonempty _ && _); [|constructor].
    constructor; [|constructor]. apply T. do 3 eexists. reflexivity.
  - intros line. unfold App.task_line.
    destruct (any_in _ _); [|constructor].
    constructor; [|constructor]. apply T. do 3 eexists. reflexivity.
  - intros object v. apply ensure_fields_holds.
Qed.
End Claims.

(** C7 at a reply whose action item has a task and a priority and no
    other field. *)
Lemma action_item_shapes_witness :
  dict_get "action_items" (ensure_fields Samples.analysis)
  = Some (VList [VDict [("task", VStr "Update the docs");
                        ("priority", VStr "low")]]).
Proof.
  destruct (action_item_shapes Examples.insertion_order Examples.sarah
              "Acme" "Apollo") as (_ & _ & _ & _ & _ & H).
  apply H. reflexivity.
Defined.

End Items.
